(** * The IPEDS merit-aid pipeline (IPEDS_Merit_Aid_Analysis.py)

    A shallow embedding of the table loader, the institution filter, the
    metric calculator, the insight generator and the pipeline entry point.

    Data model.  A pandas DataFrame is a list of column names and a list of
    rows; a row is a finite map from column name to cell, and a cell the
    frame has no entry for reads as NaN.  Numeric cells are IEEE binary64
    values (Rocq's primitive floats, so [nan], [infinity] and rounding are
    those of the Python program); text cells are strings.  Column names are
    distinct within a frame, as [read_csv] leaves them; row labels (the
    index) are positional.

    Effects.  Console output, the CSV written and the figures shown are
    events collected in order; a Python exception that is not caught is the
    result [Raise].

    Libraries.  The pandas operations are those of pandas 2, in which an
    in-place method called on a column of a frame writes through to the
    frame (copy-on-write is off) and an absent label is reported as below;
    the sort is numpy's portable quicksort.  The exceptions modelled are the
    KeyErrors of absent labels.  A TypeError needs a text cell in a column
    the pipeline computes with or compares: the columns named by [numeric]
    hypotheses hold none. *)

From Stdlib Require Import Floats.PrimFloat Numbers.Cyclic.Int63.Uint63 ZArith.
From Stdlib Require Floats.SpecFloat Floats.FloatOps Floats.FloatAxioms.
From stdpp Require Import base option list sorting strings pretty gmap.

Set Warnings "-inexact-float".

(** ** Cells *)

Inductive cell :=
  | Num (x : float)
  | Str (s : string).

(** [np.nan] *)
Definition NaN : cell := Num nan.

(** The number a cell holds in arithmetic and comparisons.  The columns the
    pipeline computes with are numeric survey columns. *)
Definition num (c : cell) : float :=
  match c with
  | Num x => x
  | Str _ => nan
  end.

(** [pd.isna] on a scalar *)
Definition isna (c : cell) : bool :=
  match c with
  | Num x => is_nan x
  | Str _ => false
  end.

Definition notna (c : cell) : bool := negb (isna c).

Definition float_of_nat (n : nat) : float := of_uint63 (of_Z (Z.of_nat n)).

(** ** Frames *)

Abbreviation row := (gmap string cell).

Definition get (c : string) (r : row) : cell := default NaN (r !! c).

Record DataFrame := mkDF {
  columns : list string;
  rows : list row
}.

(** A column of a frame, or a computed one: [pd.Series]. *)
Abbreviation Series := (list cell).

(** [pd.DataFrame()] *)
Definition empty_frame : DataFrame := mkDF [] [].

(** [df.empty]: some axis has length zero. *)
Definition empty (df : DataFrame) : bool :=
  match columns df, rows df with
  | [], _ | _, [] => true
  | _, _ => false
  end.

Definition is_text (c : cell) : bool :=
  match c with
  | Num _ => false
  | Str _ => true
  end.

(** No text cell under the names [cs]: what arithmetic, ordered comparisons
    and a merge with a numeric key need of the columns. *)
Definition numeric (cs : list string) (df : DataFrame) : bool :=
  forallb (λ r, forallb (λ c, negb (is_text (get c r))) cs) (rows df).

(** ** Exceptions and results *)

Inductive exn :=
  | KeyError (key : string).

Inductive result (A : Type) :=
  | Ok (a : A)
  | Raise (e : exn).
Arguments Ok {A} a.
Arguments Raise {A} e.

#[global] Instance result_ret : MRet result := λ A a, Ok a.
#[global] Instance result_bind : MBind result := λ A B f m,
  match m with
  | Ok a => f a
  | Raise e => Raise e
  end.
#[global] Instance result_fmap : FMap result := λ A B f m,
  match m with
  | Ok a => Ok (f a)
  | Raise e => Raise e
  end.

(** ** The pandas operations the pipeline calls *)

Module pd.

(** The first name of [cs] that is not a column of [df]. *)
Definition missing (cs : list string) (df : DataFrame) : option string :=
  head (filter (λ c, c ∉ columns df) cs).

(** A label as [repr] shows it. *)
Definition quote (c : string) : string := "'" +:+ c +:+ "'".

Definition double_quote : string := String (Ascii.ascii_of_nat 34) "".

(** [str(e)] for the KeyError of [df[c]]: the label, quoted. *)
Definition label_not_found (c : string) : string := quote c.

(** [str(e)] for the KeyError of [df[[c1, ..., cn]]]: the message of pandas,
    in double quotes because it holds single ones.  It lists the labels
    that are not columns of [df], or the whole selection when none is. *)
Definition labels_not_found (cs : list string) (df : DataFrame) : string :=
  let not_found := filter (λ c, c ∉ columns df) cs in
  let listed l := String.concat ", " (quote <$> l) in
  double_quote +:+
  (if bool_decide (not_found = cs)
   then "None of [Index([" +:+ listed cs +:+ "], dtype='object')] are in the [columns]"
   else "[" +:+ listed not_found +:+ "] not in index") +:+
  double_quote.

(** [df[c]] *)
Definition getitem (c : string) (df : DataFrame) : result Series :=
  match missing [c] df with
  | Some k => Raise (KeyError k)
  | None => Ok (get c <$> rows df)
  end.

(** The cells of a row under the names [cs]. *)
Definition restrict (cs : list string) (r : row) : row :=
  filter (λ kv, kv.1 ∈ cs) r.

(** [df[[c1, ..., cn]]] *)
Definition getitem_cols (cs : list string) (df : DataFrame) : result DataFrame :=
  match missing cs df with
  | Some k => Raise (KeyError k)
  | None => Ok (mkDF cs (restrict cs <$> rows df))
  end.

(** [df[mask]] for a boolean Series aligned with the rows. *)
Fixpoint select {A} (l : list A) (mask : list bool) : list A :=
  match l, mask with
  | x :: l', b :: mask' => if b then x :: select l' mask' else select l' mask'
  | _, _ => []
  end.

Definition getitem_mask (mask : list bool) (df : DataFrame) : DataFrame :=
  mkDF (columns df) (select (rows df) mask).

(** [df[c] = values]: replaces the column, or appends a new one. *)
Definition setitem (c : string) (values : Series) (df : DataFrame) : DataFrame :=
  mkDF (if bool_decide (c ∈ columns df) then columns df else columns df ++ [c])
       (zip_with (λ r v, <[c := v]> r) (rows df) values).

(** Renaming one column: its cells move to the new name. *)
Definition rename_row (old new : string) (r : row) : row :=
  <[new := get old r]> (delete old r).

Definition rename_col (old new : string) (df : DataFrame) : DataFrame :=
  mkDF ((λ c, if bool_decide (c = old) then new else c) <$> columns df)
       (rename_row old new <$> rows df).

(** [df.rename(columns={old1: new1, ...})]; a name that is not a column is
    skipped. *)
Definition rename (names : list (string * string)) (df : DataFrame) : DataFrame :=
  foldl (λ d on, if bool_decide (on.1 ∈ columns d) then rename_col on.1 on.2 d else d)
        df names.

(** [df.dropna(subset=cs)] *)
Definition complete (cs : list string) (r : row) : bool :=
  forallb (λ c, notna (get c r)) cs.

Definition dropna (cs : list string) (df : DataFrame) : result DataFrame :=
  match missing cs df with
  | Some k => Raise (KeyError k)
  | None => Ok (mkDF (columns df) (List.filter (complete cs) (rows df)))
  end.

(** [df.replace(olds, new)]: numeric cells equal to one of [olds]. *)
Definition replace_cell (olds : list float) (new : cell) (c : cell) : cell :=
  match c with
  | Num x => if existsb (λ o, (x =? o)%float) olds then new else c
  | Str _ => c
  end.

Definition replace (olds : list float) (new : cell) (df : DataFrame) : DataFrame :=
  mkDF (columns df) (fmap (M := gmap string) (replace_cell olds new) <$> rows df).

(** Two join keys match when they are equal, or both missing. *)
Definition key_eq (a b : cell) : bool :=
  match a, b with
  | Num x, Num y => (x =? y)%float || (is_nan x && is_nan y)
  | Str s, Str t => bool_decide (s = t)
  | _, _ => false
  end.

Inductive how := inner | left.

(** The rows [l] joins with: each matching right row in the right table's
    order; with [how='left'] an unmatched [l] is kept and its right-hand
    columns are missing. *)
Definition join_row (on : string) (h : how) (right_rows : list row) (l : row) : list row :=
  match List.filter (λ r, key_eq (get on l) (get on r)) right_rows, h with
  | [], inner => []
  | [], left => [l]
  | ms, _ => (λ r, l ∪ delete on r) <$> ms
  end.

(** [l.merge(r, on=on, how=h)]: the key order of [l] is kept; a column
    name the two sides share (the key apart) gets the suffixes [_x] and
    [_y]. *)
Definition merge (l r : DataFrame) (on : string) (h : how) : result DataFrame :=
  match missing [on] l, missing [on] r with
  | Some k, _ | None, Some k => Raise (KeyError k)
  | None, None =>
      let shared := filter (λ c, c ≠ on ∧ c ∈ columns r) (columns l) in
      let l' := foldr (λ c d, rename_col c (c +:+ "_x") d) l shared in
      let r' := foldr (λ c d, rename_col c (c +:+ "_y") d) r shared in
      Ok (mkDF (columns l' ++ filter (λ c, c ≠ on) (columns r'))
               (rows l' ≫= join_row on h (rows r')))
  end.

(** [df.head(n)] *)
Definition head (n : nat) (df : DataFrame) : DataFrame :=
  mkDF (columns df) (take n (rows df)).

(** [df.reset_index(drop=True)]: rows are already addressed by position. *)
Definition reset_index (df : DataFrame) : DataFrame := df.

(** [df.copy()] of a frame value. *)
Definition copy (df : DataFrame) : DataFrame := df.

(** *** Series arithmetic and comparisons *)

Definition div (a b : Series) : Series :=
  zip_with (λ x y, Num (num x / num y)%float) a b.
Definition add (a b : Series) : Series :=
  zip_with (λ x y, Num (num x + num y)%float) a b.
Definition div_scalar (a : Series) (k : float) : Series :=
  (λ x, Num (num x / k)%float) <$> a.
Definition le (a : Series) (k : float) : list bool :=
  (λ x, (num x <=? k)%float) <$> a.
Definition ge (a : Series) (k : float) : list bool :=
  (λ x, (k <=? num x)%float) <$> a.
Definition eq (a : Series) (k : float) : list bool :=
  (λ x, (num x =? k)%float) <$> a.
Definition and (a b : list bool) : list bool := zip_with andb a b.

(** [s.fillna(v)] *)
Definition fillna (v : cell) (s : Series) : Series :=
  (λ c, if isna c then v else c) <$> s.

(** *** Order statistics (missing values are skipped) *)

Fixpoint insert_asc (x : float) (l : list float) : list float :=
  match l with
  | [] => [x]
  | y :: l' => if (x <? y)%float then x :: l else y :: insert_asc x l'
  end.

Definition sorted_values (s : Series) : list float :=
  foldr insert_asc [] (List.filter (λ x, negb (is_nan x)) (num <$> s)).

Definition nth_value (v : list float) (i : nat) : float := default nan (v !! i).

(** [s.median()]: the middle value, or the mean of the two middle ones. *)
Definition median (s : Series) : float :=
  let v := sorted_values s in
  let n := length v in
  match n with
  | 0 => nan
  | _ => if Nat.even n
         then ((nth_value v (n / 2 - 1) + nth_value v (n / 2)) / 2)%float
         else nth_value v (n / 2)
  end.

(** Linear interpolation between two neighbours, as numpy computes it. *)
Definition lerp (a b t : float) : float :=
  if (0.5 <=? t)%float then (b - (b - a) * (1 - t))%float
  else (a + (b - a) * t)%float.

(** [s.quantile(q)] with the default linear interpolation: the value at
    the fractional position [q * (n - 1)] of the sorted values. *)
Definition quantile (q : float) (s : Series) : float :=
  let v := sorted_values s in
  let n := length v in
  match n with
  | 0 => nan
  | _ =>
      let pos := (float_of_nat (n - 1) * q)%float in
      let lo := length (filter (λ k, (float_of_nat k <=? pos)%float = true) (seq 1 (n - 1))) in
      let hi := Nat.min (lo + 1) (n - 1) in
      lerp (nth_value v lo) (nth_value v hi) (pos - float_of_nat lo)%float
  end.

End pd.

(** ** Console, files and figures *)

(** The two charts; each is drawn from the rows handed to it. *)
Inductive Figure :=
  | Dumbbell (vis_df : DataFrame)
  | Parcoords (vis_df : DataFrame).

Inductive event :=
  | Print (s : string)
  | PrintTable (df : DataFrame)
  | ToCsv (path : string) (df : DataFrame)
  | Show (fig : Figure).

(** A computation that prints, writes and shows as it goes, and returns or
    raises. *)
Definition M (A : Type) : Type := list event * result A.

#[global] Instance M_ret : MRet M := λ A a, ([], Ok a).
#[global] Instance M_bind : MBind M := λ A B f m,
  match m with
  | (out, Ok a) => let '(out', r) := f a in (out ++ out', r)
  | (out, Raise e) => (out, Raise e)
  end.

Definition lift {A} (r : result A) : M A := ([], r).
Definition print (s : string) : M unit := ([Print s], Ok ()).
Definition emit (e : event) : M unit := ([e], Ok ()).

Definition nl : string := String (Ascii.ascii_of_nat 10) "".

(** ** 1. Configuration *)

Definition IPEDS_BASE_PATH : string := "C:\Users\amatu\Downloads\Phase_3".
Definition OUTPUT_FILE : string := "final_merit_college_rankings.csv".

Definition ESSENTIAL_FILES : list (string * string) :=
  [ ("hd", "HD2022.csv");
    ("sfa_p1", "SFA2122_P1.csv");
    ("sfa_p2", "SFA2122_P2.csv");
    ("ic", "IC2022_AY.csv");
    ("adm_sat", "ADM2022.csv");
    ("adm_rate", "DRVADM2022.csv");
    ("gr", "DRVGR2022.csv");
    ("mission", "IC2022Mission.csv") ].

(** [os.path.join] *)
Definition path_join (base name : string) : string := base +:+ "\" +:+ name.

(** The directory the pipeline reads: each path that exists, with the table
    [read_csv] parses from it. *)
Abbreviation files := (gmap string DataFrame).

(** ** 2. Extraction and initial filtering *)

Record Tables := mkTables {
  t_hd : DataFrame;
  t_sfa_p1 : DataFrame;
  t_sfa_p2 : DataFrame;
  t_ic : DataFrame;
  t_adm_sat : DataFrame;
  t_adm_rate : DataFrame;
  t_gr : DataFrame;
  t_mission : DataFrame
}.

(** 2.1: the loop over [files_map.items()]; [None] is the early [return None]. *)
Fixpoint load_core_tables (fs : files) (base_path : string)
    (files_map : list (string * string)) (data : gmap string DataFrame)
    : M (option (gmap string DataFrame)) :=
  match files_map with
  | [] => mret (Some data)
  | (key, filename) :: rest =>
      match fs !! path_join base_path filename with
      | Some df => load_core_tables fs base_path rest (<[key := df]> data)
      | None =>
          print ("Error: Required file not found: " +:+ filename +:+
                 ". Please ensure this file exists in the directory.");;
          mret None
      end
  end.

Definition SENTINELS : list float := [(-1)%float; (-2)%float; (-9)%float].

Definition SURVEY_TABLES : list string :=
  ["sfa_p1"; "sfa_p2"; "ic"; "adm_sat"; "adm_rate"; "gr"].

(** 2.2: [data[df_name].replace([-1, -2, -9], np.nan, inplace=True)] for
    each survey table that was loaded. *)
Definition clean_special_values (data : gmap string DataFrame) : gmap string DataFrame :=
  foldl (λ d df_name, alter (pd.replace SENTINELS NaN) df_name d) data SURVEY_TABLES.

(** [data[key]] on the dict of loaded tables. *)
Definition dict_get (key : string) (data : gmap string DataFrame) : result DataFrame :=
  match data !! key with
  | Some df => Ok df
  | None => Raise (KeyError key)
  end.

(** 2.3: the body of the [try]. *)
Definition filter_institutions (hd : DataFrame) : result DataFrame :=
  iclevel ← pd.getitem "ICLEVEL" hd;
  hdegofr1 ← pd.getitem "HDEGOFR1" hd;
  unitid ← pd.getitem "UNITID" hd;
  pd.getitem_cols ["UNITID"; "INSTNM"; "CONTROL"]
    (pd.getitem_mask
       (pd.and (pd.and (pd.eq iclevel 1) (pd.ge hdegofr1 3)) (notna <$> unitid))
       hd).

(** [str(e)] for the KeyError of the filter: that of [hd[c]] for a column
    of the mask, that of the selection of the three columns after them. *)
Definition filter_error (hd : DataFrame) : string :=
  match pd.missing ["ICLEVEL"; "HDEGOFR1"; "UNITID"] hd with
  | Some c => pd.label_not_found c
  | None => pd.labels_not_found ["UNITID"; "INSTNM"; "CONTROL"] hd
  end.

Definition load_and_clean_data (fs : files) (base_path : string)
    (files_map : list (string * string)) : M (option Tables) :=
  loaded ← load_core_tables fs base_path files_map ∅;
  match loaded with
  | None => mret None
  | Some data =>
      let data := clean_special_values data in
      hd ← lift (dict_get "hd" data);
      match filter_institutions hd with
      | Raise (KeyError _) =>
          print (nl +:+ "--- CRITICAL FILTER ERROR ---");;
          print ("KeyError: " +:+ filter_error hd +:+
                 " not found in HD2022.csv. Please inspect the HD2022 columns.");;
          mret None
      | Ok hd_filtered =>
          print "Successfully used 'HDEGOFR1' to filter for 4-year degree-granting institutions.";;
          sfa_p1 ← lift (dict_get "sfa_p1" data);
          sfa_p2 ← lift (dict_get "sfa_p2" data);
          ic ← lift (dict_get "ic" data);
          adm_sat ← lift (dict_get "adm_sat" data);
          adm_rate ← lift (dict_get "adm_rate" data);
          gr ← lift (dict_get "gr" data);
          mission ← lift (dict_get "mission" data);
          mret (Some (mkTables hd_filtered sfa_p1 sfa_p2 ic adm_sat adm_rate gr mission))
      end
  end.

(** ** 3. Transformation and metric calculation *)

(** 3.1: financial aid parts 1 and 2. *)
Definition merge_sfa (sfa_p1 sfa_p2 : DataFrame) : result DataFrame :=
  p1 ← pd.getitem_cols ["UNITID"; "IGRNT_A"] sfa_p1;
  p2 ← pd.getitem_cols ["UNITID"; "NPT442"] sfa_p2;
  pd.merge p1 p2 "UNITID" pd.inner.

(** 3.2: the body of the admissions [try]. *)
Definition merge_adm (adm_sat adm_rate : DataFrame) : result DataFrame :=
  adm_sat_data ← pd.getitem_cols ["UNITID"; "SATVR75"; "SATMT75"] adm_sat;
  adm_rate_data ← pd.getitem_cols ["UNITID"; "DVADM01"] adm_rate;
  pd.merge adm_sat_data adm_rate_data "UNITID" pd.left.

(** 3.4: HD -> IC -> SFA -> ADM -> GR -> MISSION. *)
Definition merge_all (hd ic_data sfa_data_merged adm_data_merged gr_data mission_data : DataFrame)
    : result DataFrame :=
  merged_df ← pd.merge hd ic_data "UNITID" pd.left;
  merged_df ← pd.merge merged_df sfa_data_merged "UNITID" pd.left;
  merged_df ← pd.merge merged_df adm_data_merged "UNITID" pd.left;
  merged_df ← pd.merge merged_df gr_data "UNITID" pd.left;
  pd.merge merged_df mission_data "UNITID" pd.left.

(** The columns without which a row cannot be scored. *)
Definition FINANCIAL : list string := ["TUITION2"; "IGRNT_A"; "NPT442"].

(** 3.5: [merged_df['MGI'] = merged_df['IGRNT_A'] / merged_df['TUITION2']] *)
Definition add_mgi (merged_df : DataFrame) : result DataFrame :=
  igrnt_a ← pd.getitem "IGRNT_A" merged_df;
  tuition2 ← pd.getitem "TUITION2" merged_df;
  mret (pd.setitem "MGI" (pd.div igrnt_a tuition2) merged_df).

(** [merged_df['GBA4RTT'].fillna(merged_df['GBA4RTT'].median(), inplace=True)]:
    in pandas 2 the Series is a view of the frame's column, so the fill
    lands in [merged_df].  (With copy-on-write, the default from pandas 3,
    the fill would stay in the temporary Series and [merged_df] would keep
    its gaps.) *)
Definition fill_graduation_rate (merged_df : DataFrame) : result DataFrame :=
  gba4rtt ← pd.getitem "GBA4RTT" merged_df;
  gba4rtt' ← pd.getitem "GBA4RTT" merged_df;
  mret (pd.setitem "GBA4RTT" (pd.fillna (Num (pd.median gba4rtt')) gba4rtt) merged_df).

(** 3.6: [merged_df['NET_PRICE_RATIO'] = merged_df['NPT442'] / merged_df['TUITION2']] *)
Definition add_net_price_ratio (merged_df : DataFrame) : result DataFrame :=
  npt442 ← pd.getitem "NPT442" merged_df;
  tuition2 ← pd.getitem "TUITION2" merged_df;
  mret (pd.setitem "NET_PRICE_RATIO" (pd.div npt442 tuition2) merged_df).

Definition READABLE : list (string * string) :=
  [ ("TUITION2", "Sticker_Price");
    ("IGRNT_A", "Avg_Inst_Grant");
    ("NPT442", "Net_Price_MidClass");
    ("GBA4RTT", "Graduation_Rate_4yr");
    ("DVADM01", "Admissions_Rate");
    ("mission", "MISSION") ].

(** Percentages to the 0-1 scale. *)
Definition rescale (c : string) (merged_df : DataFrame) : result DataFrame :=
  s ← pd.getitem c merged_df;
  mret (pd.setitem c (pd.div_scalar s 100) merged_df).

(** Everything after the merges: the drop of rows without financial data,
    then the derived columns. *)
Definition derive_metrics (merged_df : DataFrame) : result DataFrame :=
  merged_df ← pd.dropna FINANCIAL merged_df;
  merged_df ← add_mgi merged_df;
  merged_df ← fill_graduation_rate merged_df;
  merged_df ← add_net_price_ratio merged_df;
  let merged_df := pd.rename READABLE merged_df in
  merged_df ← rescale "Graduation_Rate_4yr" merged_df;
  rescale "Admissions_Rate" merged_df.

(** [str(e)] for the KeyError of the admissions block: that of the first
    of its two selections that fails. *)
Definition admissions_error (adm_sat adm_rate : DataFrame) : string :=
  match pd.missing ["UNITID"; "SATVR75"; "SATMT75"] adm_sat with
  | Some _ => pd.labels_not_found ["UNITID"; "SATVR75"; "SATMT75"] adm_sat
  | None => pd.labels_not_found ["UNITID"; "DVADM01"] adm_rate
  end.

Definition calculate_metrics (hd sfa_p1 sfa_p2 ic adm_sat adm_rate gr mission : DataFrame)
    : M DataFrame :=
  sfa_data_merged ← lift (merge_sfa sfa_p1 sfa_p2);
  match merge_adm adm_sat adm_rate with
  | Raise (KeyError _) =>
      print (nl +:+ "--- CRITICAL ADMISSIONS ERROR ---");;
      print ("KeyError: Missing required column " +:+ admissions_error adm_sat adm_rate +:+
             ". Columns checked: ADM2022 needs SATVR75, SATMT75. DRVADM2022 needs DVADM01.");;
      mret empty_frame
  | Ok adm_data_merged =>
      ic_data ← lift (pd.getitem_cols ["UNITID"; "TUITION2"] ic);
      match pd.getitem_cols ["UNITID"; "GBA4RTT"] gr with
      | Raise (KeyError _) =>
          print (nl +:+ "--- CRITICAL GRADUATION RATE ERROR ---");;
          print ("KeyError: Missing required column " +:+
                 pd.labels_not_found ["UNITID"; "GBA4RTT"] gr +:+
                 ". DRVGR2022.csv must contain 'GBA4RTT'.");;
          mret empty_frame
      | Ok gr_data =>
          match pd.rename [("unitid", "UNITID")] <$> pd.getitem_cols ["unitid"; "mission"] mission with
          | Raise (KeyError _) =>
              print (nl +:+ "--- CRITICAL MISSION ERROR ---");;
              print ("KeyError: Missing required column " +:+
                     pd.labels_not_found ["unitid"; "mission"] mission +:+
                     ". IC2022Mission.csv must contain 'unitid' and 'mission'.");;
              mret empty_frame
          | Ok mission_data =>
              merged_df ← lift (merge_all hd ic_data sfa_data_merged adm_data_merged gr_data mission_data);
              lift (derive_metrics merged_df)
          end
      end
  end.

(** ** 4. Ranking and final filtering *)

Definition REPORT_COLUMNS : list string :=
  [ "UNITID"; "INSTNM"; "CONTROL"; "Sticker_Price"; "Avg_Inst_Grant";
    "Net_Price_MidClass"; "MGI"; "Graduation_Rate_4yr"; "Admissions_Rate";
    "SATVR75"; "SATMT75"; "Composite_Score"; "MISSION" ].

(** Filters 1 and 2: the net-price ceiling, then the MGI threshold taken
    from the frame that was passed in. *)
Definition tier1 (df : DataFrame) : result DataFrame :=
  let final_df := pd.copy df in
  net ← pd.getitem "Net_Price_MidClass" final_df;
  let final_df := pd.copy (pd.getitem_mask (pd.le net 25000) final_df) in
  mgi ← pd.getitem "MGI" df;
  let mgi_threshold := pd.quantile 0.5 mgi in
  mgi' ← pd.getitem "MGI" final_df;
  mret (pd.copy (pd.getitem_mask (pd.ge mgi' mgi_threshold) final_df)).

(** The relaxed selection, from [df] again. *)
Definition fallback (df : DataFrame) : result DataFrame :=
  net ← pd.getitem "Net_Price_MidClass" df;
  net' ← pd.getitem "Net_Price_MidClass" df;
  mgi ← pd.getitem "MGI" df;
  mgi' ← pd.getitem "MGI" df;
  mret (pd.copy (pd.getitem_mask
                   (pd.and (pd.le net (pd.quantile 0.3 net'))
                           (pd.ge mgi (pd.quantile 0.8 mgi')))
                   df)).

(** 4.2: [final_df['Composite_Score'] = (MGI + Graduation_Rate_4yr) / NET_PRICE_RATIO] *)
Definition composite_score (final_df : DataFrame) : result Series :=
  mgi ← pd.getitem "MGI" final_df;
  grad ← pd.getitem "Graduation_Rate_4yr" final_df;
  npr ← pd.getitem "NET_PRICE_RATIO" final_df;
  mret (pd.div (pd.add mgi grad) npr).

Section Ranking.

(** The order [sort_values(ascending=False)] puts a key column in, as
    positions into it.  The call leaves [kind] at its default, so the
    ordering is numpy's to choose; what pandas documents of it is
    [sorts_descending] below. *)
Variable argsort_desc : Series → list nat.

(** [df.sort_values(by=c, ascending=False)] *)
Definition sort_values (c : string) (df : DataFrame) : result DataFrame :=
  keys ← pd.getitem c df;
  mret (mkDF (columns df) (omap (λ i, rows df !! i) (argsort_desc keys))).

(** The ranking of the rows that were selected. *)
Definition rank (final_df : DataFrame) : result DataFrame :=
  score ← composite_score final_df;
  let final_df := pd.setitem "Composite_Score" score final_df in
  final_df ← sort_values "Composite_Score" final_df;
  final_report ← pd.getitem_cols REPORT_COLUMNS final_df;
  mret (pd.reset_index (pd.head 20 final_report)).

Definition generate_insights (df : DataFrame) : M DataFrame :=
  final_df ← lift (tier1 df);
  final_df ←
    (if length (rows final_df) <? 10 then
       print ("Warning: Only " +:+ pretty (length (rows final_df)) +:+
              " colleges found. Relaxing Net Price filter to top 20% of MGI.");;
       lift (fallback df)
     else mret final_df);
  lift (rank final_df).

(** ** 5. Visualization *)

(** The charts are drawn from the first ten rows of the report; the columns
    they read are those of the report. *)
Definition create_visualizations (report_df : DataFrame) : result (Figure * Figure) :=
  let vis_df := pd.copy (pd.head 10 report_df) in
  _ ← pd.getitem_cols
        ["Net_Price_MidClass"; "Sticker_Price"; "INSTNM"; "Composite_Score";
         "Avg_Inst_Grant"; "Admissions_Rate"; "Graduation_Rate_4yr"] vis_df;
  mret (Dumbbell vis_df, Parcoords vis_df).

(** ** 6. Main execution *)

Definition run_phase_3_pipeline (fs : files) : M () :=
  print "--- Starting Phase 3 ETL Pipeline ---";;
  data_tuple ← load_and_clean_data fs IPEDS_BASE_PATH ESSENTIAL_FILES;
  match data_tuple with
  | None => mret ()
  | Some t =>
      print ("Data loaded successfully from " +:+ pretty (length ESSENTIAL_FILES) +:+
             " essential files.");;
      merged_data ← calculate_metrics (t_hd t) (t_sfa_p1 t) (t_sfa_p2 t) (t_ic t)
                      (t_adm_sat t) (t_adm_rate t) (t_gr t) (t_mission t);
      if empty merged_data then mret ()
      else
        print ("Initial Merge Size (after financial data cleanup): " +:+
               pretty (length (rows merged_data)));;
        print "Metrics calculated: Merit Generosity Index (MGI) and Affordability Score.";;
        final_report ← generate_insights merged_data;
        print ("Final Report generated. Top 20 colleges selected (" +:+
               pretty (length (rows final_report)) +:+ " results).");;
        let output_path := path_join IPEDS_BASE_PATH OUTPUT_FILE in
        emit (ToCsv output_path final_report);;
        print ("Final ranked list saved to: " +:+ output_path);;
        if negb (empty final_report) then
          figs ← lift (create_visualizations final_report);
          print (nl +:+ "--- Final Output ---");;
          print "Top Ranked Colleges for Middle-Class Merit Aid (Full Report Saved to CSV):";;
          table ← lift (pd.getitem_cols ["INSTNM"; "Net_Price_MidClass"; "MGI"; "Composite_Score"]
                          final_report);
          emit (PrintTable (pd.head 10 table));;
          print (nl +:+ "Displaying final visualizations (will open in your browser):");;
          emit (Show figs.1);;
          emit (Show figs.2)
        else
          print (nl +:+ "No colleges met the stringent criteria. Please review filters.")
  end.

End Ranking.

(** ** Orderings *)

(** [a] may stand before [b] in a descending order with missing keys last. *)
Definition may_precede (a b : cell) : Prop :=
  (isna a = true → isna b = true) ∧ (num a <? num b)%float = false.

#[global] Instance may_precede_dec a b : Decision (may_precede a b).
Proof. unfold may_precede. apply _. Defined.

(** What [sort_values(ascending=False)] promises of the order [idx] it puts
    the keys in: every row once, keys from high to low, missing keys last. *)
Record sorts_descending (keys : Series) (idx : list nat) : Prop := {
  sd_perm : idx ≡ₚ seq 0 (length keys);
  sd_desc : StronglySorted may_precede (omap (keys !!.) idx)
}.

(** Insertion of position [i] with key [k] into a descending list, before
    the keys it ties with. *)
Fixpoint insert_desc (k : float) (i : nat) (l : list (float * nat))
    : list (float * nat) :=
  match l with
  | [] => [(k, i)]
  | (k', i') :: l' =>
      if (k <? k')%float
      then (k', i') :: insert_desc k i l'
      else (k, i) :: l
  end.

(** A stable ordering: tied keys keep their input order. *)
Definition stable_argsort_desc (keys : Series) : list nat :=
  let indexed := imap (λ i c, (c, i)) keys in
  let present := List.filter (λ ci, notna ci.1) indexed in
  let missing := List.filter (λ ci, isna ci.1) indexed in
  (foldr (λ ci l, insert_desc (num ci.1) ci.2 l) [] present).*2 ++ missing.*2.

(** ** The sort of numpy and pandas

    [sort_values] leaves [kind] at ['quicksort']: numpy's introsort on the
    index array, as its portable C code runs it. *)

Module npysort.

Section Sort.

Context {A : Type} `{!Inhabited A}.

(** [LT]: the order the sort compares by. *)
Variable less : A → A → bool.

(** [INTP_SWAP(a[i], a[j])] *)
Definition swap (i j : nat) (a : list A) : list A :=
  <[j := a !!! i]> (<[i := a !!! j]> a).

(** The insertion of [vi] into the sorted elements before it, nearest
    first: it passes those it is less than. *)
Fixpoint insert_before (vi : A) (before : list A) : list A :=
  match before with
  | [] => [vi]
  | vk :: before' => if less vi vk then vk :: insert_before vi before' else vi :: before
  end.

(** The insertion sort of a small partition. *)
Definition insertion_sort (a : list A) : list A :=
  reverse (foldl (λ before vi, insert_before vi before) [] a).

(** [if (LT(a[i], a[j])) INTP_SWAP(a[i], a[j])] *)
Definition order (i j : nat) (a : list A) : list A :=
  if less (a !!! i) (a !!! j) then swap i j a else a.

(** [do ++pi; while (LT(a[pi], vp))], from the position after [pi]. *)
Fixpoint scan_up (vp : A) (a : list A) (fuel pi : nat) : nat :=
  match fuel with
  | 0 => pi
  | S fuel => if less (a !!! pi) vp then scan_up vp a fuel (S pi) else pi
  end.

(** [do --pj; while (LT(vp, a[pj]))], from the position before [pj]. *)
Fixpoint scan_down (vp : A) (a : list A) (fuel pj : nat) : nat :=
  match fuel with
  | 0 => pj
  | S fuel => if less vp (a !!! pj) then scan_down vp a fuel (pred pj) else pj
  end.

(** The [for (;;)] of the partition: the two scans, a swap, until they
    cross. *)
Fixpoint crossing (vp : A) (fuel pi pj : nat) (a : list A) : nat * list A :=
  match fuel with
  | 0 => (pi, a)
  | S fuel =>
      let pi := scan_up vp a (length a) (S pi) in
      let pj := scan_down vp a (length a) (pred pj) in
      if pj <=? pi then (pi, a) else crossing vp fuel pi pj (swap pi pj a)
  end.

(** The partition of [a[pl..pr]], positions counted from [pl]: the median
    of the first, middle and last element is the pivot; the result is its
    final position and the array. *)
Definition partition (a : list A) : nat * list A :=
  let pr := length a - 1 in
  let pm := pr / 2 in
  let a := order pm 0 a in
  let a := order pr pm a in
  let a := order pm 0 a in
  let vp := a !!! pm in
  let a := swap pm (pr - 1) a in
  let '(pi, a) := crossing vp (length a) 0 (pr - 1) a in
  (pi, swap pi (pr - 1) a).

(** The sift of [a[i]] down the heap [a[0..n-1]].  (The C code holds the
    element in a temporary and moves children up into the hole; the array
    it leaves is that of the swaps.) *)
Fixpoint sift_down (fuel n i : nat) (a : list A) : list A :=
  match fuel with
  | 0 => a
  | S fuel =>
      let j := 2 * i + 1 in
      if j <? n then
        let j := if (S j <? n) && less (a !!! j) (a !!! S j) then S j else j in
        if less (a !!! i) (a !!! j) then sift_down fuel n j (swap i j a) else a
      else a
  end.

(** A heap from node [lo] on: no node from [lo] on is less than a child
    of its own among the first [n] elements. *)
Definition heap (lo n : nat) (a : list A) : Prop :=
  ∀ i j, lo ≤ i → (j = 2 * i + 1 ∨ j = 2 * i + 2) → j < n →
         less (a !!! i) (a !!! j) = false.

(** The second loop of the heap sort: the root goes behind the heap, the
    last element is sifted down from the root. *)
Fixpoint sort_heap (n : nat) (a : list A) : list A :=
  match n with
  | 0 => a
  | S n' =>
      if 1 <? n then sort_heap n' (sift_down n' n' 0 (swap 0 n' a)) else a
  end.

(** [aheapsort]: the fallback of a partition that was cut too often. *)
Definition heapsort (a : list A) : list A :=
  let n := length a in
  sort_heap n (foldl (λ a i, sift_down n n i a) a (reverse (seq 0 (n / 2)))).

(** The loop of [aquicksort] on one partition: partitions of more than 17
    elements are cut at a pivot, the smaller part is gone on with and the
    larger one is pushed with the depth left; a partition that is popped
    with no depth left is heap-sorted. *)
Fixpoint quicksort (fuel : nat) (cdepth : Z) (a : list A) : list A :=
  match fuel with
  | 0 => a
  | S fuel =>
      if length a <=? 17 then insertion_sort a
      else
        let '(pi, a) := partition a in
        let left := take pi a in
        let right := drop (S pi) a in
        let cdepth := (cdepth - 1)%Z in
        let popped part :=
          if (cdepth <? 0)%Z then heapsort part else quicksort fuel cdepth part in
        if pi <? length a - 1 - pi
        then quicksort fuel cdepth left ++ take 1 (drop pi a) ++ popped right
        else popped left ++ take 1 (drop pi a) ++ quicksort fuel cdepth right
  end.

(** [aquicksort]: the depth allowed is twice the position of the highest
    bit of the length. *)
Definition aquicksort (a : list A) : list A :=
  quicksort (length a) (2 * Z.of_nat (Nat.log2 (length a))) a.

End Sort.

(** [npy::double_tag::less]: NaN sorts last. *)
Definition less (a b : float) : bool :=
  (a <? b)%float || (is_nan b && negb (is_nan a)).

End npysort.

(** [npysort.less] on the values the doubles stand for. *)
Definition SFless (a b : SpecFloat.spec_float) : bool :=
  SpecFloat.SFltb a b ||
  (match b with SpecFloat.S754_nan => true | _ => false end &&
   negb (match a with SpecFloat.S754_nan => true | _ => false end)).

#[global] Instance cell_inhabited : Inhabited cell := populate NaN.

(** [nargsort(items, kind='quicksort', ascending=False, na_position='last')]
    of pandas: the keys that are present are reversed, sorted in ascending
    order by numpy and reversed again; the positions of the missing keys
    follow.  The arrays [non_nans] and [non_nan_idx] are one list of pairs
    here, and the positions [argsort] returns are shown as the pairs at
    those positions. *)
Definition nargsort (items : Series) : list nat :=
  let indexed := imap (λ i c, (i, c)) items in
  let non_nans := reverse (List.filter (λ ic, notna ic.2) indexed) in
  let nan_idx := (List.filter (λ ic, isna ic.2) indexed).*1 in
  let indexer :=
    (npysort.aquicksort (λ a b, npysort.less (num a.2) (num b.2)) non_nans).*1 in
  reverse indexer ++ nan_idx.

(** ** The insight generator over a store of frame objects

    Python variables hold references: [final_df = df] would make the later
    [final_df['Composite_Score'] = ...] write into the caller's frame.  The
    store is the list of DataFrame objects alive, a reference is a position
    in it, a method that returns a new frame allocates, and an item
    assignment overwrites the object it is applied to. *)

Abbreviation store := (list DataFrame).
Abbreviation ref := nat.

Definition St (A : Type) : Type := store → store * M A.

#[global] Instance St_ret : MRet St := λ A a σ, (σ, mret a).
#[global] Instance St_bind : MBind St := λ A B f m σ,
  match m σ with
  | (σ', (out, Ok a)) => let '(σ'', (out', r)) := f a σ' in (σ'', (out ++ out', r))
  | (σ', (out, Raise e)) => (σ', (out, Raise e))
  end.

Definition alloc (df : DataFrame) : St ref := λ σ, (σ ++ [df], mret (length σ)).
Definition deref (l : ref) : St DataFrame := λ σ, (σ, mret (default empty_frame (σ !! l))).
Definition assign (l : ref) (df : DataFrame) : St () := λ σ, (<[l := df]> σ, mret ()).
Definition lift_result {A} (r : result A) : St A := λ σ, (σ, lift r).
Definition lift_M {A} (m : M A) : St A := λ σ, (σ, m).

Module obj.

(** [df.copy()] *)
Definition copy (l : ref) : St ref := d ← deref l; alloc (pd.copy d).

(** [df[c]], read out as a Series value. *)
Definition getitem (c : string) (l : ref) : St Series :=
  d ← deref l; lift_result (pd.getitem c d).

(** [df[mask]] *)
Definition getitem_mask (mask : list bool) (l : ref) : St ref :=
  d ← deref l; alloc (pd.getitem_mask mask d).

(** [df[[c1, ..., cn]]] *)
Definition getitem_cols (cs : list string) (l : ref) : St ref :=
  d ← deref l; d' ← lift_result (pd.getitem_cols cs d); alloc d'.

(** [df[c] = values], in place. *)
Definition setitem (c : string) (values : Series) (l : ref) : St () :=
  d ← deref l; assign l (pd.setitem c values d).

(** [len(df)] *)
Definition len (l : ref) : St nat := d ← deref l; mret (length (rows d)).

(** [df.head(n)] *)
Definition head (n : nat) (l : ref) : St ref := d ← deref l; alloc (pd.head n d).

(** [df.reset_index(drop=True)] *)
Definition reset_index (l : ref) : St ref := d ← deref l; alloc (pd.reset_index d).

End obj.

Section RankingObjects.

Variable argsort_desc : Series → list nat.

(** [df.sort_values(by=c, ascending=False)], not in place. *)
Definition sort_values_obj (c : string) (l : ref) : St ref :=
  d ← deref l; d' ← lift_result (sort_values argsort_desc c d); alloc d'.

(** Filters 1 and 2. *)
Definition tier1_obj (df : ref) : St ref :=
  final_df ← obj.copy df;
  net ← obj.getitem "Net_Price_MidClass" final_df;
  final_df ← obj.getitem_mask (pd.le net 25000) final_df;
  final_df ← obj.copy final_df;
  mgi ← obj.getitem "MGI" df;
  let mgi_threshold := pd.quantile 0.5 mgi in
  mgi' ← obj.getitem "MGI" final_df;
  final_df ← obj.getitem_mask (pd.ge mgi' mgi_threshold) final_df;
  obj.copy final_df.

(** The relaxed selection. *)
Definition fallback_obj (df : ref) : St ref :=
  net ← obj.getitem "Net_Price_MidClass" df;
  net' ← obj.getitem "Net_Price_MidClass" df;
  mgi ← obj.getitem "MGI" df;
  mgi' ← obj.getitem "MGI" df;
  relaxed ← obj.getitem_mask
              (pd.and (pd.le net (pd.quantile 0.3 net'))
                      (pd.ge mgi (pd.quantile 0.8 mgi')))
              df;
  obj.copy relaxed.

(** 4.2: the score is written into the frame [final_df] refers to. *)
Definition rank_obj (final_df : ref) : St ref :=
  mgi ← obj.getitem "MGI" final_df;
  grad ← obj.getitem "Graduation_Rate_4yr" final_df;
  npr ← obj.getitem "NET_PRICE_RATIO" final_df;
  obj.setitem "Composite_Score" (pd.div (pd.add mgi grad) npr) final_df;;
  final_df ← sort_values_obj "Composite_Score" final_df;
  selected ← obj.getitem_cols REPORT_COLUMNS final_df;
  top ← obj.head 20 selected;
  obj.reset_index top.

Definition generate_insights_obj (df : ref) : St ref :=
  final_df ← tier1_obj df;
  n ← obj.len final_df;
  final_df ←
    (if n <? 10 then
       n' ← obj.len final_df;
       lift_M (print ("Warning: Only " +:+ pretty n' +:+
                      " colleges found. Relaxing Net Price filter to top 20% of MGI."));;
       fallback_obj df
     else mret final_df);
  rank_obj final_df.

End RankingObjects.

(** The frame a returned reference stands for. *)
Definition value_at (σ : store) (r : result ref) : result DataFrame :=
  (λ l, default empty_frame (σ !! l)) <$> r.

(** ** Example inputs *)

(** [pd.DataFrame(data, columns=cols)] *)
Definition frame_of (cols : list string) (data : list (list cell)) : DataFrame :=
  mkDF cols ((λ values, list_to_map (zip cols values)) <$> data).

(** One institution as the survey files describe it. *)
Record institution := mkInstitution {
  i_unitid : float;
  i_name : string;
  i_sticker : cell;
  i_grant : cell;
  i_net_price : cell;
  i_grad_rate : cell;
  i_admit_rate : cell
}.

(** The eight tables for a list of four-year institutions. *)
Definition tables_of (l : list institution) : Tables :=
  let ids i := Num (i_unitid i) in
  {| t_hd := frame_of ["UNITID"; "INSTNM"; "CONTROL"; "ICLEVEL"; "HDEGOFR1"]
               ((λ i, [ids i; Str (i_name i); Num 2; Num 1; Num 3]) <$> l);
     t_sfa_p1 := frame_of ["UNITID"; "IGRNT_A"] ((λ i, [ids i; i_grant i]) <$> l);
     t_sfa_p2 := frame_of ["UNITID"; "NPT442"] ((λ i, [ids i; i_net_price i]) <$> l);
     t_ic := frame_of ["UNITID"; "TUITION2"] ((λ i, [ids i; i_sticker i]) <$> l);
     t_adm_sat := frame_of ["UNITID"; "SATVR75"; "SATMT75"] ((λ i, [ids i; Num 650; Num 660]) <$> l);
     t_adm_rate := frame_of ["UNITID"; "DVADM01"]
                     ((λ i, [ids i; i_admit_rate i]) <$> List.filter (λ i, notna (i_admit_rate i)) l);
     t_gr := frame_of ["UNITID"; "GBA4RTT"] ((λ i, [ids i; i_grad_rate i]) <$> l);
     t_mission := frame_of ["unitid"; "mission"] ((λ i, [ids i; Str "Teaching"]) <$> l) |}.

(** The directory that holds them under the configured names. *)
Definition directory_of (t : Tables) : files :=
  list_to_map
    (zip ((λ kf, path_join IPEDS_BASE_PATH kf.2) <$> ESSENTIAL_FILES)
         [t_hd t; t_sfa_p1 t; t_sfa_p2 t; t_ic t; t_adm_sat t; t_adm_rate t; t_gr t; t_mission t]).

Definition frame_or_empty (m : M DataFrame) : DataFrame :=
  match m with
  | (_, Ok df) => df
  | (_, Raise _) => empty_frame
  end.

(** The directory table as the institution filter leaves it. *)
Definition institutions_of (t : Tables) : DataFrame :=
  frame_or_empty (lift (filter_institutions (t_hd t))).

(** The metric calculator on a set of tables. *)
Definition metrics_of (t : Tables) : M DataFrame :=
  calculate_metrics (institutions_of t) (t_sfa_p1 t) (t_sfa_p2 t) (t_ic t)
    (t_adm_sat t) (t_adm_rate t) (t_gr t) (t_mission t).

(** Institutions A and B of the end-to-end scenario. *)
Definition inst_A : institution :=
  mkInstitution 1 "A" (Num 20000) (Num 8000) (Num 18000) (Num 60) NaN.
Definition inst_B : institution :=
  mkInstitution 2 "B" (Num 50000) (Num 30000) (Num 15000) (Num 90) (Num 40).
Definition scenario : Tables := tables_of [inst_A; inst_B].
Definition scenario_pool : DataFrame := frame_or_empty (metrics_of scenario).

(** Two institutions neither of which meets both relaxed thresholds. *)
Definition starved : Tables :=
  tables_of [ mkInstitution 1 "Low aid" (Num 10000) (Num 1000) (Num 1000) (Num 50) (Num 50);
              mkInstitution 2 "High price" (Num 10000) (Num 9000) (Num 2000) (Num 50) (Num 50) ].

Definition starved_pool : DataFrame := frame_or_empty (metrics_of starved).
Definition starved_report : DataFrame :=
  frame_or_empty (generate_insights stable_argsort_desc starved_pool).

(** Two institutions with the same figures, hence the same score. *)
Definition twins : Tables :=
  tables_of [ mkInstitution 1 "First" (Num 20000) (Num 10000) (Num 10000) (Num 60) (Num 50);
              mkInstitution 2 "Second" (Num 20000) (Num 10000) (Num 10000) (Num 60) (Num 50) ].
Definition twins_pool : DataFrame := frame_or_empty (metrics_of twins).

(** A pool of [n] rows with the same figures: every row passes tier 1. *)
Definition pool_of_equals (n : nat) : DataFrame :=
  frame_or_empty (metrics_of (tables_of
    ((λ k, mkInstitution (float_of_nat k) "Equal"
             (Num 20000) (Num 10000) (Num 10000) (Num 60) (Num 50)) <$> seq 1 n))).

(** Ten ordinary institutions and one whose sticker price is zero. *)
Definition with_free_tuition : Tables :=
  tables_of (((λ n, mkInstitution (float_of_nat n) "Ordinary"
                      (Num 20000) (Num 10000) (Num 10000) (Num 60) (Num 50)) <$> seq 1 10)
             ++ [mkInstitution 11 "Free" (Num 0) (Num 5000) (Num 5000) (Num 60) (Num 50)]).
Definition free_tuition_pool : DataFrame := frame_or_empty (metrics_of with_free_tuition).
Definition free_tuition_report : DataFrame :=
  frame_or_empty (generate_insights stable_argsort_desc free_tuition_pool).

(** Three institutions, the second without a graduation rate. *)
Definition with_gap : Tables :=
  tables_of [ mkInstitution 1 "Sixty" (Num 20000) (Num 8000) (Num 18000) (Num 60) (Num 50);
              mkInstitution 2 "Unreported" (Num 20000) (Num 8000) (Num 18000) NaN (Num 50);
              mkInstitution 3 "Ninety" (Num 20000) (Num 8000) (Num 18000) (Num 90) (Num 50) ].

(** The scenario with institution A missing from financial aid part 2. *)
Definition half_aided : Tables :=
  let t := scenario in
  mkTables (t_hd t) (t_sfa_p1 t) (frame_of ["UNITID"; "NPT442"] [[Num 2; Num 15000]])
           (t_ic t) (t_adm_sat t) (t_adm_rate t) (t_gr t) (t_mission t).

(** The scenario with the grant column missing from financial aid part 1. *)
Definition scenario_without_grant : Tables :=
  let t := scenario in
  mkTables (t_hd t) (frame_of ["UNITID"] [[Num 1]; [Num 2]]) (t_sfa_p2 t) (t_ic t)
           (t_adm_sat t) (t_adm_rate t) (t_gr t) (t_mission t).

(** The scenario with the sticker-price column missing from the tuition table. *)
Definition scenario_without_tuition : Tables :=
  let t := scenario in
  mkTables (t_hd t) (t_sfa_p1 t) (t_sfa_p2 t) (frame_of ["UNITID"] [[Num 1]; [Num 2]])
           (t_adm_sat t) (t_adm_rate t) (t_gr t) (t_mission t).

(** The scenario with the rate column missing from the admissions-rate table. *)
Definition scenario_without_admission_rate : Tables :=
  let t := scenario in
  mkTables (t_hd t) (t_sfa_p1 t) (t_sfa_p2 t) (t_ic t) (t_adm_sat t)
           (frame_of ["UNITID"] [[Num 2]]) (t_gr t) (t_mission t).

(** The scenario with the sentinel -2 for the admission rate of A. *)
Definition scenario_with_sentinel : Tables :=
  let t := scenario in
  mkTables (t_hd t) (t_sfa_p1 t) (t_sfa_p2 t) (t_ic t) (t_adm_sat t)
           (frame_of ["UNITID"; "DVADM01"] [[Num 1; Num (-2)]; [Num 2; Num 40]])
           (t_gr t) (t_mission t).

(** What the loader returns for the directory of [t]. *)
Definition loaded (t : Tables) : Tables :=
  match load_and_clean_data (directory_of t) IPEDS_BASE_PATH ESSENTIAL_FILES with
  | (_, Ok (Some t')) => t'
  | _ => t
  end.

Definition loaded_with_sentinel : Tables := loaded scenario_with_sentinel.

(** The files written: path, header and number of data rows. *)
Definition csv_written (out : list event) : list (string * list string * nat) :=
  omap (λ e, match e with
             | ToCsv path df => Some (path, columns df, length (rows df))
             | _ => None
             end) out.


(** ** Joins, as the specification words them *)

(** The right rows with the key of [l]. *)
Definition matching (on : string) (l : row) (right_rows : list row) : list row :=
  List.filter (λ r, pd.key_eq (get on l) (get on r)) right_rows.

(** Inner join: one row for every pair of a left and a right row with the
    same key, in the order of the left rows; a row of either side without a
    partner is dropped. *)
Definition inner_join (on : string) (left_rows right_rows : list row) : list row :=
  l ← left_rows; r ← matching on l right_rows; [l ∪ delete on r].

(** Left join: the rows of the inner join, and every left row without a
    partner, kept once in its place with the right-hand columns absent. *)
Definition left_join (on : string) (left_rows right_rows : list row) : list row :=
  l ← left_rows;
  match matching on l right_rows with
  | [] => [l]
  | partners => r ← partners; [l ∪ delete on r]
  end.

(** ** What the two tiers are to keep *)

Definition net_price (r : row) : float := num (get "Net_Price_MidClass" r).
Definition mgi (r : row) : float := num (get "MGI" r).

(** Net price at most 25,000 and MGI at least the median MGI of [pool]. *)
Definition passes_tier1 (pool : DataFrame) (r : row) : bool :=
  (net_price r <=? 25000)%float
  && (pd.quantile 0.5 (get "MGI" <$> rows pool) <=? mgi r)%float.

(** Net price at most the 30th percentile of [pool], MGI at least its 80th. *)
Definition passes_fallback (pool : DataFrame) (r : row) : bool :=
  (net_price r <=? pd.quantile 0.3 (get "Net_Price_MidClass" <$> rows pool))%float
  && (pd.quantile 0.8 (get "MGI" <$> rows pool) <=? mgi r)%float.

Definition keep (p : row → bool) (df : DataFrame) : DataFrame :=
  mkDF (columns df) (List.filter p (rows df)).

Definition starvation_warning (n : nat) : event :=
  Print ("Warning: Only " +:+ pretty n +:+
         " colleges found. Relaxing Net Price filter to top 20% of MGI.").

(** ** What the institution filter is to keep *)


Definition file_not_found (filename : string) : event :=
  Print ("Error: Required file not found: " +:+ filename +:+
         ". Please ensure this file exists in the directory.").

(** The path of an essential file. *)
Definition essential (filename : string) : string := path_join IPEDS_BASE_PATH filename.

(** ** The columns of the tables the pipeline builds *)

(** After the five merges. *)
Definition MERGED_COLUMNS : list string :=
  [ "UNITID"; "INSTNM"; "CONTROL"; "TUITION2"; "IGRNT_A"; "NPT442";
    "SATVR75"; "SATMT75"; "DVADM01"; "GBA4RTT"; "mission" ].

(** What the metric calculator returns. *)
Definition METRIC_COLUMNS : list string :=
  [ "UNITID"; "INSTNM"; "CONTROL"; "Sticker_Price"; "Avg_Inst_Grant";
    "Net_Price_MidClass"; "SATVR75"; "SATMT75"; "Admissions_Rate";
    "Graduation_Rate_4yr"; "MISSION"; "MGI"; "NET_PRICE_RATIO" ].

(** ** One row per identifier *)

(** At most one row of [rs] has any given key. *)
Definition unique_key (on : string) (rs : list row) : Prop :=
  ∀ k, length (List.filter (λ r, pd.key_eq k (get on r)) rs) ≤ 1.

(** No key of the column matches a later one: the check a caller can run. *)
Fixpoint distinct_keys (keys : Series) : bool :=
  match keys with
  | [] => true
  | k :: keys' => forallb (λ k', negb (pd.key_eq k k')) keys' && distinct_keys keys'
  end.

(** The rows of the five merges, from the tables the calculator is given. *)
Definition joined_rows (hd sfa_p1 sfa_p2 ic adm_sat adm_rate gr mission : DataFrame)
    : list row :=
  let selected cs (df : DataFrame) := pd.restrict cs <$> rows df in
  left_join "UNITID"
    (left_join "UNITID"
       (left_join "UNITID"
          (left_join "UNITID"
             (left_join "UNITID" (rows hd) (selected ["UNITID"; "TUITION2"] ic))
             (inner_join "UNITID" (selected ["UNITID"; "IGRNT_A"] sfa_p1)
                                  (selected ["UNITID"; "NPT442"] sfa_p2)))
          (left_join "UNITID" (selected ["UNITID"; "SATVR75"; "SATMT75"] adm_sat)
                              (selected ["UNITID"; "DVADM01"] adm_rate)))
       (selected ["UNITID"; "GBA4RTT"] gr))
    (pd.rename_row "unitid" "UNITID" <$> selected ["unitid"; "mission"] mission).

(** The row at position [i]. *)
Definition row_at (i : nat) (df : DataFrame) : row := default ∅ (rows df !! i).

(** The columns the insight generator reads: the two it filters by, the
    three it scores by and those of the report. *)
Definition INSIGHT_COLUMNS : list string :=
  [ "Net_Price_MidClass"; "MGI"; "Graduation_Rate_4yr"; "NET_PRICE_RATIO";
    "UNITID"; "INSTNM"; "CONTROL"; "Sticker_Price"; "Avg_Inst_Grant";
    "Admissions_Rate"; "SATVR75"; "SATMT75"; "MISSION" ].

(** The score of a row. *)
Definition score_of (r : row) : cell :=
  Num ((num (get "MGI" r) + num (get "Graduation_Rate_4yr" r))
       / num (get "NET_PRICE_RATIO" r))%float.

(** A row as the report shows it. *)
Definition report_row (r : row) : row :=
  pd.restrict REPORT_COLUMNS (<["Composite_Score" := score_of r]> r).

(** One institution without an institutional grant on record. *)
Definition unaided : Tables :=
  tables_of [mkInstitution 1 "No grant" (Num 20000) NaN (Num 18000) (Num 60) (Num 50)].

(** The scenario without the admissions file. *)
Definition scenario_without_admissions_file : files :=
  delete (essential "ADM2022.csv") (directory_of scenario).

(** [n] institutions whose grants, and with them their scores, rise with
    the identifier. *)
Definition graded (n : nat) : Tables :=
  tables_of ((λ k, mkInstitution (float_of_nat k) "Graded"
                     (Num 20000) (Num (float_of_nat k * 500)) (Num 10000) (Num 60) (Num 50))
             <$> seq 1 n).
Definition graded_pool (n : nat) : DataFrame := frame_or_empty (metrics_of (graded n)).

(** * The Access exporter (CSV_Conversion.py)

    The exporter talks to the file system and to an ODBC driver.  What they
    answer is a parameter of the model: whether a path exists, what
    [pyodbc.connect] gives for a connection string, what [pd.read_sql]
    gives for a query and whether [to_csv] can write a path.  What the
    program does in turn is the list of its effects, in order.

    [os.makedirs], which is called before the [try], is taken to succeed.
    Paths are Windows paths, as the configuration has them, so [os.path] is
    [ntpath]; names are ASCII, and a path that starts with two separators (a
    UNC or device path) is outside what [splitdrive] models. *)

Module CSV_Conversion.

Definition ACCD_FILE : string :=
  "C:\Users\amatu\Downloads\IPEDS_2022-23_Final\IPEDS202223.accdb".
Definition OUTPUT_DIR : string := "C:\Users\amatu\Downloads\Phase_3".

(** A call that returns, or raises an exception with a message. *)
Inductive attempt (A : Type) :=
  | Returns (a : A)
  | Throws (message : string).
Arguments Returns {A} a.
Arguments Throws {A} message.

(** What a call into the driver raises, as the two outer handlers tell
    them apart: a [pyodbc.Error] with its arguments, or another exception
    with its message. *)
Inductive raised :=
  | OdbcError (sqlstate message : string)
  | OtherError (message : string).

Inductive outcome (A : Type) :=
  | Returned (a : A)
  | Raised (e : raised).
Arguments Returned {A} a.
Arguments Raised {A} e.

(** An open connection: what [conn.cursor().tables(tableType='TABLE')]
    does, the names it lists being in its order; the answer to a query;
    and what [conn.close()] raises, if anything. *)
Record Connection := mkConnection {
  catalog : outcome (list string);
  read_sql : string → attempt DataFrame;
  close : option raised
}.

(** The names the catalog lists: none when the listing raises. *)
Definition tables (conn : Connection) : list string :=
  match catalog conn with
  | Returned names => names
  | Raised _ => []
  end.

(** [pyodbc.connect]: a connection, or an exception. *)
Inductive connecting :=
  | Connected (conn : Connection)
  | NotConnected (e : raised).

Record World := mkWorld {
  path_exists : string → bool;
  connect : string → connecting;
  to_csv : string → DataFrame → attempt ()
}.

Inductive event :=
  | Print (s : string)
  | Makedirs (path : string)
  | ToCsv (path : string) (df : DataFrame)
  | Close.

(** [s * n] on a string *)
Definition str_mul (s : string) (n : nat) : string := String.concat "" (replicate n s).

Definition is_sep (a : Ascii.ascii) : bool :=
  bool_decide (String a "" = "\") || bool_decide (String a "" = "/").

Fixpoint has_sep (p : string) : bool :=
  match p with
  | EmptyString => false
  | String a rest => is_sep a || has_sep rest
  end.

(** What follows the last separator, [\] or [/]. *)
Fixpoint after_last_sep (p : string) : string :=
  match p with
  | EmptyString => EmptyString
  | String a rest =>
      if has_sep rest then after_last_sep rest
      else if is_sep a then rest else p
  end.

Definition starts_with_sep (p : string) : bool :=
  match p with
  | EmptyString => false
  | String a _ => is_sep a
  end.

Fixpoint ends_with_sep (p : string) : bool :=
  match p with
  | EmptyString => false
  | String a EmptyString => is_sep a
  | String _ rest => ends_with_sep rest
  end.

(** A UNC or device path: it starts with two separators. *)
Definition unc (p : string) : bool :=
  match p with
  | String a (String b _) => is_sep a && is_sep b
  | _ => false
  end.

Definition is_colon (a : Ascii.ascii) : bool := bool_decide (String a "" = ":").

Fixpoint has_colon (p : string) : bool :=
  match p with
  | EmptyString => false
  | String a rest => is_colon a || has_colon rest
  end.

(** [str.lower] on ASCII. *)
Fixpoint lower (p : string) : string :=
  match p with
  | EmptyString => EmptyString
  | String a rest =>
      let n := Ascii.nat_of_ascii a in
      String (if (65 <=? n) && (n <=? 90) then Ascii.ascii_of_nat (n + 32) else a)
             (lower rest)
  end.

(** [os.path.splitdrive]: a drive is a character and a colon. *)
Definition splitdrive (p : string) : string * string :=
  match p with
  | String a (String b rest) =>
      if is_colon b then (String a (String b ""), rest) else ("", p)
  | _ => ("", p)
  end.

(** [os.path.join] of two paths. *)
Definition join (path p : string) : string :=
  let '(result_drive, result_path) := splitdrive path in
  let '(p_drive, p_path) := splitdrive p in
  if starts_with_sep p_path then
    (* the second path is absolute *)
    (if negb (bool_decide (p_drive = "")) || bool_decide (result_drive = "")
     then p_drive else result_drive) +:+ p_path
  else if negb (bool_decide (p_drive = "")) && negb (bool_decide (p_drive = result_drive))
          && negb (bool_decide (lower p_drive = lower result_drive)) then
    (* different drives: the first path is ignored *)
    p_drive +:+ p_path
  else
    let result_drive :=
      if negb (bool_decide (p_drive = "")) && negb (bool_decide (p_drive = result_drive))
      then p_drive else result_drive in
    let result_path :=
      if negb (bool_decide (result_path = "")) && negb (ends_with_sep result_path)
      then result_path +:+ "\" else result_path in
    result_drive +:+ result_path +:+ p_path.

(** [os.path.basename]: what follows the last separator of the path
    without its drive. *)
Definition basename (p : string) : string := after_last_sep (splitdrive p).2.

(** The tables that are not Access's own. *)
Definition user_table (table_name : string) : bool :=
  negb (String.prefix "MSys" table_name) && negb (bool_decide (table_name = "Temporary")).

(** The listing is the one call of the function that can raise; the first
    line is printed before it. *)
Definition get_table_names (conn : Connection) : list event * outcome (list string) :=
  match catalog conn with
  | Raised e => ([Print "Fetching list of table names..."], Raised e)
  | Returned names =>
      let table_list := List.filter user_table names in
      ([ Print "Fetching list of table names...";
         Print ("Found " +:+ pretty (length table_list) +:+ " tables to export.") ],
       Returned table_list)
  end.

Definition sql_query (table_name : string) : string :=
  "SELECT * FROM [" +:+ table_name +:+ "]".

Definition output_csv_path (output_directory table_name : string) : string :=
  join output_directory (table_name +:+ ".csv").

Definition export_error (table_name table_e : string) : event :=
  Print ("   -> **Error** exporting table " +:+ table_name +:+ ": " +:+ table_e).

Definition progress (exported_count total_tables : nat) (table_name : string) : event :=
  Print ("(" +:+ pretty exported_count +:+ "/" +:+ pretty total_tables +:+
         ") Exporting table: **" +:+ table_name +:+ "**").

(** The body of the loop, the counter already advanced. *)
Definition export_table (w : World) (conn : Connection) (output_directory : string)
    (total_tables exported_count : nat) (table_name : string) : list event :=
  [ Print (str_mul "-" 50);
    progress exported_count total_tables table_name;
    Print ("   -> Executing SQL: " +:+ sql_query table_name) ] ++
  match read_sql conn (sql_query table_name) with
  | Throws table_e => [export_error table_name table_e]
  | Returns df =>
      match to_csv w (output_csv_path output_directory table_name) df with
      | Throws table_e => [export_error table_name table_e]
      | Returns _ =>
          [ ToCsv (output_csv_path output_directory table_name) df;
            Print ("   -> Success: Saved " +:+ pretty (length (rows df)) +:+ " rows to " +:+
                   basename (output_csv_path output_directory table_name)) ]
      end
  end.

Fixpoint export_tables (w : World) (conn : Connection) (output_directory : string)
    (total_tables exported_count : nat) (tables_to_export : list string) : list event :=
  match tables_to_export with
  | [] => []
  | table_name :: rest =>
      let exported_count := S exported_count in
      export_table w conn output_directory total_tables exported_count table_name ++
      export_tables w conn output_directory total_tables exported_count rest
  end.

(** The lines printed after the connection is closed. *)
Definition completion_banner : list event :=
  [ Print (nl +:+ str_mul "=" 50);
    Print "✅ Conversion process complete.";
    Print ("All tables exported to: " +:+ OUTPUT_DIR);
    Print (str_mul "=" 50) ].

(** 1. The connection string. *)
Definition conn_str (accdb_path : string) : string :=
  "DRIVER={Microsoft Access Driver (" +:+ "*.mdb, *.accdb)};" +:+ "DBQ=" +:+ accdb_path +:+ ";".

(** The two handlers of the outer [try]. *)
Definition handler (e : raised) : list event :=
  match e with
  | OdbcError _ message =>
      [ Print (nl +:+ str_mul "#" 50);
        Print "🚫 A critical ODBC error occurred:";
        Print ("   Error: " +:+ message);
        Print ("   **Action Required:** Please ensure the correct **Microsoft Access ODBC Driver** (e.g., 'Microsoft Access Driver (" +:+ "*.mdb, *.accdb)') is installed and accessible to your Python environment (often requires 64-bit Python if using a 64-bit driver).");
        Print (str_mul "#" 50) ]
  | OtherError e => [Print ("An unexpected error occurred: " +:+ e)]
  end.

(** An exception of [pyodbc.connect], of the listing or of [conn.close()]
    leaves the [try] for its handler; that of the listing leaves it before
    the loop and before [conn.close()]. *)
Definition accdb_to_csv_multiple_tables (w : World) (accdb_path output_directory : string)
    : list event :=
  if negb (path_exists w accdb_path) then
    [Print ("Error: ACCDB file not found at " +:+ accdb_path)]
  else
    Makedirs output_directory ::
    Print ("Connecting to the database: " +:+ accdb_path) ::
    match connect w (conn_str accdb_path) with
    | NotConnected e => handler e
    | Connected conn =>
        let '(out, listed) := get_table_names conn in
        out ++
        match listed with
        | Raised e => handler e
        | Returned tables_to_export =>
            export_tables w conn output_directory (length tables_to_export) 0 tables_to_export ++
            Close ::
            match close conn with
            | Some e => handler e
            | None => completion_banner
            end
        end
    end.

(** The files a run wrote, in order. *)
Definition exported (out : list event) : list (string * DataFrame) :=
  omap (λ e, match e with ToCsv path df => Some (path, df) | _ => None end) out.

(** The file one table leaves behind: none when the query or the write
    raises. *)
Definition export_of (w : World) (conn : Connection) (output_directory table_name : string)
    : option (string * DataFrame) :=
  match read_sql conn (sql_query table_name) with
  | Throws _ => None
  | Returns df =>
      match to_csv w (output_csv_path output_directory table_name) df with
      | Throws _ => None
      | Returns _ => Some (output_csv_path output_directory table_name, df)
      end
  end.

(** A database with two system tables and three of its own, one of which
    cannot be read, and a disk that takes every file. *)
Definition sample_connection : Connection :=
  mkConnection (Returned ["MSysObjects"; "HD2022"; "Temporary"; "Broken"; "IC2022"])
    (λ q, if bool_decide (q = "SELECT * FROM [Broken]")
          then Throws "no read permission"
          else Returns (mkDF ["UNITID"] [{[ "UNITID" := Num 1 ]}]))
    None.

(** The same database behind a driver that cannot list its catalog. *)
Definition unlisted_world : World :=
  mkWorld (λ p, bool_decide (p = ACCD_FILE))
          (λ _, Connected (mkConnection (Raised (OdbcError "HY000" "catalog not available"))
                             (read_sql sample_connection) None))
          (λ _ _, Returns ()).

Definition sample_world : World :=
  mkWorld (λ p, bool_decide (p = ACCD_FILE))
          (λ _, Connected sample_connection)
          (λ _ _, Returns ()).

End CSV_Conversion.

(** * Proofs *)

#[global] Arguments pd.setitem : simpl never.
#[global] Arguments pd.getitem : simpl never.
#[global] Arguments pd.getitem_cols : simpl never.
#[global] Arguments pd.getitem_mask : simpl never.
#[global] Arguments pd.rename : simpl never.
#[global] Arguments pd.rename_col : simpl never.
#[global] Arguments pd.dropna : simpl never.
#[global] Arguments pd.merge : simpl never.
#[global] Arguments pd.head : simpl never.
#[global] Arguments pd.quantile : simpl never.
#[global] Arguments pd.median : simpl never.

(** ** The monads *)

Lemma M_bind_lift_Ok {A B} (a : A) (f : A → M B) : lift (Ok a) ≫= f = f a.
Proof. unfold lift, mbind, M_bind. by destruct (f a). Qed.

Lemma M_bind_lift_Raise {A B} (e : exn) (f : A → M B) :
  lift (Raise e) ≫= f = lift (Raise e).
Proof. done. Qed.

Lemma M_bind_ret {A B} (a : A) (f : A → M B) : mret a ≫= f = f a.
Proof. apply M_bind_lift_Ok. Qed.

Lemma M_bind_print {B} (s : string) (f : () → M B) :
  print s ≫= f = ((Print s :: (f ()).1), (f ()).2).
Proof. unfold print, mbind, M_bind. by destruct (f ()). Qed.

Lemma M_bind_emit {B} (e : event) (f : () → M B) :
  emit e ≫= f = ((e :: (f ()).1), (f ()).2).
Proof. unfold emit, mbind, M_bind. by destruct (f ()). Qed.

Lemma M_bind_pair {A B} (out : list event) (a : A) (f : A → M B) :
  (out, Ok a) ≫= f = (out ++ (f a).1, (f a).2).
Proof. unfold mbind, M_bind. by destruct (f a). Qed.



Lemma result_bind_Ok {A B} (a : A) (f : A → result B) : Ok a ≫= f = f a.
Proof. done. Qed.

Lemma result_bind_ret {A B} (a : A) (f : A → result B) : mret a ≫= f = f a.
Proof. done. Qed.

Lemma result_bind_inv {A B} (m : result A) (f : A → result B) (b : B) :
  m ≫= f = Ok b → ∃ a, m = Ok a ∧ f a = Ok b.
Proof. destruct m as [a|e]; [|done]. intros H. by exists a. Qed.

(** One step of a successful computation. *)
Ltac ok_step :=
  first [rewrite result_bind_Ok | rewrite result_bind_ret]; cbv beta.
(** A decidable side condition on concrete names. *)
Ltac decide_now := apply (bool_decide_unpack _); vm_compute; exact I.
Ltac ok_step_in H :=
  first [rewrite result_bind_Ok in H | rewrite result_bind_ret in H]; cbv beta in H.

(** ** Frames *)

Lemma missing_None cs df : pd.missing cs df = None ↔ ∀ c, c ∈ cs → c ∈ columns df.
Proof.
  unfold pd.missing. rewrite head_None. split.
  - intros Hnil c Hc. destruct (decide (c ∈ columns df)) as [|Hn]; [done|].
    assert (c ∈ filter (λ c, c ∉ columns df) cs) as Hin by (by apply list_elem_of_filter).
    rewrite Hnil in Hin. by apply elem_of_nil in Hin.
  - intros Hall. induction cs as [|c cs IH]; [done|].
    rewrite filter_cons. destruct (decide (c ∉ columns df)) as [Hn|_].
    + destruct Hn. apply Hall. left.
    + apply IH. intros c' Hc'. apply Hall. by right.
Qed.

Lemma missing_Some cs df k : pd.missing cs df = Some k → k ∈ cs ∧ k ∉ columns df.
Proof.
  unfold pd.missing. intros Hh.
  assert (k ∈ filter (λ c, c ∉ columns df) cs) as Hin.
  { destruct (filter _ cs); simplify_eq/=. left. }
  by apply list_elem_of_filter in Hin as [? ?].
Qed.

Lemma missing_singleton c df : c ∈ columns df → pd.missing [c] df = None.
Proof. intros Hc. apply missing_None. by intros c' ->%list_elem_of_singleton. Qed.

Lemma getitem_Ok c df : c ∈ columns df → pd.getitem c df = Ok (get c <$> rows df).
Proof. intros Hc. unfold pd.getitem. by rewrite missing_singleton. Qed.

Lemma getitem_inv c df s : pd.getitem c df = Ok s → c ∈ columns df ∧ s = get c <$> rows df.
Proof.
  unfold pd.getitem. destruct (pd.missing [c] df) eqn:Hm; [done|].
  intros [= <-]. split; [|done]. rewrite missing_None in Hm. apply Hm. left.
Qed.

Lemma select_fmap {A} (p : A → bool) (l : list A) : pd.select l (p <$> l) = List.filter p l.
Proof. induction l as [|x l IH]; [done|]. csimpl. destruct (p x); by rewrite IH. Qed.

Lemma filter_filter_andb {A} (p q : A → bool) (l : list A) :
  List.filter q (List.filter p l) = List.filter (λ x, p x && q x) l.
Proof.
  induction l as [|x l IH]; [done|]. csimpl.
  destruct (p x); csimpl; [destruct (q x)|]; by rewrite IH.
Qed.

Lemma select_and_fmap {A} (p q : A → bool) (l : list A) :
  pd.select l (pd.and (p <$> l) (q <$> l)) = List.filter (λ x, p x && q x) l.
Proof.
  induction l as [|x l IH]; [done|]. csimpl. fold (pd.and (p <$> l) (q <$> l)).
  destruct (p x), (q x); csimpl; by rewrite IH.
Qed.

(** ** The two-tier filter *)

Lemma tier1_keeps df :
  "Net_Price_MidClass" ∈ columns df → "MGI" ∈ columns df →
  tier1 df = Ok (keep (passes_tier1 df) df).
Proof.
  intros Hnet Hmgi. unfold tier1, pd.copy.
  rewrite (getitem_Ok _ _ Hnet). csimpl.
  rewrite (getitem_Ok _ _ Hmgi). csimpl.
  rewrite getitem_Ok by done. csimpl.
  unfold pd.getitem_mask, keep, pd.le, pd.ge. csimpl.
  rewrite <- list_fmap_compose, select_fmap.
  rewrite <- list_fmap_compose, select_fmap.
  by rewrite filter_filter_andb.
Qed.

Lemma fallback_keeps df :
  "Net_Price_MidClass" ∈ columns df → "MGI" ∈ columns df →
  fallback df = Ok (keep (passes_fallback df) df).
Proof.
  intros Hnet Hmgi. unfold fallback, pd.copy.
  rewrite (getitem_Ok _ _ Hnet). csimpl.
  rewrite (getitem_Ok _ _ Hmgi). csimpl.
  unfold pd.getitem_mask, keep, pd.le, pd.ge.
  rewrite <- !list_fmap_compose. do 2 f_equal.
  exact (select_and_fmap
    (λ r, (net_price r <=? pd.quantile 0.3 (get "Net_Price_MidClass" <$> rows df))%float)
    (λ r, (pd.quantile 0.8 (get "MGI" <$> rows df) <=? mgi r)%float) (rows df)).
Qed.

Section TwoTier.

Variable argsort_desc : Series → list nat.

(** Which selection is ranked. *)
Lemma generate_insights_selects (df : DataFrame) :
  "Net_Price_MidClass" ∈ columns df → "MGI" ∈ columns df →
  generate_insights argsort_desc df =
    if length (rows (keep (passes_tier1 df) df)) <? 10
    then ([starvation_warning (length (rows (keep (passes_tier1 df) df)))],
          rank argsort_desc (keep (passes_fallback df) df))
    else ([], rank argsort_desc (keep (passes_tier1 df) df)).
Proof.
  intros Hnet Hmgi.
  unfold generate_insights. rewrite (tier1_keeps df Hnet Hmgi), M_bind_lift_Ok.
  destruct (length (rows (keep (passes_tier1 df) df)) <? 10).
  - rewrite (fallback_keeps df Hnet Hmgi).
    unfold starvation_warning, print, lift, mbind, M_bind.
    by destruct (rank argsort_desc (keep (passes_fallback df) df)).
  - by rewrite M_bind_ret.
Qed.

(** A report comes only from a table that has the two columns the tiers
    read. *)
Lemma generate_insights_columns (df : DataFrame) out report :
  generate_insights argsort_desc df = (out, Ok report) →
  "Net_Price_MidClass" ∈ columns df ∧ "MGI" ∈ columns df.
Proof.
  unfold generate_insights, tier1. intros H.
  destruct (pd.getitem "Net_Price_MidClass" (pd.copy df)) as [net|] eqn:Hnet; [|done].
  apply getitem_inv in Hnet as [Hnet _]. split; [done|].
  ok_step_in H.
  destruct (pd.getitem "MGI" df) as [m|] eqn:Hm; [|done].
  by apply getitem_inv in Hm as [Hm _].
Qed.

(** C1.  On a table that has the net-price and MGI columns, tier 1 keeps
    exactly the rows with net price at most 25,000 and MGI at least the 0.5
    quantile of the MGI column of the whole table; the insight generator
    ranks that selection when it has ten rows or more, and otherwise warns
    and ranks instead exactly the rows with net price at most the 0.30
    quantile of net price and MGI at least the 0.80 quantile of MGI, both
    taken over the whole table. *)
Theorem two_tier_filter (df : DataFrame) :
  "Net_Price_MidClass" ∈ columns df → "MGI" ∈ columns df →
  let strict := keep (passes_tier1 df) df in
  let relaxed := keep (passes_fallback df) df in
  tier1 df = Ok strict ∧
  fallback df = Ok relaxed ∧
  generate_insights argsort_desc df =
    if length (rows strict) <? 10
    then ([starvation_warning (length (rows strict))], rank argsort_desc relaxed)
    else ([], rank argsort_desc strict).
Proof.
  intros Hnet Hmgi strict relaxed.
  split; [by apply tier1_keeps|]. split; [by apply fallback_keeps|].
  by apply generate_insights_selects.
Qed.

End TwoTier.

(** C1, witness: the pool of the end-to-end scenario. *)
Lemma two_tier_filter_witness :
  tier1 scenario_pool = Ok (keep (passes_tier1 scenario_pool) scenario_pool) ∧
  fallback scenario_pool = Ok (keep (passes_fallback scenario_pool) scenario_pool) ∧
  generate_insights stable_argsort_desc scenario_pool =
    if length (rows (keep (passes_tier1 scenario_pool) scenario_pool)) <? 10
    then ([starvation_warning (length (rows (keep (passes_tier1 scenario_pool) scenario_pool)))],
          rank stable_argsort_desc (keep (passes_fallback scenario_pool) scenario_pool))
    else ([], rank stable_argsort_desc (keep (passes_tier1 scenario_pool) scenario_pool)).
Proof.
  apply (two_tier_filter stable_argsort_desc scenario_pool); decide_now.
Defined.

(** Nine survivors of tier 1 start the fallback, ten do not. *)
Example fallback_at_nine_not_at_ten :
  length (rows (keep (passes_tier1 (pool_of_equals 9)) (pool_of_equals 9))) = 9 ∧
  (generate_insights stable_argsort_desc (pool_of_equals 9)).1 = [starvation_warning 9] ∧
  length (rows (keep (passes_tier1 (pool_of_equals 10)) (pool_of_equals 10))) = 10 ∧
  (generate_insights stable_argsort_desc (pool_of_equals 10)).1 = [].
Proof. repeat split; vm_compute; reflexivity. Qed.

(** ** Cells of a row after the frame operations *)

Lemma get_insert c v (r : row) : get c (<[c := v]> r) = v.
Proof. unfold get. by rewrite lookup_insert_eq. Qed.

Lemma get_insert_ne c c' v (r : row) : c ≠ c' → get c (<[c' := v]> r) = get c r.
Proof. intros Hne. unfold get. by rewrite lookup_insert_ne. Qed.

Lemma get_restrict c cs (r : row) : c ∈ cs → get c (pd.restrict cs r) = get c r.
Proof.
  intros Hc. unfold get, pd.restrict.
  destruct (r !! c) as [x|] eqn:Hr.
  - by rewrite (map_lookup_filter_Some_2 _ _ _ _ Hr Hc).
  - rewrite (proj2 (map_lookup_filter_None _ _ _)); [done|]. by left.
Qed.

Lemma setitem_columns c v df : c ∈ columns (pd.setitem c v df).
Proof.
  unfold pd.setitem. simpl. case_bool_decide; [done|].
  apply elem_of_app. right. left.
Qed.

Lemma setitem_columns_mono c c' v df : c ∈ columns df → c ∈ columns (pd.setitem c' v df).
Proof.
  intros Hc. unfold pd.setitem. simpl. case_bool_decide; [done|].
  apply elem_of_app. by left.
Qed.

Lemma setitem_get c v df :
  length v = length (rows df) → get c <$> rows (pd.setitem c v df) = v.
Proof.
  unfold pd.setitem. simpl. generalize (rows df). intros l. revert v.
  induction l as [|r l IH]; intros [|x v] Hlen; simplify_eq/=; [done|].
  by rewrite get_insert, IH.
Qed.

Lemma setitem_get_ne c c' v df :
  c ≠ c' → length v = length (rows df) →
  get c <$> rows (pd.setitem c' v df) = get c <$> rows df.
Proof.
  intros Hne. unfold pd.setitem. simpl. generalize (rows df). intros l. revert v.
  induction l as [|r l IH]; intros [|x v] Hlen; simplify_eq/=; [done|].
  by rewrite get_insert_ne, IH.
Qed.

Lemma setitem_length c v df :
  length v = length (rows df) → length (rows (pd.setitem c v df)) = length (rows df).
Proof. intros Hlen. unfold pd.setitem. simpl. rewrite length_zip_with. lia. Qed.

Lemma composite_score_length final_df score :
  composite_score final_df = Ok score → length score = length (rows final_df).
Proof.
  unfold composite_score. intros H.
  destruct (pd.getitem "MGI" final_df) as [m|] eqn:Hm; [|done].
  destruct (pd.getitem "Graduation_Rate_4yr" final_df) as [g|] eqn:Hg; [|done].
  destruct (pd.getitem "NET_PRICE_RATIO" final_df) as [n|] eqn:Hn; [|done].
  apply getitem_inv in Hm as [_ ->], Hg as [_ ->], Hn as [_ ->].
  csimpl in H. injection H as <-.
  unfold pd.div, pd.add. rewrite !length_zip_with, !length_fmap. lia.
Qed.

Lemma omap_lookup_fmap {A B} (f : A → B) (l : list A) (idx : list nat) :
  f <$> omap (l !!.) idx = omap ((f <$> l) !!.) idx.
Proof.
  induction idx as [|i idx IH]; [done|]. csimpl.
  rewrite list_lookup_fmap. destruct (l !! i); csimpl; by rewrite IH.
Qed.

Lemma StronglySorted_take {A} (R : relation A) n (l : list A) :
  StronglySorted R l → StronglySorted R (take n l).
Proof.
  intros Hl. rewrite <- (take_drop n l) in Hl. by apply StronglySorted_app_1_l in Hl.
Qed.

(** ** The ranking *)

Section RankingFacts.

Variable argsort_desc : Series → list nat.

(** The report is the first twenty of the scored rows in the order
    [argsort_desc] names, cut down to the report columns. *)
Lemma rank_inv final_df report :
  rank argsort_desc final_df = Ok report →
  ∃ score,
    composite_score final_df = Ok score ∧
    columns report = REPORT_COLUMNS ∧
    rows report =
      take 20 (pd.restrict REPORT_COLUMNS <$>
               omap (rows (pd.setitem "Composite_Score" score final_df) !!.)
                    (argsort_desc score)).
Proof.
  unfold rank. intros H.
  destruct (composite_score final_df) as [score|] eqn:Hs; [|done].
  exists score. split; [done|]. ok_step_in H.
  pose proof (composite_score_length _ _ Hs) as Hlen.
  unfold sort_values in H.
  rewrite (getitem_Ok _ _ (setitem_columns _ _ _)) in H. do 2 ok_step_in H.
  rewrite (setitem_get _ _ _ Hlen) in H.
  apply result_bind_inv in H as (sel & Hsel & [= <-]).
  unfold pd.getitem_cols in Hsel. destruct (pd.missing _ _); [done|].
  injection Hsel as <-. done.
Qed.

Lemma rank_scores final_df score report :
  composite_score final_df = Ok score →
  rank argsort_desc final_df = Ok report →
  get "Composite_Score" <$> rows report = take 20 (omap (score !!.) (argsort_desc score)).
Proof.
  intros Hs Hr. apply rank_inv in Hr as (score' & Hs' & _ & ->).
  rewrite Hs in Hs'. injection Hs' as <-.
  rewrite fmap_take, <- list_fmap_compose.
  rewrite (list_fmap_ext _ (get "Composite_Score")).
  - by rewrite omap_lookup_fmap, setitem_get by by apply composite_score_length.
  - intros i r _. apply get_restrict. decide_now.
Qed.

End RankingFacts.

(** ** The sort

    numpy's quicksort returns its input in ascending order, whatever the
    input: by insertion for a small partition, by the cut at a pivot and,
    when the cuts run out of depth, by the heap sort. *)

Section SortFacts.

Context {A : Type} `{!Inhabited A}.
Variable less : A → A → bool.
Hypothesis less_asym : ∀ x y, less x y = true → less y x = false.
Hypothesis less_neg_trans :
  ∀ x y z, less y x = false → less z y = false → less z x = false.

Lemma less_irrefl x : less x x = false.
Proof. destruct (less x x) eqn:E; [|done]. by rewrite (less_asym _ _ E) in E. Qed.

Lemma swap_length i j (a : list A) : length (npysort.swap i j a) = length a.
Proof. unfold npysort.swap. by rewrite !length_insert. Qed.

Lemma swap_lookup i j k (a : list A) :
  i < length a → j < length a →
  npysort.swap i j a !! k =
    a !! (if decide (k = j) then i else if decide (k = i) then j else k).
Proof.
  intros Hi Hj. unfold npysort.swap.
  destruct (decide (k = j)) as [->|Hkj].
  - rewrite list_lookup_insert_eq by (by rewrite length_insert).
    symmetry. by apply list_lookup_lookup_total_lt.
  - rewrite list_lookup_insert_ne by done.
    destruct (decide (k = i)) as [->|Hki].
    + rewrite list_lookup_insert_eq by done.
      symmetry. by apply list_lookup_lookup_total_lt.
    + by rewrite list_lookup_insert_ne.
Qed.

Lemma swap_total i j k (a : list A) :
  i < length a → j < length a →
  npysort.swap i j a !!! k =
    a !!! (if decide (k = j) then i else if decide (k = i) then j else k).
Proof. intros Hi Hj. by rewrite !list_lookup_total_alt, swap_lookup. Qed.

Lemma swap_perm i j (a : list A) :
  i < length a → j < length a → npysort.swap i j a ≡ₚ a.
Proof.
  intros Hi Hj. apply Permutation_inj. split; [apply swap_length|].
  exists (λ k, if decide (k = j) then i else if decide (k = i) then j else k).
  split; [|intros k; by apply swap_lookup].
  intros x y. repeat case_decide; intros; subst; congruence.
Qed.

(** *** The insertion sort *)

Lemma insert_perm vi before : npysort.insert_before less vi before ≡ₚ vi :: before.
Proof.
  induction before as [|vk before IH]; [done|]. cbn [npysort.insert_before].
  destruct (less vi vk); [|done]. rewrite IH. apply perm_swap.
Qed.

Lemma insert_sorted vi before :
  StronglySorted (λ x y, less x y = false) before →
  StronglySorted (λ x y, less x y = false) (npysort.insert_before less vi before).
Proof.
  induction 1 as [|vk before Hs IH Hk]; [repeat constructor|].
  cbn [npysort.insert_before]. destruct (less vi vk) eqn:E.
  - constructor; [done|]. rewrite insert_perm. constructor; [by apply less_asym|done].
  - constructor; [by constructor|]. constructor; [done|].
    eapply Forall_impl; [exact Hk|]. intros y Hy. cbv beta in Hy.
    by apply (less_neg_trans _ vk).
Qed.

Lemma insertion_sort_perm (a : list A) : npysort.insertion_sort less a ≡ₚ a.
Proof.
  unfold npysort.insertion_sort. rewrite reverse_Permutation.
  assert (∀ before, foldl (λ before vi, npysort.insert_before less vi before) before a
                    ≡ₚ a ++ before) as H.
  { induction a as [|x a IH]; intros before; [done|]. cbn [foldl].
    rewrite IH, insert_perm. by rewrite <- Permutation_middle. }
  by rewrite H, app_nil_r.
Qed.

Lemma StronglySorted_reverse {B} (R : B → B → Prop) (l : list B) :
  StronglySorted R l → StronglySorted (flip R) (reverse l).
Proof.
  induction 1 as [|x l Hs IH Hx]; [constructor|].
  rewrite reverse_cons. apply StronglySorted_app_2; [|done|repeat constructor].
  intros y z Hy ->%list_elem_of_singleton.
  rewrite elem_of_reverse in Hy. rewrite Forall_forall in Hx. unfold flip. by apply Hx.
Qed.

Lemma insertion_sort_sorted (a : list A) :
  StronglySorted (λ x y, less y x = false) (npysort.insertion_sort less a).
Proof.
  unfold npysort.insertion_sort.
  apply (StronglySorted_reverse (λ x y, less x y = false)).
  assert (∀ before, StronglySorted (λ x y, less x y = false) before →
            StronglySorted (λ x y, less x y = false)
              (foldl (λ before vi, npysort.insert_before less vi before) before a)) as H.
  { induction a as [|x a IH]; intros before Hb; [done|]. cbn [foldl].
    by apply IH, insert_sorted. }
  apply H. constructor.
Qed.

(** *** The partition *)

Lemma scan_up_spec vp (a : list A) fuel pi stop :
  pi ≤ stop → stop - pi < fuel → less (a !!! stop) vp = false →
  pi ≤ npysort.scan_up less vp a fuel pi ≤ stop ∧
  less (a !!! npysort.scan_up less vp a fuel pi) vp = false ∧
  ∀ k, pi ≤ k → k < npysort.scan_up less vp a fuel pi → less (a !!! k) vp = true.
Proof.
  revert pi. induction fuel as [|fuel IH]; intros pi Hle Hf Hstop; [lia|].
  cbn [npysort.scan_up]. destruct (less (a !!! pi) vp) eqn:E.
  - assert (pi ≠ stop) by (intros ->; congruence).
    destruct (IH (S pi)) as (Hr & Hl & Hk); [lia..|done|].
    split; [lia|]. split; [done|]. intros k Hk1 Hk2.
    destruct (decide (k = pi)) as [->|]; [done|]. apply Hk; lia.
  - split; [lia|]. split; [done|]. intros; lia.
Qed.

Lemma scan_down_spec vp (a : list A) fuel pj stop :
  stop ≤ pj → pj - stop < fuel → less vp (a !!! stop) = false →
  stop ≤ npysort.scan_down less vp a fuel pj ≤ pj ∧
  less vp (a !!! npysort.scan_down less vp a fuel pj) = false ∧
  ∀ k, npysort.scan_down less vp a fuel pj < k → k ≤ pj → less vp (a !!! k) = true.
Proof.
  revert pj. induction fuel as [|fuel IH]; intros pj Hle Hf Hstop; [lia|].
  cbn [npysort.scan_down]. destruct (less vp (a !!! pj)) eqn:E.
  - assert (pj ≠ stop) by (intros ->; congruence).
    destruct (IH (pred pj)) as (Hr & Hl & Hk); [lia..|done|].
    split; [lia|]. split; [done|]. intros k Hk1 Hk2.
    destruct (decide (k = pj)) as [->|]; [done|]. apply Hk; lia.
  - split; [lia|]. split; [done|]. intros; lia.
Qed.

Lemma crossing_spec vp pr fuel pi pj (a : list A) :
  length a = S pr →
  pi < pj → pj ≤ pr - 1 → pj - pi < fuel →
  (∀ k, k ≤ pi → less vp (a !!! k) = false) →
  (∀ k, pj ≤ k → k ≤ pr → less (a !!! k) vp = false) →
  a !!! (pr - 1) = vp →
  ∃ pi' a', npysort.crossing less vp fuel pi pj a = (pi', a') ∧
    a' ≡ₚ a ∧ length a' = S pr ∧ pi < pi' ∧ pi' ≤ pr - 1 ∧
    (∀ k, k < pi' → less vp (a' !!! k) = false) ∧
    less (a' !!! pi') vp = false ∧
    (∀ k, pi' < k → k ≤ pr → less (a' !!! k) vp = false) ∧
    a' !!! (pr - 1) = vp.
Proof.
  revert pi pj a. induction fuel as [|fuel IH]; intros pi pj a Hlen Hij Hj Hf Hlo Hhi Hp; [lia|].
  cbn [npysort.crossing]. rewrite Hlen.
  destruct (scan_up_spec vp a (S pr) (S pi) pj) as (Hi1 & Hi2 & Hi3); [lia..|apply Hhi; lia|].
  destruct (scan_down_spec vp a (S pr) (pred pj) pi) as (Hj1 & Hj2 & Hj3); [lia..|apply Hlo; lia|].
  set (pi' := npysort.scan_up less vp a (S pr) (S pi)) in *.
  set (pj' := npysort.scan_down less vp a (S pr) (pred pj)) in *.
  assert (Hbelow : ∀ k, k < pi' → less vp (a !!! k) = false).
  { intros k Hk. destruct (decide (k ≤ pi)); [by apply Hlo|].
    apply less_asym, Hi3; lia. }
  assert (Habove : ∀ k, pj' < k → k ≤ pr → less (a !!! k) vp = false).
  { intros k Hk1 Hk2. destruct (decide (pj ≤ k)); [by apply Hhi|].
    apply less_asym, Hj3; lia. }
  destruct (pj' <=? pi') eqn:Hcross.
  - apply Nat.leb_le in Hcross. exists pi', a. split; [done|].
    split; [done|]. split; [done|]. split; [lia|]. split; [lia|].
    split; [done|]. split; [done|]. split; [|done].
    intros k Hk1 Hk2. apply Habove; lia.
  - apply Nat.leb_gt in Hcross.
    assert (Htot : ∀ k, npysort.swap pi' pj' a !!! k =
                        a !!! (if decide (k = pj') then pi'
                               else if decide (k = pi') then pj' else k)).
    { intros k. apply swap_total; lia. }
    destruct (IH pi' pj' (npysort.swap pi' pj' a)) as (pi'' & a'' & Hc & Hperm & Hl & ? & ? & ? & ? & ? & ?).
    + by rewrite swap_length.
    + done.
    + lia.
    + lia.
    + intros k Hk. rewrite Htot. repeat case_decide; subst; try lia; [done|].
      apply Hbelow. lia.
    + intros k Hk1 Hk2. rewrite Htot. repeat case_decide; subst; try lia; [done|].
      apply Habove; lia.
    + rewrite Htot. repeat case_decide; subst; try lia. done.
    + exists pi'', a''. split; [done|]. split.
      { rewrite Hperm. apply swap_perm; lia. }
      repeat split; try done; lia.
Qed.

Lemma order_spec i j (a : list A) :
  i < length a → j < length a → i ≠ j →
  npysort.order less i j a ≡ₚ a ∧
  length (npysort.order less i j a) = length a ∧
  less (npysort.order less i j a !!! i) (npysort.order less i j a !!! j) = false ∧
  (∀ k, k ≠ i → k ≠ j → npysort.order less i j a !!! k = a !!! k) ∧
  ((npysort.order less i j a !!! i = a !!! i ∧ npysort.order less i j a !!! j = a !!! j) ∨
   (npysort.order less i j a !!! i = a !!! j ∧ npysort.order less i j a !!! j = a !!! i ∧
    less (a !!! i) (a !!! j) = true)).
Proof.
  intros Hi Hj Hij. unfold npysort.order. destruct (less (a !!! i) (a !!! j)) eqn:E.
  - split; [by apply swap_perm|]. split; [apply swap_length|].
    rewrite !swap_total by done.
    rewrite (decide_False (P := i = j)), (decide_True (P := i = i)),
            (decide_True (P := j = j)) by done.
    split; [by apply less_asym|]. split; [|by right].
    intros k Hk1 Hk2. rewrite swap_total by done. by rewrite !decide_False.
  - split; [done|]. split; [done|]. split; [done|]. split; [done|]. by left.
Qed.

Lemma partition_spec (a : list A) :
  3 ≤ length a →
  ∃ pi a', npysort.partition less a = (pi, a') ∧ a' ≡ₚ a ∧ length a' = length a ∧
    pi < length a - 1 ∧
    (∀ k, k < pi → less (a' !!! pi) (a' !!! k) = false) ∧
    (∀ k, pi < k → k < length a → less (a' !!! k) (a' !!! pi) = false).
Proof.
  intros Hn. unfold npysort.partition.
  set (pr := length a - 1). set (pm := pr / 2).
  assert (2 ≤ pr) as Hpr by (subst pr; lia).
  assert (0 < pm ∧ pm < pr) as [Hpm0 Hpmr].
  { subst pm. split; [apply Nat.div_str_pos; lia|apply Nat.div_lt; lia]. }
  destruct (order_spec pm 0 a) as (P1 & L1 & O1 & K1 & C1); [lia..|].
  set (a1 := npysort.order less pm 0 a) in *.
  destruct (order_spec pr pm a1) as (P2 & L2 & O2 & K2 & C2); [lia..|].
  set (a2 := npysort.order less pr pm a1) in *.
  destruct (order_spec pm 0 a2) as (P3 & L3 & O3 & K3 & C3); [lia..|].
  set (a3 := npysort.order less pm 0 a2) in *.
  assert (less (a3 !!! pr) (a3 !!! pm) = false) as Hhigh.
  { rewrite (K3 pr) by lia. destruct C3 as [[-> _]|(-> & _ & E3)]; [done|].
    rewrite (K2 0) in * by lia.
    destruct C2 as [[_ E]|(-> & _ & _)]; [|done].
    rewrite E in E3. congruence. }
  set (vp := a3 !!! pm) in *.
  assert (Htot : ∀ k, npysort.swap pm (pr - 1) a3 !!! k =
                      a3 !!! (if decide (k = pr - 1) then pm
                              else if decide (k = pm) then pr - 1 else k)).
  { intros k. apply swap_total; lia. }
  destruct (crossing_spec vp pr (length (npysort.swap pm (pr - 1) a3)) 0 (pr - 1)
              (npysort.swap pm (pr - 1) a3))
    as (pi & a5 & Hc & P5 & L5 & Hpi0 & Hpi & Hlo & Hmid & Hhi & Hpiv).
  - rewrite swap_length. lia.
  - lia.
  - lia.
  - rewrite swap_length. lia.
  - intros k Hk. assert (k = 0) as -> by lia. rewrite Htot.
    repeat case_decide; try lia. done.
  - intros k Hk1 Hk2. rewrite Htot. repeat case_decide; try lia.
    + apply less_irrefl.
    + assert (k = pr) as -> by lia. done.
  - rewrite Htot. by rewrite decide_True.
  - rewrite Hc. exists pi, (npysort.swap pi (pr - 1) a5).
    assert (Htot5 : ∀ k, npysort.swap pi (pr - 1) a5 !!! k =
                         a5 !!! (if decide (k = pr - 1) then pi
                                 else if decide (k = pi) then pr - 1 else k)).
    { intros k. apply swap_total; lia. }
    split; [done|]. split.
    { rewrite swap_perm by lia. rewrite P5, swap_perm by lia. by rewrite P3, P2, P1. }
    split; [rewrite swap_length; lia|]. split; [lia|].
    assert (npysort.swap pi (pr - 1) a5 !!! pi = vp) as ->.
    { rewrite Htot5. repeat case_decide; try lia; [by subst|done]. }
    split.
    + intros k Hk. rewrite Htot5. repeat case_decide; try lia. by apply Hlo.
    + intros k Hk1 Hk2. rewrite Htot5. repeat case_decide; try lia; [done|].
      apply Hhi; lia.
Qed.

Lemma sorted_around (l r : list A) p :
  StronglySorted (λ x y, less y x = false) l →
  StronglySorted (λ x y, less y x = false) r →
  Forall (λ x, less p x = false) l →
  Forall (λ y, less y p = false) r →
  StronglySorted (λ x y, less y x = false) (l ++ [p] ++ r).
Proof.
  intros Hl Hr Hlp Hrp. rewrite Forall_forall in Hlp, Hrp.
  apply StronglySorted_app_2; [|done|].
  - intros x y Hx [->%list_elem_of_singleton|Hy]%elem_of_app; [by apply Hlp|].
    apply (less_neg_trans _ p); [by apply Hlp|by apply Hrp].
  - constructor; [done|]. apply Forall_forall. intros y Hy. by apply Hrp.
Qed.

End SortFacts.

Section HeapFacts.

Context {A : Type} `{!Inhabited A}.
Variable less : A → A → bool.
Hypothesis less_asym : ∀ x y, less x y = true → less y x = false.
Hypothesis less_neg_trans :
  ∀ x y z, less y x = false → less z y = false → less z x = false.

(** The sift restores the heap below a node that alone may break it. *)
Lemma sift_down_spec fuel lo i (a : list A) :
  length a - i ≤ fuel → lo ≤ i →
  (∀ k j, lo ≤ k → k ≠ i → (j = 2 * k + 1 ∨ j = 2 * k + 2) → j < length a →
          less (a !!! k) (a !!! j) = false) →
  (∀ p j, lo ≤ p → (i = 2 * p + 1 ∨ i = 2 * p + 2) → (j = 2 * i + 1 ∨ j = 2 * i + 2) →
          j < length a → less (a !!! p) (a !!! j) = false) →
  npysort.sift_down less fuel (length a) i a ≡ₚ a ∧
  npysort.heap less lo (length a) (npysort.sift_down less fuel (length a) i a).
Proof.
  revert i a. induction fuel as [|fuel IH]; intros i a Hf Hlo Hheap Hgrand.
  { split; [done|]. intros k j Hk Hj Hjn.
    destruct (decide (k = i)) as [->|]; [lia|]. by apply Hheap. }
  cbn [npysort.sift_down].
  destruct (2 * i + 1 <? length a) eqn:Hchild.
  2:{ apply Nat.ltb_ge in Hchild. split; [done|]. intros k j Hk Hj Hjn.
      destruct (decide (k = i)) as [->|]; [lia|]. by apply Hheap. }
  apply Nat.ltb_lt in Hchild.
  set (j := if (S (2 * i + 1) <? length a) && less (a !!! (2 * i + 1)) (a !!! S (2 * i + 1))
            then S (2 * i + 1) else 2 * i + 1).
  assert (Hj : (j = 2 * i + 1 ∨ j = 2 * i + 2) ∧ j < length a ∧
               ∀ c, (c = 2 * i + 1 ∨ c = 2 * i + 2) → c < length a →
                    less (a !!! j) (a !!! c) = false).
  { subst j. destruct (S (2 * i + 1) <? length a) eqn:E1; cbn [andb].
    - apply Nat.ltb_lt in E1.
      destruct (less (a !!! (2 * i + 1)) (a !!! S (2 * i + 1))) eqn:E2.
      + split; [lia|]. split; [lia|]. intros c [->| ->] Hc.
        * by apply less_asym.
        * replace (2 * i + 2) with (S (2 * i + 1)) by lia. apply (less_irrefl less less_asym).
      + split; [lia|]. split; [lia|]. intros c [->| ->] Hc.
        * apply (less_irrefl less less_asym).
        * by replace (2 * i + 2) with (S (2 * i + 1)) by lia.
    - apply Nat.ltb_ge in E1. split; [lia|]. split; [lia|]. intros c [->| ->] Hc; [|lia].
      apply (less_irrefl less less_asym). }
  clearbody j. destruct Hj as (Hj & Hjn & Hmax).
  destruct (less (a !!! i) (a !!! j)) eqn:Hless.
  2:{ split; [done|]. intros k c Hk Hc Hcn.
      destruct (decide (k = i)) as [->|]; [|by apply Hheap].
      apply (less_neg_trans _ (a !!! j)); [by apply Hmax|done]. }
  assert (Htot : ∀ k, npysort.swap i j a !!! k =
                      a !!! (if decide (k = j) then i else if decide (k = i) then j else k)).
  { intros k. apply swap_total; lia. }
  destruct (IH j (npysort.swap i j a)) as [Hperm Hh].
  - rewrite swap_length. lia.
  - lia.
  - rewrite swap_length. intros k c Hk Hkj Hc Hcn. rewrite !Htot.
    destruct (decide (k = j)) as [->|_]; [done|].
    destruct (decide (c = j)) as [->|Hcj].
    + (* the parent of [j] is [i] *)
      assert (k = i) as -> by lia. rewrite decide_True by done. by apply less_asym.
    + destruct (decide (k = i)) as [->|Hki].
      * destruct (decide (c = i)) as [->|_]; [lia|]. by apply Hmax.
      * destruct (decide (c = i)) as [->|_]; [by apply (Hgrand k j)|].
        by apply Hheap.
  - rewrite swap_length. intros p c Hp Hpj Hc Hcn. rewrite !Htot.
    assert (p = i) as -> by lia.
    rewrite (decide_False (P := i = j)), (decide_True (P := i = i)) by lia.
    rewrite (decide_False (P := c = j)), (decide_False (P := c = i)) by lia.
    apply Hheap; [lia|lia|done|done].
  - rewrite swap_length in *. split; [|done].
    rewrite Hperm. apply swap_perm; lia.
Qed.

Lemma sift_down_length fuel n i (a : list A) :
  length (npysort.sift_down less fuel n i a) = length a.
Proof.
  revert i a. induction fuel as [|fuel IH]; intros i a; [done|].
  cbn [npysort.sift_down]. destruct (_ <? n); [|done].
  destruct (less _ _); [|done]. by rewrite IH, swap_length.
Qed.

(** The first loop of the heap sort. *)
Lemma heapify_spec n m (a : list A) :
  length a = n → npysort.heap less m n a →
  foldl (λ a i, npysort.sift_down less n n i a) a (reverse (seq 0 m)) ≡ₚ a ∧
  npysort.heap less 0 n
    (foldl (λ a i, npysort.sift_down less n n i a) a (reverse (seq 0 m))).
Proof.
  revert a. induction m as [|m IH]; intros a Hlen Hheap; [done|].
  rewrite seq_S, reverse_app. cbn [reverse app foldl Nat.add].
  change (reverse [m]) with [m]. cbn [app foldl]. subst n.
  destruct (sift_down_spec (length a) m m a) as [Hperm Hh]; [lia|done| | |].
  - intros k j Hk Hkm. apply Hheap. lia.
  - intros p j Hp Hm. lia.
  - assert (length (npysort.sift_down less (length a) (length a) m a) = length a) as Hlen
      by apply sift_down_length.
    destruct (IH (npysort.sift_down less (length a) (length a) m a)) as [Hperm' Hh']; [done..|].
    split; [by rewrite Hperm'|done].
Qed.

(** The root of a heap is not less than any element of it. *)
Lemma heap_root (a : list A) k :
  npysort.heap less 0 (length a) a → k < length a → less (a !!! 0) (a !!! k) = false.
Proof.
  intros Hheap. induction (lt_wf k) as [k _ IH]. intros Hk.
  destruct k as [|k]; [apply (less_irrefl less less_asym)|].
  apply (less_neg_trans _ (a !!! (k / 2))).
  - apply Hheap; [lia| |done].
    pose proof (Nat.div_mod_eq k 2). pose proof (Nat.mod_upper_bound k 2). lia.
  - apply IH; [|]; pose proof (Nat.div_mod_eq k 2); pose proof (Nat.mod_upper_bound k 2); lia.
Qed.

(** What lies behind the heap is out of reach of a swap and of a sift. *)
Lemma swap_app i j (h s : list A) :
  i < length h → j < length h → npysort.swap i j (h ++ s) = npysort.swap i j h ++ s.
Proof.
  intros Hi Hj. unfold npysort.swap.
  rewrite !lookup_total_app_l by done.
  rewrite insert_app_l by done. by rewrite insert_app_l by (by rewrite length_insert).
Qed.

Lemma sift_down_app fuel i (h s : list A) :
  npysort.sift_down less fuel (length h) i (h ++ s) =
  npysort.sift_down less fuel (length h) i h ++ s.
Proof.
  revert i h. induction fuel as [|fuel IH]; intros i h; [done|].
  cbn [npysort.sift_down]. destruct (2 * i + 1 <? length h) eqn:E; [|done].
  apply Nat.ltb_lt in E.
  assert (((S (2 * i + 1) <? length h) &&
           less ((h ++ s) !!! (2 * i + 1)) ((h ++ s) !!! S (2 * i + 1))) =
          ((S (2 * i + 1) <? length h) && less (h !!! (2 * i + 1)) (h !!! S (2 * i + 1)))) as ->.
  { destruct (S (2 * i + 1) <? length h) eqn:E'; [|done]. apply Nat.ltb_lt in E'.
    by rewrite !lookup_total_app_l by lia. }
  set (j := if _ && _ then _ else _).
  assert (j < length h) as Hj.
  { subst j. destruct (S (2 * i + 1) <? length h) eqn:E'; cbn [andb]; [|done].
    apply Nat.ltb_lt in E'. by destruct (less _ _). }
  clearbody j. rewrite !lookup_total_app_l by lia.
  destruct (less (h !!! i) (h !!! j)); [|done].
  rewrite swap_app by lia. rewrite <- (swap_length i j h). apply IH.
Qed.

Lemma swap_first_last x (mid : list A) z s :
  npysort.swap 0 (S (length mid)) (x :: mid ++ z :: s) = z :: mid ++ x :: s.
Proof.
  unfold npysort.swap.
  assert ((x :: mid ++ z :: s) !!! S (length mid) = z) as ->.
  { change ((mid ++ z :: s) !!! length mid = z).
    rewrite lookup_total_app_r by done. by rewrite Nat.sub_diag. }
  change (z :: <[length mid := x]> (mid ++ z :: s) = z :: mid ++ x :: s).
  f_equal. rewrite insert_app_r_alt by done. by rewrite Nat.sub_diag.
Qed.

(** The second loop of the heap sort, on a heap followed by elements that
    are sorted and not less than those of the heap. *)
Lemma sort_heap_spec n (h s : list A) :
  length h = n → npysort.heap less 0 n h →
  StronglySorted (λ x y, less y x = false) s →
  (∀ u y, u ∈ h → y ∈ s → less y u = false) →
  npysort.sort_heap less n (h ++ s) ≡ₚ h ++ s ∧
  StronglySorted (λ x y, less y x = false) (npysort.sort_heap less n (h ++ s)).
Proof.
  revert h s. induction n as [|n IH]; intros h s Hlen Hheap Hs Hcross.
  { destruct h; [|done]. done. }
  cbn [npysort.sort_heap].
  destruct h as [|x h']; [done|]. injection Hlen as Hlen.
  assert (Hroot : ∀ u, u ∈ x :: h' → less x u = false).
  { intros u [k Hk]%list_elem_of_lookup.
    pose proof (heap_root (x :: h') k) as Hr. cbn [length] in Hr. rewrite Hlen in Hr.
    rewrite (list_lookup_total_correct _ _ _ Hk) in Hr.
    apply Hr; [done|]. apply lookup_lt_Some in Hk. cbn [length] in Hk. lia. }
  assert (Hx : StronglySorted (λ x y, less y x = false) (x :: s)).
  { constructor; [done|]. apply Forall_forall. intros y Hy. apply Hcross; [left|done]. }
  destruct (1 <? S n) eqn:E.
  2:{ apply Nat.ltb_ge in E. assert (n = 0) as -> by lia.
      destruct h'; [|done]. done. }
  destruct (exists_last (l := h')) as (mid & z & ->).
  { intros ->. cbn in Hlen. apply Nat.ltb_lt in E. lia. }
  rewrite length_app in Hlen. cbn [length] in Hlen.
  assert (n = S (length mid)) as Hn by lia. clear Hlen E. subst n.
  change ((x :: mid ++ [z]) ++ s) with (x :: (mid ++ [z]) ++ s).
  rewrite <- app_assoc. cbn [app].
  rewrite swap_first_last.
  change (npysort.sift_down less (S (length mid)) (S (length mid)) 0 (z :: mid ++ x :: s))
    with (npysort.sift_down less (S (length mid)) (length (z :: mid)) 0 ((z :: mid) ++ x :: s)).
  rewrite sift_down_app.
  destruct (sift_down_spec (S (length mid)) 0 0 (z :: mid))
    as [Hperm Hh]; [cbn [length]; lia|done| | |].
  - intros k j _ Hk Hj Hjn.
    pose proof (Hheap k j) as Hkj. cbn [length] in Hjn.
    assert (Hin : ∀ c, 0 < c → c < S (length mid) →
                       (z :: mid) !!! c = (x :: mid ++ [z]) !!! c).
    { intros c Hc0 Hc. destruct c as [|c]; [lia|].
      change (mid !!! c = (mid ++ [z]) !!! c).
      by rewrite lookup_total_app_l by lia. }
    rewrite !Hin by lia. apply Hkj; [lia|done|lia].
  - intros p j _ Hp. lia.
  - set (h2 := npysort.sift_down less (S (length mid)) (length (z :: mid)) 0 (z :: mid)) in *.
    assert (length h2 = S (length mid)) as Hlen2.
    { subst h2. by rewrite sift_down_length. }
    destruct (IH h2 (x :: s)) as [Hp2 Hs2].
    + done.
    + done.
    + done.
    + intros u y Hu Hy. rewrite Hperm in Hu.
      assert (u ∈ x :: mid ++ [z]) as Hu'.
      { apply elem_of_cons in Hu as [->|Hu].
        - apply elem_of_cons; right. apply elem_of_app; right. left.
        - apply elem_of_cons; right. apply elem_of_app; by left. }
      apply elem_of_cons in Hy as [->|Hy]; [by apply Hroot|by apply Hcross].
    + split; [|done]. rewrite Hp2, Hperm.
      cbn [app]. rewrite <- (Permutation_middle mid s x), <- (Permutation_middle mid s z).
      apply perm_swap.
Qed.

Lemma heapsort_spec (a : list A) :
  npysort.heapsort less a ≡ₚ a ∧
  StronglySorted (λ x y, less y x = false) (npysort.heapsort less a).
Proof.
  unfold npysort.heapsort.
  destruct (heapify_spec (length a) (length a / 2) a) as [Hperm Hheap]; [done| |].
  { intros i j Hi Hj Hjn. pose proof (Nat.div_mod_eq (length a) 2).
    pose proof (Nat.mod_upper_bound (length a) 2). lia. }
  set (h := foldl _ a _) in *.
  assert (length h = length a) as Hlen by (by apply Permutation_length).
  destruct (sort_heap_spec (length a) h []) as [Hp Hs];
    [done|done|constructor|by intros ? ? ? ?%elem_of_nil|].
  rewrite app_nil_r in *. split; [by rewrite Hp|done].
Qed.

End HeapFacts.

Section QuicksortFacts.

Context {A : Type} `{!Inhabited A}.
Variable less : A → A → bool.
Hypothesis less_asym : ∀ x y, less x y = true → less y x = false.
Hypothesis less_neg_trans :
  ∀ x y z, less y x = false → less z y = false → less z x = false.

Lemma quicksort_spec fuel cdepth (a : list A) :
  length a ≤ fuel →
  npysort.quicksort less fuel cdepth a ≡ₚ a ∧
  StronglySorted (λ x y, less y x = false) (npysort.quicksort less fuel cdepth a).
Proof.
  revert cdepth a. induction fuel as [|fuel IH]; intros cdepth a Hf.
  { destruct a; [|cbn in Hf; lia]. split; [done|constructor]. }
  cbn [npysort.quicksort]. destruct (length a <=? 17) eqn:Hsmall.
  { split; [apply insertion_sort_perm|by apply insertion_sort_sorted]. }
  apply Nat.leb_gt in Hsmall.
  destruct (partition_spec less less_asym a) as (pi & a' & -> & Hperm & Hlen & Hpi & Hlo & Hhi);
    [lia|].
  assert (Hcut : a' = take pi a' ++ take 1 (drop pi a') ++ drop (S pi) a').
  { rewrite <- (take_drop pi a') at 1. f_equal.
    rewrite <- (take_drop 1 (drop pi a')) at 1. by rewrite drop_drop, Nat.add_1_r. }
  assert (Hpivot : take 1 (drop pi a') = [a' !!! pi]).
  { rewrite (drop_S a' (a' !!! pi) pi); [done|].
    apply list_lookup_lookup_total_lt. lia. }
  assert (Hleft : Forall (λ x, less (a' !!! pi) x = false) (take pi a')).
  { apply Forall_lookup. intros k x Hk. pose proof (lookup_lt_Some _ _ _ Hk) as Hlt.
    rewrite length_take in Hlt. rewrite lookup_take_lt in Hk by lia.
    rewrite <- (list_lookup_total_correct _ _ _ Hk). apply Hlo. lia. }
  assert (Hright : Forall (λ y, less y (a' !!! pi) = false) (drop (S pi) a')).
  { apply Forall_lookup. intros k y Hk. pose proof (lookup_lt_Some _ _ _ Hk) as Hlt.
    rewrite length_drop in Hlt. rewrite lookup_drop in Hk.
    rewrite <- (list_lookup_total_correct _ _ _ Hk). apply Hhi; lia. }
  assert (Hl : length (take pi a') ≤ fuel) by (rewrite length_take; lia).
  assert (Hr : length (drop (S pi) a') ≤ fuel) by (rewrite length_drop; lia).
  assert (Hpopped : ∀ part, length part ≤ fuel →
            (if (cdepth - 1 <? 0)%Z then npysort.heapsort less part
             else npysort.quicksort less fuel (cdepth - 1) part) ≡ₚ part ∧
            StronglySorted (λ x y, less y x = false)
              (if (cdepth - 1 <? 0)%Z then npysort.heapsort less part
               else npysort.quicksort less fuel (cdepth - 1) part)).
  { intros part Hp. destruct (cdepth - 1 <? 0)%Z; [|by apply IH].
    by apply heapsort_spec. }
  assert (Hjoin : ∀ l r, l ≡ₚ take pi a' → r ≡ₚ drop (S pi) a' →
            StronglySorted (λ x y, less y x = false) l →
            StronglySorted (λ x y, less y x = false) r →
            l ++ take 1 (drop pi a') ++ r ≡ₚ a ∧
            StronglySorted (λ x y, less y x = false) (l ++ take 1 (drop pi a') ++ r)).
  { intros l r Pl Pr Sl Sr. split.
    - rewrite Pl, Pr, <- Hcut. done.
    - rewrite Hpivot. apply (sorted_around less less_neg_trans); [done..| |].
      + by rewrite Pl.
      + by rewrite Pr. }
  destruct (IH (cdepth - 1)%Z _ Hl) as [Pl Sl].
  destruct (IH (cdepth - 1)%Z _ Hr) as [Pr Sr].
  destruct (Hpopped _ Hl) as [Pl' Sl']. destruct (Hpopped _ Hr) as [Pr' Sr'].
  destruct (pi <? length a' - 1 - pi); by apply Hjoin.
Qed.

(** [aquicksort] puts the array in ascending order. *)
Lemma aquicksort_spec (a : list A) :
  npysort.aquicksort less a ≡ₚ a ∧
  StronglySorted (λ x y, less y x = false) (npysort.aquicksort less a).
Proof. by apply quicksort_spec. Qed.

End QuicksortFacts.

(** *** The order numpy sorts doubles by *)

Lemma SFeqb_nan_or_refl s : s = SpecFloat.S754_nan ∨ SpecFloat.SFeqb s s = true.
Proof.
  destruct s as [[]|[]| |[] m e]; auto; right; unfold SpecFloat.SFeqb; cbn;
    change (PosDef.Pos.compare_cont Eq) with Pos.compare;
    by rewrite Z.compare_refl, Pos.compare_refl.
Qed.

Lemma is_nan_spec (x : float) :
  is_nan x = match FloatOps.Prim2SF x with SpecFloat.S754_nan => true | _ => false end.
Proof.
  unfold is_nan. rewrite FloatAxioms.eqb_spec.
  destruct (SFeqb_nan_or_refl (FloatOps.Prim2SF x)) as [->|E]; [done|].
  rewrite E. by destruct (FloatOps.Prim2SF x).
Qed.

Lemma less_spec (a b : float) :
  npysort.less a b = SFless (FloatOps.Prim2SF a) (FloatOps.Prim2SF b).
Proof. unfold npysort.less, SFless. by rewrite FloatAxioms.ltb_spec, !is_nan_spec. Qed.

Ltac compare_cases :=
  repeat match goal with
    | H : context [Z.compare ?x ?x] |- _ => rewrite Z.compare_refl in H
    | H : context [Pos.compare ?x ?x] |- _ => rewrite Pos.compare_refl in H
    | |- context [Z.compare ?x ?x] => rewrite Z.compare_refl
    | |- context [Pos.compare ?x ?x] => rewrite Pos.compare_refl
    | H : context [Z.compare ?x ?y] |- _ => destruct (Z.compare_spec x y); subst; try done
    | H : context [Pos.compare ?x ?y] |- _ => destruct (Pos.compare_spec x y); subst; try done
    | |- context [Z.compare ?x ?y] => destruct (Z.compare_spec x y); subst; try done
    | |- context [Pos.compare ?x ?y] => destruct (Pos.compare_spec x y); subst; try done
    end; try lia.

Lemma SFless_asym a b : SFless a b = true → SFless b a = false.
Proof.
  unfold SFless, SpecFloat.SFltb.
  destruct a as [[]|[]| |[] ma ea], b as [[]|[]| |[] mb eb]; cbn; try done.
  all: change (PosDef.Pos.compare_cont Eq) with Pos.compare.
  all: intros H; compare_cases.
Qed.

Lemma SFless_neg_trans a b c : SFless b a = false → SFless c b = false → SFless c a = false.
Proof.
  unfold SFless, SpecFloat.SFltb.
  destruct a as [[]|[]| |[] ma ea], b as [[]|[]| |[] mb eb], c as [[]|[]| |[] mc ec];
    cbn; try done.
  all: change (PosDef.Pos.compare_cont Eq) with Pos.compare.
  all: intros H1 H2; compare_cases.
Qed.

Lemma double_less_asym (a b : float) : npysort.less a b = true → npysort.less b a = false.
Proof. rewrite !less_spec. apply SFless_asym. Qed.

Lemma double_less_neg_trans (a b c : float) :
  npysort.less b a = false → npysort.less c b = false → npysort.less c a = false.
Proof. rewrite !less_spec. apply SFless_neg_trans. Qed.

(** *** nargsort *)

Lemma ltb_nan_r (x y : float) : is_nan y = true → (x <? y)%float = false.
Proof.
  rewrite is_nan_spec, FloatAxioms.ltb_spec. destruct (FloatOps.Prim2SF y); try done.
  intros _. unfold SpecFloat.SFltb. by destruct (FloatOps.Prim2SF x).
Qed.

Lemma filter_split {B} (p : B → bool) (l : list B) :
  List.filter (λ x, negb (p x)) l ++ List.filter p l ≡ₚ l.
Proof.
  induction l as [|x l IH]; [done|]. cbn [List.filter].
  destruct (p x); cbn [negb app].
  - by rewrite <- Permutation_middle, IH.
  - by rewrite IH.
Qed.

Lemma StronglySorted_among {B} (P : B → Prop) (R R' : B → B → Prop) (l : list B) :
  (∀ a b, P a → P b → R a b → R' a b) →
  Forall P l → StronglySorted R l → StronglySorted R' l.
Proof.
  intros HR HP Hs. induction Hs as [|x l Hs IH Hx]; [constructor|].
  apply Forall_cons in HP as [Px HP]. constructor; [by apply IH|].
  rewrite Forall_forall in Hx, HP. apply Forall_forall. intros y Hy.
  apply HR; [done|by apply HP|by apply Hx].
Qed.

Lemma StronglySorted_of_fmap {B C} (f : B → C) (R : C → C → Prop) (l : list B) :
  StronglySorted (λ x y, R (f x) (f y)) l → StronglySorted R (f <$> l).
Proof.
  induction 1 as [|x l Hs IH Hx]; [constructor|]. csimpl.
  constructor; [done|]. by apply Forall_fmap.
Qed.

Lemma imap_pair_fst {B} (l : list B) k :
  (imap (λ i c, (k + i, c)) l).*1 = seq k (length l).
Proof.
  revert k. induction l as [|x l IH]; intros k; [done|]. cbn [imap fmap list_fmap length seq].
  rewrite Nat.add_0_r. f_equal. rewrite <- (IH (S k)). f_equal.
  apply imap_ext. intros i y _. cbn. f_equal. lia.
Qed.

Lemma imap_pair_lookup {B} (l : list B) (ic : nat * B) :
  ic ∈ imap (λ i c, (i, c)) l → l !! ic.1 = Some ic.2.
Proof.
  intros [k Hk]%list_elem_of_lookup. rewrite list_lookup_imap in Hk.
  destruct (l !! k) as [c|] eqn:E; [|done]. by injection Hk as <-.
Qed.

Lemma omap_lookup_pairs {B} (l : list B) (pairs : list (nat * B)) :
  Forall (λ ic, l !! ic.1 = Some ic.2) pairs → omap (l !!.) pairs.*1 = pairs.*2.
Proof.
  induction 1 as [|[i c] pairs Hic _ IH]; [done|]. csimpl in *. by rewrite Hic, IH.
Qed.

(** The order pandas returns meets what it documents of the sort: it names
    every row once, from the highest key to the lowest, missing keys
    last. *)
Lemma nargsort_sorts (keys : Series) : sorts_descending keys (nargsort keys).
Proof.
  unfold nargsort.
  set (indexed := imap (λ i c, (i, c)) keys).
  set (less' := λ a b : nat * cell, npysort.less (num a.2) (num b.2)).
  destruct (aquicksort_spec less'
              (λ x y, double_less_asym (num x.2) (num y.2))
              (λ x y z, double_less_neg_trans (num x.2) (num y.2) (num z.2))
              (reverse (List.filter (λ ic, notna ic.2) indexed))) as [Hperm Hsorted].
  set (sorted := npysort.aquicksort less' _) in *.
  rewrite reverse_Permutation in Hperm.
  assert (Hin : ∀ ic, ic ∈ indexed → keys !! ic.1 = Some ic.2) by apply imap_pair_lookup.
  assert (Hpresent : Forall (λ ic : nat * cell, ic ∈ indexed ∧ isna ic.2 = false) sorted).
  { rewrite Hperm. apply Forall_forall. intros ic [H1 H2]%list_elem_of_In%filter_In.
    split; [by apply list_elem_of_In|]. by apply negb_true_iff. }
  assert (Hmissing : Forall (λ ic : nat * cell, ic ∈ indexed ∧ isna ic.2 = true)
                       (List.filter (λ ic, isna ic.2) indexed)).
  { apply Forall_forall. intros ic [H1 H2]%list_elem_of_In%filter_In.
    split; [by apply list_elem_of_In|done]. }
  split.
  - rewrite reverse_Permutation, Hperm, <- fmap_app.
    rewrite (filter_split (λ ic : nat * cell, isna ic.2) indexed).
    subst indexed. apply (reflexive_eq _ _ (imap_pair_fst keys 0)).
  - rewrite omap_app, <- fmap_reverse.
    rewrite (omap_lookup_pairs keys (reverse sorted)), (omap_lookup_pairs keys (List.filter _ _)).
    2:{ eapply Forall_impl; [exact Hmissing|]. intros ic [H _]. by apply Hin. }
    2:{ rewrite Forall_reverse. eapply Forall_impl; [exact Hpresent|].
        intros ic [H _]. by apply Hin. }
    apply StronglySorted_app_2.
    + intros a b [ia [-> Ha]]%list_elem_of_fmap [ib [-> Hb]]%list_elem_of_fmap.
      rewrite Forall_forall in Hmissing. destruct (Hmissing _ Hb) as [_ Hnb].
      split; [done|]. apply ltb_nan_r. by destruct ib.2.
    + apply StronglySorted_of_fmap.
      apply (StronglySorted_among (λ ic : nat * cell, isna ic.2 = false)
               (flip (λ x y, less' y x = false))).
      * intros a b Ha Hb Hab. unfold flip, less', npysort.less in Hab.
        apply orb_false_elim in Hab as [Hab _]. split; [congruence|done].
      * rewrite Forall_reverse. eapply Forall_impl; [exact Hpresent|]. by intros ic [_ H].
      * by apply StronglySorted_reverse.
    + apply StronglySorted_of_fmap.
      apply (StronglySorted_among (λ ic : nat * cell, isna ic.2 = true) (λ _ _, True)).
      * intros a b Ha Hb _. split; [done|]. apply ltb_nan_r. by destruct b.2.
      * eapply Forall_impl; [exact Hmissing|]. by intros ic [_ H].
      * clear. induction (List.filter _ _); constructor; [done|]. by apply Forall_true.
Qed.

(** C4, as the code has it.  For every surviving candidate set, the final
    report has at most 20 rows and is ordered by Composite Score from high
    to low, with undefined scores last.  The order is the one [sort_values]
    computes, by numpy's quicksort ([nargsort_sorts]).  Where scores tie
    the order is what the quicksort leaves, which need not be the input
    order. *)
Theorem report_is_top_twenty_descending (final_df report : DataFrame) :
  rank nargsort final_df = Ok report →
  length (rows report) ≤ 20 ∧
  StronglySorted may_precede (get "Composite_Score" <$> rows report).
Proof.
  intros Hr. pose proof (rank_inv _ _ _ Hr) as (score & Hs & _ & Hrows). split.
  - rewrite Hrows, length_take. lia.
  - rewrite (rank_scores _ _ _ _ Hs Hr). apply StronglySorted_take, nargsort_sorts.
Qed.

(** C4, witness: twenty-two institutions with rising scores, of which the
    twenty with the highest are reported. *)
Lemma report_is_top_twenty_descending_witness :
  length (rows (frame_or_empty (lift (rank nargsort (graded_pool 22))))) ≤ 20 ∧
  StronglySorted may_precede
    (get "Composite_Score" <$>
     rows (frame_or_empty (lift (rank nargsort (graded_pool 22))))).
Proof.
  apply (report_is_top_twenty_descending (graded_pool 22)).
  vm_compute; reflexivity.
Defined.

(** The report of the twenty-two: from the last institution down to the
    third. *)
Example graded_report :
  get "UNITID" <$> rows (frame_or_empty (lift (rank nargsort (graded_pool 22)))) =
  (λ k, Num (float_of_nat k)) <$> reverse (seq 3 20).
Proof. vm_compute; reflexivity. Qed.

(** C4, counterexample: eighteen institutions with the same figures, hence
    the same score, in the input order 1 to 18.  All pass the first tier
    and all are reported, and the quicksort, which cuts a partition of more
    than seventeen elements at a pivot, leaves the third to the seventeenth
    in reverse. *)
Lemma eighteen_tied_rows_change_places :
  get "UNITID" <$> rows (pool_of_equals 18) = (λ k, Num (float_of_nat k)) <$> seq 1 18 ∧
  (generate_insights nargsort (pool_of_equals 18)).1 = [] ∧
  get "Composite_Score" <$>
    rows (frame_or_empty (generate_insights nargsort (pool_of_equals 18)))
    = replicate 18 (Num 2.2) ∧
  get "UNITID" <$> rows (frame_or_empty (generate_insights nargsort (pool_of_equals 18)))
    = (λ k, Num (float_of_nat k)) <$> ([1; 2] ++ reverse (seq 3 15) ++ [18]).
Proof. repeat split; vm_compute; reflexivity. Qed.

(** Two tied rows are sorted by insertion and keep their places. *)
Example two_tied_rows_keep_their_places :
  get "UNITID" <$> rows twins_pool = [Num 1; Num 2] ∧
  get "Composite_Score" <$> rows (frame_or_empty (generate_insights nargsort twins_pool))
    = [Num 2.2; Num 2.2] ∧
  get "UNITID" <$> rows (frame_or_empty (generate_insights nargsort twins_pool))
    = [Num 1; Num 2].
Proof. repeat split; vm_compute; reflexivity. Qed.

(** ** Where the rows of a report come from *)

Lemma setitem_rows_inv c v df (r' : row) :
  r' ∈ rows (pd.setitem c v df) → ∃ r x, r ∈ rows df ∧ r' = <[c := x]> r.
Proof.
  unfold pd.setitem. simpl. intros [i Hi]%list_elem_of_lookup.
  apply lookup_zip_with_Some in Hi as (r & x & -> & Hr & _).
  exists r, x. split; [|done]. by apply list_elem_of_lookup_2 in Hr.
Qed.

Lemma keep_rows_elem p df (r : row) : r ∈ rows (keep p df) → r ∈ rows df ∧ p r = true.
Proof.
  unfold keep. simpl. rewrite !list_elem_of_In, filter_In. done.
Qed.

Section Provenance.

Variable argsort_desc : Series → list nat.

Lemma rank_rows_inv final_df report (r : row) :
  rank argsort_desc final_df = Ok report → r ∈ rows report →
  ∃ r0 x, r0 ∈ rows final_df ∧
          r = pd.restrict REPORT_COLUMNS (<["Composite_Score" := x]> r0).
Proof.
  intros (score & _ & _ & ->)%rank_inv Hr.
  apply elem_of_take in Hr as (i & Hi & _).
  apply list_lookup_fmap_Some in Hi as (r1 & -> & Hr1).
  apply list_elem_of_lookup_2 in Hr1.
  apply (proj1 (list_elem_of_omap _ _ _)) in Hr1 as (j & _ & Hj).
  apply list_elem_of_lookup_2 in Hj.
  apply setitem_rows_inv in Hj as (r0 & x & Hr0 & ->).
  by exists r0, x.
Qed.

(** Every row of the report is a row of the table that was passed in, with
    its score added and cut down to the report columns. *)
Lemma generate_insights_rows df out report (r : row) :
  generate_insights argsort_desc df = (out, Ok report) → r ∈ rows report →
  ∃ r0 x, r0 ∈ rows df ∧
          r = pd.restrict REPORT_COLUMNS (<["Composite_Score" := x]> r0).
Proof.
  intros H Hr. pose proof (generate_insights_columns _ _ _ _ H) as [Hnet Hmgi].
  rewrite (generate_insights_selects _ _ Hnet Hmgi) in H.
  destruct (_ <? 10); injection H as _ H;
    destruct (rank_rows_inv _ _ _ H Hr) as (r0 & x & [Hr0 _]%keep_rows_elem & ->);
    by exists r0, x.
Qed.

Lemma reported_cell c x (r0 : row) :
  c ∈ REPORT_COLUMNS → c ≠ "Composite_Score" →
  get c (pd.restrict REPORT_COLUMNS (<["Composite_Score" := x]> r0)) = get c r0.
Proof. intros Hc Hne. by rewrite get_restrict, get_insert_ne. Qed.

End Provenance.

(** ** Columns through [rename] *)

Lemma get_rename_row_new old new (r : row) : get new (pd.rename_row old new r) = get old r.
Proof. unfold pd.rename_row. apply get_insert. Qed.

Lemma get_rename_row_other old new k (r : row) :
  k ≠ old → k ≠ new → get k (pd.rename_row old new r) = get k r.
Proof.
  intros Ho Hn. unfold pd.rename_row, get.
  by rewrite lookup_insert_ne, lookup_delete_ne.
Qed.

Lemma rename_col_get_new old new df :
  get new <$> rows (pd.rename_col old new df) = get old <$> rows df.
Proof.
  unfold pd.rename_col. simpl. rewrite <- list_fmap_compose.
  apply list_fmap_ext. intros i r _. apply get_rename_row_new.
Qed.

Lemma rename_col_get_other old new k df :
  k ≠ old → k ≠ new → get k <$> rows (pd.rename_col old new df) = get k <$> rows df.
Proof.
  intros Ho Hn. unfold pd.rename_col. simpl. rewrite <- list_fmap_compose.
  apply list_fmap_ext. intros i r _. by apply get_rename_row_other.
Qed.

Lemma rename_col_columns_other old new c df :
  c ≠ old → c ∈ columns df → c ∈ columns (pd.rename_col old new df).
Proof.
  intros Hne Hc. unfold pd.rename_col. simpl.
  apply list_elem_of_fmap. exists c. by rewrite bool_decide_eq_false_2.
Qed.

Lemma rename_cons old new names df :
  pd.rename ((old, new) :: names) df =
  pd.rename names (if bool_decide (old ∈ columns df) then pd.rename_col old new df else df).
Proof. done. Qed.

Lemma rename_app names1 names2 df :
  pd.rename (names1 ++ names2) df = pd.rename names2 (pd.rename names1 df).
Proof. unfold pd.rename. apply foldl_app. Qed.

Lemma rename_length names df : length (rows (pd.rename names df)) = length (rows df).
Proof.
  revert df. induction names as [|[old new] names IH]; intros df; [done|].
  rewrite rename_cons, IH. case_bool_decide; [|done].
  unfold pd.rename_col. simpl. by rewrite length_fmap.
Qed.

Lemma rename_get_other names df k :
  k ∉ names.*1 → k ∉ names.*2 →
  get k <$> rows (pd.rename names df) = get k <$> rows df.
Proof.
  revert df. induction names as [|[old new] names IH]; intros df H1 H2; [done|].
  rewrite rename_cons. rewrite fmap_cons in H1, H2.
  apply not_elem_of_cons in H1 as [Ho H1]. apply not_elem_of_cons in H2 as [Hn H2].
  rewrite IH by done. case_bool_decide; [|done]. by apply rename_col_get_other.
Qed.

Lemma rename_columns_other names df c :
  c ∉ names.*1 → c ∈ columns df → c ∈ columns (pd.rename names df).
Proof.
  revert df. induction names as [|[old new] names IH]; intros df H1 Hc; [done|].
  rewrite rename_cons. rewrite fmap_cons in H1. apply not_elem_of_cons in H1 as [Ho H1].
  apply IH; [done|]. case_bool_decide; [|done]. by apply rename_col_columns_other.
Qed.

(** A renamed column carries the cells of the column it was made from. *)
Lemma rename_get_new names1 old new names2 df :
  old ∉ names1.*1 → old ∉ names1.*2 → new ∉ names2.*1 → new ∉ names2.*2 →
  old ∈ columns df →
  get new <$> rows (pd.rename (names1 ++ (old, new) :: names2) df) = get old <$> rows df.
Proof.
  intros Ho1 Ho2 Hn1 Hn2 Hc.
  rewrite rename_app, rename_cons, rename_get_other by done.
  rewrite bool_decide_eq_true_2 by by apply rename_columns_other.
  by rewrite rename_col_get_new, rename_get_other.
Qed.

(** ** The steps of the metric calculator *)

Lemma div_length {A} (f g : A → cell) (l : list A) :
  length (pd.div (f <$> l) (g <$> l)) = length l.
Proof. unfold pd.div. rewrite length_zip_with, !length_fmap. lia. Qed.

Lemma dropna_inv cs df d :
  pd.dropna cs df = Ok d →
  columns d = columns df ∧ rows d = List.filter (pd.complete cs) (rows df) ∧
  ∀ c, c ∈ cs → c ∈ columns d.
Proof.
  unfold pd.dropna. destruct (pd.missing cs df) eqn:Hm; [done|].
  intros [= <-]. by rewrite missing_None in Hm.
Qed.

Lemma add_mgi_inv d d' :
  add_mgi d = Ok d' →
  d' = pd.setitem "MGI" (pd.div (get "IGRNT_A" <$> rows d) (get "TUITION2" <$> rows d)) d.
Proof.
  unfold add_mgi. intros (a & [_ ->]%getitem_inv & H)%result_bind_inv.
  apply result_bind_inv in H as (t & [_ ->]%getitem_inv & [= <-]). done.
Qed.

Lemma fill_graduation_rate_inv d d' :
  fill_graduation_rate d = Ok d' →
  "GBA4RTT" ∈ columns d ∧
  d' = pd.setitem "GBA4RTT"
         (pd.fillna (Num (pd.median (get "GBA4RTT" <$> rows d))) (get "GBA4RTT" <$> rows d)) d.
Proof.
  unfold fill_graduation_rate. intros (a & [Hc ->]%getitem_inv & H)%result_bind_inv.
  apply result_bind_inv in H as (t & [_ ->]%getitem_inv & [= <-]). done.
Qed.

Lemma add_net_price_ratio_inv d d' :
  add_net_price_ratio d = Ok d' →
  d' = pd.setitem "NET_PRICE_RATIO"
         (pd.div (get "NPT442" <$> rows d) (get "TUITION2" <$> rows d)) d.
Proof.
  unfold add_net_price_ratio. intros (a & [_ ->]%getitem_inv & H)%result_bind_inv.
  apply result_bind_inv in H as (t & [_ ->]%getitem_inv & [= <-]). done.
Qed.

Lemma rescale_inv c d d' :
  rescale c d = Ok d' →
  d' = pd.setitem c (pd.div_scalar (get c <$> rows d) 100) d.
Proof.
  unfold rescale. by intros (a & [_ ->]%getitem_inv & [= <-])%result_bind_inv.
Qed.

(** The steps after the merges, one by one. *)
Lemma derive_metrics_inv merged out :
  derive_metrics merged = Ok out →
  ∃ pool d1 d2 d3 d5,
    pd.dropna FINANCIAL merged = Ok pool ∧
    add_mgi pool = Ok d1 ∧
    fill_graduation_rate d1 = Ok d2 ∧
    add_net_price_ratio d2 = Ok d3 ∧
    rescale "Graduation_Rate_4yr" (pd.rename READABLE d3) = Ok d5 ∧
    rescale "Admissions_Rate" d5 = Ok out.
Proof.
  unfold derive_metrics.
  intros (pool & Hp & H)%result_bind_inv.
  apply result_bind_inv in H as (d1 & H1 & H).
  apply result_bind_inv in H as (d2 & H2 & H).
  apply result_bind_inv in H as (d3 & H3 & H).
  apply result_bind_inv in H as (d5 & H5 & H).
  by exists pool, d1, d2, d3, d5.
Qed.

Lemma setitem_step c v d d' :
  d' = pd.setitem c v d → length v = length (rows d) →
  length (rows d') = length (rows d) ∧
  get c <$> rows d' = v ∧
  (∀ k, k ≠ c → get k <$> rows d' = get k <$> rows d) ∧
  (∀ k, k ∈ columns d → k ∈ columns d').
Proof.
  intros -> Hlen. split; [by apply setitem_length|]. split; [by apply setitem_get|].
  split; [intros k Hk; by apply setitem_get_ne|]. intros k Hk. by apply setitem_columns_mono.
Qed.

Lemma readable_sticker_price d :
  "TUITION2" ∈ columns d →
  get "Sticker_Price" <$> rows (pd.rename READABLE d) = get "TUITION2" <$> rows d.
Proof.
  intros Hc. apply (rename_get_new [] "TUITION2" "Sticker_Price" (tail READABLE));
    [decide_now..|done].
Qed.

Lemma readable_net_price d :
  "NPT442" ∈ columns d →
  get "Net_Price_MidClass" <$> rows (pd.rename READABLE d) = get "NPT442" <$> rows d.
Proof.
  intros Hc.
  apply (rename_get_new (take 2 READABLE) "NPT442" "Net_Price_MidClass" (drop 3 READABLE));
    [decide_now..|done].
Qed.

Lemma readable_graduation_rate d :
  "GBA4RTT" ∈ columns d →
  get "Graduation_Rate_4yr" <$> rows (pd.rename READABLE d) = get "GBA4RTT" <$> rows d.
Proof.
  intros Hc.
  apply (rename_get_new (take 3 READABLE) "GBA4RTT" "Graduation_Rate_4yr" (drop 4 READABLE));
    [decide_now..|done].
Qed.

Lemma readable_other k d :
  k ∉ READABLE.*1 → k ∉ READABLE.*2 →
  get k <$> rows (pd.rename READABLE d) = get k <$> rows d.
Proof. apply rename_get_other. Qed.

(** What the metric calculator derives, column by column, from the rows
    that are left after the drop of rows without financial data. *)
Lemma derive_metrics_spec merged out :
  derive_metrics merged = Ok out →
  ∃ pool with_mgi filled,
    pd.dropna FINANCIAL merged = Ok pool ∧
    add_mgi pool = Ok with_mgi ∧
    fill_graduation_rate with_mgi = Ok filled ∧
    get "GBA4RTT" <$> rows with_mgi = get "GBA4RTT" <$> rows pool ∧
    get "GBA4RTT" <$> rows filled =
      pd.fillna (Num (pd.median (get "GBA4RTT" <$> rows pool)))
                (get "GBA4RTT" <$> rows pool) ∧
    length (rows out) = length (rows pool) ∧
    get "Sticker_Price" <$> rows out = get "TUITION2" <$> rows pool ∧
    get "Net_Price_MidClass" <$> rows out = get "NPT442" <$> rows pool ∧
    get "MGI" <$> rows out =
      pd.div (get "IGRNT_A" <$> rows pool) (get "TUITION2" <$> rows pool) ∧
    get "NET_PRICE_RATIO" <$> rows out =
      pd.div (get "NPT442" <$> rows pool) (get "TUITION2" <$> rows pool) ∧
    get "Graduation_Rate_4yr" <$> rows out =
      pd.div_scalar
        (pd.fillna (Num (pd.median (get "GBA4RTT" <$> rows pool)))
                   (get "GBA4RTT" <$> rows pool))
        100.
Proof.
  intros (pool & d1 & d2 & d3 & d5 & Hp & H1 & H2 & H3 & H5 & H6)%derive_metrics_inv.
  exists pool, d1, d2. do 3 (split; [done|]).
  apply dropna_inv in Hp as (_ & _ & Hfin).
  apply add_mgi_inv, setitem_step in H1 as (L1 & G1 & O1 & C1); [|apply div_length].
  apply fill_graduation_rate_inv in H2 as [Hgr H2].
  apply setitem_step in H2 as (L2 & G2 & O2 & C2);
    [|unfold pd.fillna; by rewrite !length_fmap].
  apply add_net_price_ratio_inv, setitem_step in H3 as (L3 & G3 & O3 & C3);
    [|apply div_length].
  apply rescale_inv, setitem_step in H5 as (L5 & G5 & O5 & C5);
    [|unfold pd.div_scalar; by rewrite !length_fmap].
  apply rescale_inv, setitem_step in H6 as (L6 & G6 & O6 & C6);
    [|unfold pd.div_scalar; by rewrite !length_fmap].
  assert ("TUITION2" ∈ columns d3) as Ht by (apply C3, C2, C1, Hfin; decide_now).
  assert ("NPT442" ∈ columns d3) as Hn by (apply C3, C2, C1, Hfin; decide_now).
  assert ("GBA4RTT" ∈ columns d3) as Hg by (by apply C3, C2).
  split; [by rewrite O1|].
  split; [by rewrite G2, O1|].
  split; [by rewrite L6, L5, rename_length, L3, L2, L1|].
  split; [by rewrite O6, O5, readable_sticker_price, O3, O2, O1|].
  split; [by rewrite O6, O5, readable_net_price, O3, O2, O1|].
  split.
  { rewrite O6, O5, readable_other, O3, O2 by (done || decide_now). done. }
  split.
  { rewrite O6, O5, readable_other by (done || decide_now). rewrite G3.
    by rewrite !O2, !O1. }
  rewrite O6, G5 by done. rewrite readable_graduation_rate, O3, G2 by done.
  by rewrite O1.
Qed.

Lemma readable_grant d :
  "IGRNT_A" ∈ columns d →
  get "Avg_Inst_Grant" <$> rows (pd.rename READABLE d) = get "IGRNT_A" <$> rows d.
Proof.
  intros Hc.
  apply (rename_get_new (take 1 READABLE) "IGRNT_A" "Avg_Inst_Grant" (drop 2 READABLE));
    [decide_now..|done].
Qed.

(** The columns the derivation carries over from the rows that are left
    after the drop: the grant under its readable name, and every column
    that is neither computed nor renamed. *)
Lemma derive_metrics_carried merged out :
  derive_metrics merged = Ok out →
  ∃ pool,
    pd.dropna FINANCIAL merged = Ok pool ∧
    get "Avg_Inst_Grant" <$> rows out = get "IGRNT_A" <$> rows pool ∧
    ∀ k, k ∉ READABLE.*1 → k ∉ READABLE.*2 → k ≠ "MGI" → k ≠ "NET_PRICE_RATIO" →
         get k <$> rows out = get k <$> rows pool.
Proof.
  intros (pool & d1 & d2 & d3 & d5 & Hp & H1 & H2 & H3 & H5 & H6)%derive_metrics_inv.
  exists pool. split; [done|].
  apply dropna_inv in Hp as (_ & _ & Hfin).
  apply add_mgi_inv, setitem_step in H1 as (L1 & G1 & O1 & C1); [|apply div_length].
  apply fill_graduation_rate_inv in H2 as [Hgr H2].
  apply setitem_step in H2 as (L2 & G2 & O2 & C2);
    [|unfold pd.fillna; by rewrite !length_fmap].
  apply add_net_price_ratio_inv, setitem_step in H3 as (L3 & G3 & O3 & C3);
    [|apply div_length].
  apply rescale_inv, setitem_step in H5 as (L5 & G5 & O5 & C5);
    [|unfold pd.div_scalar; by rewrite !length_fmap].
  apply rescale_inv, setitem_step in H6 as (L6 & G6 & O6 & C6);
    [|unfold pd.div_scalar; by rewrite !length_fmap].
  assert ("IGRNT_A" ∈ columns d3) as Hg by (apply C3, C2, C1, Hfin; decide_now).
  split.
  - by rewrite O6, O5, readable_grant, O3, O2, O1.
  - intros k Hk1 Hk2 Hm Hn.
    assert (k ≠ "GBA4RTT") as Hgb.
    { intros ->. apply Hk1. decide_now. }
    assert (k ≠ "Graduation_Rate_4yr" ∧ k ≠ "Admissions_Rate") as [Hgy Har].
    { split; intros ->; apply Hk2; decide_now. }
    by rewrite O6, O5, readable_other, O3, O2, O1.
Qed.

Lemma rename_col_columns_new old new df :
  old ∈ columns df → new ∈ columns (pd.rename_col old new df).
Proof.
  intros Hc. unfold pd.rename_col. simpl.
  apply list_elem_of_fmap. exists old. by rewrite bool_decide_eq_true_2.
Qed.

Lemma rename_columns_new names1 old new names2 df :
  old ∉ names1.*1 → new ∉ names2.*1 → old ∈ columns df →
  new ∈ columns (pd.rename (names1 ++ (old, new) :: names2) df).
Proof.
  intros Ho Hn Hc. rewrite rename_app, rename_cons.
  apply rename_columns_other; [done|].
  rewrite bool_decide_eq_true_2 by by apply rename_columns_other.
  by apply rename_col_columns_new, rename_columns_other.
Qed.

(** Every table the metric calculator derives has the columns the insight
    generator selects and scores by. *)
Lemma derive_metrics_columns merged out :
  derive_metrics merged = Ok out →
  Forall (λ c, c ∈ columns out)
    ["Net_Price_MidClass"; "MGI"; "Graduation_Rate_4yr"; "NET_PRICE_RATIO"].
Proof.
  intros (pool & d1 & d2 & d3 & d5 & Hp & H1 & H2 & H3 & H5 & H6)%derive_metrics_inv.
  apply dropna_inv in Hp as (_ & _ & Hfin).
  pose proof (add_mgi_inv _ _ H1) as E1.
  apply add_mgi_inv, setitem_step in H1 as (_ & _ & _ & C1); [|apply div_length].
  apply fill_graduation_rate_inv in H2 as [Hgr H2].
  apply setitem_step in H2 as (_ & _ & _ & C2);
    [|unfold pd.fillna; by rewrite !length_fmap].
  pose proof (add_net_price_ratio_inv _ _ H3) as E3.
  apply add_net_price_ratio_inv, setitem_step in H3 as (_ & _ & _ & C3);
    [|apply div_length].
  apply rescale_inv, setitem_step in H5 as (_ & _ & _ & C5);
    [|unfold pd.div_scalar; by rewrite !length_fmap].
  apply rescale_inv, setitem_step in H6 as (_ & _ & _ & C6);
    [|unfold pd.div_scalar; by rewrite !length_fmap].
  assert ("MGI" ∈ columns d1) as Hm by (rewrite E1; apply setitem_columns).
  assert ("NET_PRICE_RATIO" ∈ columns d3) as Hr by (rewrite E3; apply setitem_columns).
  repeat constructor; apply C6, C5.
  - apply (rename_columns_new (take 2 READABLE) "NPT442" "Net_Price_MidClass"
             (drop 3 READABLE)); [decide_now..|].
    apply C3, C2, C1, Hfin. decide_now.
  - apply rename_columns_other; [decide_now|]. by apply C3, C2.
  - apply (rename_columns_new (take 3 READABLE) "GBA4RTT" "Graduation_Rate_4yr"
             (drop 4 READABLE)); [decide_now..|].
    by apply C3, C2.
  - by apply rename_columns_other; [decide_now|].
Qed.

(** The two ways the metric calculator returns: an early exit with the
    empty frame after a report on the console, or the full computation. *)
Lemma calculate_metrics_inv hd sfa_p1 sfa_p2 ic adm_sat adm_rate gr mission out df :
  calculate_metrics hd sfa_p1 sfa_p2 ic adm_sat adm_rate gr mission = (out, Ok df) →
  (out ≠ [] ∧ df = empty_frame) ∨
  (out = [] ∧
   ∃ sfa_data_merged adm_data_merged ic_data gr_data mission_sel merged_df,
     merge_sfa sfa_p1 sfa_p2 = Ok sfa_data_merged ∧
     merge_adm adm_sat adm_rate = Ok adm_data_merged ∧
     pd.getitem_cols ["UNITID"; "TUITION2"] ic = Ok ic_data ∧
     pd.getitem_cols ["UNITID"; "GBA4RTT"] gr = Ok gr_data ∧
     pd.getitem_cols ["unitid"; "mission"] mission = Ok mission_sel ∧
     merge_all hd ic_data sfa_data_merged adm_data_merged gr_data
               (pd.rename [("unitid", "UNITID")] mission_sel) = Ok merged_df ∧
     derive_metrics merged_df = Ok df).
Proof.
  unfold calculate_metrics.
  destruct (merge_sfa sfa_p1 sfa_p2) as [sfa|] eqn:Hsfa; [|done].
  rewrite M_bind_lift_Ok.
  destruct (merge_adm adm_sat adm_rate) as [adm|[e]] eqn:Hadm;
    [|intros [= <- <-]; by left].
  destruct (pd.getitem_cols ["UNITID"; "TUITION2"] ic) as [ic_data|] eqn:Hic; [|done].
  rewrite M_bind_lift_Ok.
  destruct (pd.getitem_cols ["UNITID"; "GBA4RTT"] gr) as [gr_data|[e]] eqn:Hgr;
    [|intros [= <- <-]; by left].
  destruct (pd.getitem_cols ["unitid"; "mission"] mission) as [msel|[e]] eqn:Hm;
    [|intros [= <- <-]; by left].
  cbn [fmap result_fmap].
  destruct (merge_all _ _ _ _ _ _) as [merged|] eqn:Hall; [|done].
  rewrite M_bind_lift_Ok. intros [= <- Hd]. right. split; [done|].
  by exists sfa, adm, ic_data, gr_data, msel, merged.
Qed.

(** ** Rows without a usable sticker price *)

Section StickerPrice.

Variable argsort_desc : Series → list nat.

(** C5, as the code has it.  A row whose sticker price is absent never
    appears in the final report: it is dropped before the metrics are
    computed.  A sticker price of zero is not absent, and no step of the
    pipeline excludes it. *)
Theorem absent_sticker_price_is_never_reported
    hd sfa_p1 sfa_p2 ic adm_sat adm_rate gr mission out pool out' report (r : row) :
  calculate_metrics hd sfa_p1 sfa_p2 ic adm_sat adm_rate gr mission = (out, Ok pool) →
  generate_insights argsort_desc pool = (out', Ok report) →
  r ∈ rows report →
  isna (get "Sticker_Price" r) = false.
Proof.
  intros Hcalc Hgen Hr.
  destruct (generate_insights_rows _ _ _ _ _ Hgen Hr) as (r0 & x & Hr0 & ->).
  rewrite reported_cell by (done || decide_now).
  apply calculate_metrics_inv in Hcalc as [[_ ->]|[_ Hmain]].
  { by apply elem_of_nil in Hr0. }
  destruct Hmain as (? & ? & ? & ? & ? & merged & _ & _ & _ & _ & _ & _ & Hd).
  apply derive_metrics_spec in Hd
    as (d0 & ? & ? & Hdrop & _ & _ & _ & _ & _ & Hsp & _).
  assert (get "Sticker_Price" r0 ∈ get "TUITION2" <$> rows d0) as Hin.
  { rewrite <- Hsp. by apply list_elem_of_fmap_2. }
  apply list_elem_of_fmap in Hin as (r1 & -> & Hr1).
  apply dropna_inv in Hdrop as (_ & Hrows & _).
  rewrite Hrows, list_elem_of_In, filter_In in Hr1. destruct Hr1 as [_ Hc].
  unfold pd.complete, FINANCIAL in Hc. simpl in Hc.
  apply andb_prop in Hc as [Hc _]. by apply negb_true_iff in Hc.
Qed.

End StickerPrice.

(** C5, witness: the report of the scenario. *)
Lemma absent_sticker_price_witness :
  Forall (λ r : row, isna (get "Sticker_Price" r) = false)
         (rows (frame_or_empty (generate_insights stable_argsort_desc scenario_pool))).
Proof.
  apply Forall_forall. intros r.
  apply (absent_sticker_price_is_never_reported stable_argsort_desc
           (institutions_of scenario) (t_sfa_p1 scenario) (t_sfa_p2 scenario)
           (t_ic scenario) (t_adm_sat scenario) (t_adm_rate scenario)
           (t_gr scenario) (t_mission scenario) [] scenario_pool
           [starvation_warning 1]);
    vm_compute; reflexivity.
Defined.

(** C5, counterexample: the institution with sticker price zero has an
    infinite MGI, passes tier 1 with the ten others, and is the eleventh row
    of the final report. *)
Lemma zero_sticker_price_is_reported :
  (get "INSTNM" <$> rows free_tuition_pool) !! 10 = Some (Str "Free") ∧
  (get "Sticker_Price" <$> rows free_tuition_pool) !! 10 = Some (Num 0) ∧
  (get "MGI" <$> rows free_tuition_pool) !! 10 = Some (Num infinity) ∧
  length (rows (keep (passes_tier1 free_tuition_pool) free_tuition_pool)) = 11 ∧
  (generate_insights stable_argsort_desc free_tuition_pool).1 = [] ∧
  (get "INSTNM" <$> rows free_tuition_report) !! 10 = Some (Str "Free") ∧
  (get "Sticker_Price" <$> rows free_tuition_report) !! 10 = Some (Num 0) ∧
  (get "Composite_Score" <$> rows free_tuition_report) !! 10 = Some NaN.
Proof. repeat split; vm_compute; reflexivity. Qed.

(** ** The graduation-rate gap fill *)



(** The median of 60 and 90 stands in for the unreported rate. *)
Example gap_filled_with_median :
  get "Graduation_Rate_4yr" <$> rows (frame_or_empty (metrics_of with_gap)) =
  [Num 0.6; Num 0.75; Num 0.9].
Proof. vm_compute; reflexivity. Qed.

(** ** The end-to-end scenario *)

Section Scenario.

Variable argsort_desc : Series → list nat.

(** The ranking depends on the ordering only through the order it gives the
    scores of the rows that were selected. *)
Lemma rank_ext (argsort' : Series → list nat) final_df score :
  composite_score final_df = Ok score →
  argsort_desc score = argsort' score →
  rank argsort_desc final_df = rank argsort' final_df.
Proof.
  intros Hs Heq. unfold rank. rewrite Hs. do 2 ok_step. unfold sort_values.
  rewrite (getitem_Ok _ _ (setitem_columns _ _ _)). do 2 ok_step.
  rewrite (setitem_get _ _ _ (composite_score_length _ _ Hs)). by rewrite Heq.
Qed.

(** An ordering of a single key has nothing to choose. *)
Lemma sorts_descending_singleton (k : cell) :
  sorts_descending [k] (argsort_desc [k]) → argsort_desc [k] = [0].
Proof. intros [Hperm _]. by apply Permutation_singleton_r in Hperm. Qed.

(** C9, as the code has it.  For institutions A and B of the scenario the
    metric calculator gives MGI 0.4 and 0.6, Net Price Ratio 0.9 and 0.3,
    and the score formula gives (0.4 + 0.6) / 0.9, about 1.11, and 5.0.
    Only B passes tier 1, so the fallback runs, and only B passes it: the
    final report is the one row B with Composite Score 5.0. *)
Theorem scenario_end_to_end :
  sorts_descending [Num 5] (argsort_desc [Num 5]) →
  metrics_of scenario = ([], Ok scenario_pool) ∧
  get "INSTNM" <$> rows scenario_pool = [Str "A"; Str "B"] ∧
  get "MGI" <$> rows scenario_pool = [Num 0.4; Num 0.6] ∧
  get "NET_PRICE_RATIO" <$> rows scenario_pool = [Num 0.9; Num 0.3] ∧
  composite_score scenario_pool = Ok [Num ((0.4 + 0.6) / 0.9); Num 5] ∧
  ((1.11 <? (0.4 + 0.6) / 0.9) && ((0.4 + 0.6) / 0.9 <? 1.12))%float = true ∧
  get "INSTNM" <$> rows (keep (passes_tier1 scenario_pool) scenario_pool) = [Str "B"] ∧
  get "INSTNM" <$> rows (keep (passes_fallback scenario_pool) scenario_pool) = [Str "B"] ∧
  (generate_insights argsort_desc scenario_pool).1 = [starvation_warning 1] ∧
  ∃ report,
    (generate_insights argsort_desc scenario_pool).2 = Ok report ∧
    get "INSTNM" <$> rows report = [Str "B"] ∧
    get "Composite_Score" <$> rows report = [Num 5].
Proof.
  intros Hsort%sorts_descending_singleton.
  do 8 (split; [vm_compute; reflexivity|]).
  rewrite generate_insights_selects by decide_now.
  replace (length (rows (keep (passes_tier1 scenario_pool) scenario_pool)) <? 10)
    with true by (vm_compute; reflexivity).
  rewrite (rank_ext stable_argsort_desc _ [Num 5]);
    [|vm_compute; reflexivity|by rewrite Hsort].
  split; [vm_compute; reflexivity|].
  eexists. split; [vm_compute; reflexivity|].
  split; vm_compute; reflexivity.
Qed.

End Scenario.

(** C9, witness: a stable ordering. *)
Lemma scenario_end_to_end_witness :
  metrics_of scenario = ([], Ok scenario_pool) ∧
  get "INSTNM" <$> rows scenario_pool = [Str "A"; Str "B"] ∧
  get "MGI" <$> rows scenario_pool = [Num 0.4; Num 0.6] ∧
  get "NET_PRICE_RATIO" <$> rows scenario_pool = [Num 0.9; Num 0.3] ∧
  composite_score scenario_pool = Ok [Num ((0.4 + 0.6) / 0.9); Num 5] ∧
  ((1.11 <? (0.4 + 0.6) / 0.9) && ((0.4 + 0.6) / 0.9 <? 1.12))%float = true ∧
  get "INSTNM" <$> rows (keep (passes_tier1 scenario_pool) scenario_pool) = [Str "B"] ∧
  get "INSTNM" <$> rows (keep (passes_fallback scenario_pool) scenario_pool) = [Str "B"] ∧
  (generate_insights stable_argsort_desc scenario_pool).1 = [starvation_warning 1] ∧
  ∃ report,
    (generate_insights stable_argsort_desc scenario_pool).2 = Ok report ∧
    get "INSTNM" <$> rows report = [Str "B"] ∧
    get "Composite_Score" <$> rows report = [Num 5].
Proof.
  apply (scenario_end_to_end stable_argsort_desc).
  split; [reflexivity|]. apply (bool_decide_unpack _). vm_compute. exact I.
Defined.

(** C9, counterexample: A is among the two rows the metric calculator
    returns, and the final report has the row of B and no other. *)
Lemma scenario_report_omits_A :
  get "INSTNM" <$> rows scenario_pool = [Str "A"; Str "B"] ∧
  (generate_insights stable_argsort_desc scenario_pool).1 = [starvation_warning 1] ∧
  get "INSTNM" <$> rows (frame_or_empty (generate_insights stable_argsort_desc scenario_pool))
    = [Str "B"].
Proof. repeat split; vm_compute; reflexivity. Qed.

(** ** Missing columns *)

(** The selections of 3.1 stand outside every [try]: a column missing from
    either financial-aid table leaves the metric calculator as a KeyError. *)
Lemma calculate_metrics_raises_on_financial_aid
    hd sfa_p1 sfa_p2 ic adm_sat adm_rate gr mission e :
  merge_sfa sfa_p1 sfa_p2 = Raise e →
  calculate_metrics hd sfa_p1 sfa_p2 ic adm_sat adm_rate gr mission = ([], Raise e).
Proof. intros H. unfold calculate_metrics. by rewrite H. Qed.

Lemma merge_sfa_missing sfa_p1 sfa_p2 k :
  pd.missing ["UNITID"; "IGRNT_A"] sfa_p1 = Some k →
  merge_sfa sfa_p1 sfa_p2 = Raise (KeyError k).
Proof. intros H. unfold merge_sfa, pd.getitem_cols. by rewrite H. Qed.

(** So does the selection of 3.3 from the tuition table. *)
Lemma calculate_metrics_raises_on_tuition
    hd sfa_p1 sfa_p2 ic adm_sat adm_rate gr mission sfa adm k :
  merge_sfa sfa_p1 sfa_p2 = Ok sfa →
  merge_adm adm_sat adm_rate = Ok adm →
  pd.missing ["UNITID"; "TUITION2"] ic = Some k →
  calculate_metrics hd sfa_p1 sfa_p2 ic adm_sat adm_rate gr mission = ([], Raise (KeyError k)).
Proof.
  intros Hsfa Hadm Hic. unfold calculate_metrics.
  rewrite Hsfa, M_bind_lift_Ok, Hadm. unfold pd.getitem_cols. by rewrite Hic.
Qed.

(** The admissions, outcomes and mission selections are guarded: the error
    is printed and the result is the empty frame. *)
Lemma calculate_metrics_reports_admissions
    hd sfa_p1 sfa_p2 ic adm_sat adm_rate gr mission sfa k :
  merge_sfa sfa_p1 sfa_p2 = Ok sfa →
  merge_adm adm_sat adm_rate = Raise (KeyError k) →
  ∃ out, out ≠ [] ∧
    calculate_metrics hd sfa_p1 sfa_p2 ic adm_sat adm_rate gr mission = (out, Ok empty_frame).
Proof.
  intros Hsfa Hadm. unfold calculate_metrics. rewrite Hsfa, M_bind_lift_Ok, Hadm.
  eexists. split; [|reflexivity]. done.
Qed.

(** C3 fails on the code.  With the grant column missing from financial
    aid part 1 the metric calculator raises KeyError: it returns no empty
    result and reports nothing. *)
Theorem missing_grant_column_raises :
  metrics_of scenario_without_grant = ([], Raise (KeyError "IGRNT_A")).
Proof. vm_compute; reflexivity. Qed.

Example missing_tuition_column_raises :
  metrics_of scenario_without_tuition = ([], Raise (KeyError "TUITION2")).
Proof. vm_compute; reflexivity. Qed.

Example missing_admission_rate_is_reported :
  (metrics_of scenario_without_admission_rate).2 = Ok empty_frame ∧
  length (metrics_of scenario_without_admission_rate).1 = 2.
Proof. split; vm_compute; reflexivity. Qed.

(** The report shows the KeyError as pandas words it for a selection. *)
Example missing_admission_rate_report :
  (metrics_of scenario_without_admission_rate).1 =
    [ Print (nl +:+ "--- CRITICAL ADMISSIONS ERROR ---");
      Print ("KeyError: Missing required column " +:+
             pd.double_quote +:+ "['DVADM01'] not in index" +:+ pd.double_quote +:+
             ". Columns checked: ADM2022 needs SATVR75, SATMT75. DRVADM2022 needs DVADM01.") ].
Proof. vm_compute; reflexivity. Qed.

(** ** Sentinel values *)


Lemma replace_text_cell olds new s : pd.replace_cell olds new (Str s) = Str s.
Proof. done. Qed.









(** The sentinel is read as -2 and leaves the loader as NaN; the directory
    keeps the numeric codes it was read with. *)
Example sentinel_admission_rate :
  get "DVADM01" <$> rows (t_adm_rate scenario_with_sentinel) = [Num (-2); Num 40] ∧
  get "DVADM01" <$> rows (t_adm_rate loaded_with_sentinel) = [NaN; Num 40] ∧
  get "CONTROL" <$> rows (t_hd loaded_with_sentinel) = [Num 2; Num 2].
Proof. repeat split; vm_compute; reflexivity. Qed.

(** ** The joins *)

Lemma fmap_as_bind {A B} (f : A → B) (l : list A) : f <$> l = l ≫= λ x, [f x].
Proof. induction l as [|x l IH]; [done|]. csimpl. by rewrite IH. Qed.

Lemma join_rows_inner on (ls rs : list row) :
  ls ≫= pd.join_row on pd.inner rs = inner_join on ls rs.
Proof.
  unfold inner_join. apply list_bind_ext; [|done]. intros l.
  unfold pd.join_row, matching. destruct (List.filter _ rs); [done|].
  apply fmap_as_bind.
Qed.

Lemma join_rows_left on (ls rs : list row) :
  ls ≫= pd.join_row on pd.left rs = left_join on ls rs.
Proof.
  unfold left_join. apply list_bind_ext; [|done]. intros l.
  unfold pd.join_row, matching. destruct (List.filter _ rs); [done|].
  apply fmap_as_bind.
Qed.

(** A merge of two frames that share no column but the key renames nothing. *)
Lemma merge_plain l r on h :
  on ∈ columns l → on ∈ columns r →
  filter (λ c, c ≠ on ∧ c ∈ columns r) (columns l) = [] →
  pd.merge l r on h =
    Ok (mkDF (columns l ++ filter (λ c, c ≠ on) (columns r))
             (rows l ≫= pd.join_row on h (rows r))).
Proof.
  intros Hl Hr Hshared. unfold pd.merge.
  rewrite (missing_singleton _ _ Hl), (missing_singleton _ _ Hr).
  cbv zeta. by rewrite Hshared.
Qed.

Lemma getitem_cols_inv cs df d :
  pd.getitem_cols cs df = Ok d → d = mkDF cs (pd.restrict cs <$> rows df).
Proof. unfold pd.getitem_cols. destruct (pd.missing cs df); naive_solver. Qed.

(** The rows of an inner join are the matched pairs. *)
Lemma inner_join_elem on (ls rs : list row) (x : row) :
  x ∈ inner_join on ls rs ↔
  ∃ l r, l ∈ ls ∧ r ∈ rs ∧ pd.key_eq (get on l) (get on r) = true ∧ x = l ∪ delete on r.
Proof.
  unfold inner_join, matching. rewrite list_elem_of_bind. split.
  - intros (l & (r & Hx & Hr)%list_elem_of_bind & Hl).
    apply list_elem_of_singleton in Hx as ->.
    apply list_elem_of_In, filter_In in Hr as [Hr Hk].
    apply list_elem_of_In in Hr. by exists l, r.
  - intros (l & r & Hl & Hr & Hk & ->). exists l. split; [|done].
    apply list_elem_of_bind. exists r. split; [by apply list_elem_of_singleton|].
    by rewrite list_elem_of_In, filter_In, <- list_elem_of_In.
Qed.

(** A left join keeps every left row: each is part of some row of the result. *)
Lemma left_join_keeps on (ls rs : list row) (l : row) :
  l ∈ ls → ∃ x, x ∈ left_join on ls rs ∧ l ⊆ x.
Proof.
  intros Hl. unfold left_join.
  destruct (matching on l rs) as [|r ms] eqn:Hm.
  - exists l. split; [|done]. apply list_elem_of_bind. exists l.
    rewrite Hm. split; [left|done].
  - exists (l ∪ delete on r). split; [|apply map_union_subseteq_l].
    apply list_elem_of_bind. exists l. rewrite Hm. split; [|done]. csimpl. left.
Qed.

Lemma complete_financial (r : row) :
  pd.complete FINANCIAL r =
  notna (get "TUITION2" r) && notna (get "IGRNT_A" r) && notna (get "NPT442" r).
Proof. unfold pd.complete, FINANCIAL. simpl. by rewrite andb_true_r, andb_assoc. Qed.

(** The institution filter hands on the three directory columns. *)
Lemma filter_institutions_columns hd hd_filtered :
  filter_institutions hd = Ok hd_filtered →
  columns hd_filtered = ["UNITID"; "INSTNM"; "CONTROL"].
Proof.
  unfold filter_institutions.
  intros (? & _ & (? & _ & (? & _ & ->%getitem_cols_inv)%result_bind_inv)%result_bind_inv)%result_bind_inv.
  done.
Qed.

(** C7.  On the full computation, with the institution table the filter
    hands on: financial aid part 1 is inner-joined with part 2, admissions
    score is left-joined with admissions rate, and the table the five
    merges return is the institution table left-joined in turn with
    tuition, with that financial aid, with those admissions, with outcomes
    and with mission, all on the identifier.  The rows the metrics are
    derived from are exactly the merged rows in which sticker price,
    average grant and net price are all present, and the table returned has
    one row for each, in their order.  The frames named are those of the
    run. *)
Theorem join_sequence hd sfa_p1 sfa_p2 ic adm_sat adm_rate gr mission out :
  columns hd = ["UNITID"; "INSTNM"; "CONTROL"] →
  calculate_metrics hd sfa_p1 sfa_p2 ic adm_sat adm_rate gr mission = ([], Ok out) →
  ∃ aid1 aid2 scores rates tuition outcomes missions
    sfa_data_merged adm_data_merged merged_df pool,
    pd.getitem_cols ["UNITID"; "IGRNT_A"] sfa_p1 = Ok aid1 ∧
    pd.getitem_cols ["UNITID"; "NPT442"] sfa_p2 = Ok aid2 ∧
    pd.getitem_cols ["UNITID"; "SATVR75"; "SATMT75"] adm_sat = Ok scores ∧
    pd.getitem_cols ["UNITID"; "DVADM01"] adm_rate = Ok rates ∧
    pd.getitem_cols ["UNITID"; "TUITION2"] ic = Ok tuition ∧
    pd.getitem_cols ["UNITID"; "GBA4RTT"] gr = Ok outcomes ∧
    pd.getitem_cols ["unitid"; "mission"] mission = Ok missions ∧
    merge_sfa sfa_p1 sfa_p2 = Ok sfa_data_merged ∧
    rows sfa_data_merged = inner_join "UNITID" (rows aid1) (rows aid2) ∧
    merge_adm adm_sat adm_rate = Ok adm_data_merged ∧
    rows adm_data_merged = left_join "UNITID" (rows scores) (rows rates) ∧
    merge_all hd tuition sfa_data_merged adm_data_merged outcomes
              (pd.rename [("unitid", "UNITID")] missions) = Ok merged_df ∧
    rows merged_df =
      left_join "UNITID"
        (left_join "UNITID"
           (left_join "UNITID"
              (left_join "UNITID"
                 (left_join "UNITID" (rows hd) (rows tuition))
                 (rows sfa_data_merged))
              (rows adm_data_merged))
           (rows outcomes))
        (pd.rename_row "unitid" "UNITID" <$> rows missions) ∧
    pd.dropna FINANCIAL merged_df = Ok pool ∧
    rows pool =
      List.filter (λ r, notna (get "TUITION2" r) && notna (get "IGRNT_A" r)
                        && notna (get "NPT442" r))
                  (rows merged_df) ∧
    derive_metrics merged_df = Ok out ∧
    get "UNITID" <$> rows out = get "UNITID" <$> rows pool.
Proof.
  intros Hhd [[Hne _]|[_ Hmain]]%calculate_metrics_inv; [done|].
  destruct Hmain as (sfa & adm & tuition & outcomes & missions & merged
                     & Hsfa & Hadm & Htu & Hout & Hmi & Hall & Hd).
  pose proof Hsfa as Hsfa'. pose proof Hadm as Hadm'. pose proof Hall as Hall'.
  unfold merge_sfa in Hsfa.
  apply result_bind_inv in Hsfa as (aid1 & Haid1 & Hsfa).
  apply result_bind_inv in Hsfa as (aid2 & Haid2 & Hsfa).
  unfold merge_adm in Hadm.
  apply result_bind_inv in Hadm as (scores & Hscores & Hadm).
  apply result_bind_inv in Hadm as (rates & Hrates & Hadm).
  destruct (derive_metrics_carried _ _ Hd) as (pool & Hdrop & _ & Hcarried).
  exists aid1, aid2, scores, rates, tuition, outcomes, missions, sfa, adm, merged, pool.
  do 8 (split; [done|]).
  pose proof (getitem_cols_inv _ _ _ Haid1) as ->.
  pose proof (getitem_cols_inv _ _ _ Haid2) as ->.
  pose proof (getitem_cols_inv _ _ _ Hscores) as ->.
  pose proof (getitem_cols_inv _ _ _ Hrates) as ->.
  pose proof (getitem_cols_inv _ _ _ Htu) as ->.
  pose proof (getitem_cols_inv _ _ _ Hout) as ->.
  pose proof (getitem_cols_inv _ _ _ Hmi) as ->.
  destruct hd as [hcols hrows]. simpl in Hhd. subst hcols.
  rewrite merge_plain in Hsfa by first [decide_now | vm_compute; reflexivity].
  rewrite merge_plain in Hadm by first [decide_now | vm_compute; reflexivity].
  injection Hsfa as <-. injection Hadm as <-.
  split; [cbn [rows]; apply join_rows_inner|].
  split; [done|].
  split; [cbn [rows]; apply join_rows_left|].
  split; [done|].
  split.
  { unfold merge_all in Hall.
    assert (pd.rename [("unitid", "UNITID")]
              (mkDF ["unitid"; "mission"] (pd.restrict ["unitid"; "mission"] <$> rows mission))
            = mkDF ["UNITID"; "mission"]
                (pd.rename_row "unitid" "UNITID" <$>
                 (pd.restrict ["unitid"; "mission"] <$> rows mission))) as Hren by reflexivity.
    rewrite Hren in Hall. clear Hren.
    do 4 (rewrite merge_plain in Hall by first [decide_now | vm_compute; reflexivity];
          ok_step_in Hall).
    rewrite merge_plain in Hall by first [decide_now | vm_compute; reflexivity].
    injection Hall as <-. simpl.
    by rewrite !join_rows_left. }
  split; [done|].
  split.
  { apply dropna_inv in Hdrop as (_ & -> & _). apply filter_ext, complete_financial. }
  split; [done|].
  apply Hcarried; decide_now.
Qed.

(** C7, witness: the tables of the end-to-end scenario. *)
Lemma join_sequence_witness :
  ∃ aid1 aid2 scores rates tuition outcomes missions
    sfa_data_merged adm_data_merged merged_df pool,
    pd.getitem_cols ["UNITID"; "IGRNT_A"] (t_sfa_p1 scenario) = Ok aid1 ∧
    pd.getitem_cols ["UNITID"; "NPT442"] (t_sfa_p2 scenario) = Ok aid2 ∧
    pd.getitem_cols ["UNITID"; "SATVR75"; "SATMT75"] (t_adm_sat scenario) = Ok scores ∧
    pd.getitem_cols ["UNITID"; "DVADM01"] (t_adm_rate scenario) = Ok rates ∧
    pd.getitem_cols ["UNITID"; "TUITION2"] (t_ic scenario) = Ok tuition ∧
    pd.getitem_cols ["UNITID"; "GBA4RTT"] (t_gr scenario) = Ok outcomes ∧
    pd.getitem_cols ["unitid"; "mission"] (t_mission scenario) = Ok missions ∧
    merge_sfa (t_sfa_p1 scenario) (t_sfa_p2 scenario) = Ok sfa_data_merged ∧
    rows sfa_data_merged = inner_join "UNITID" (rows aid1) (rows aid2) ∧
    merge_adm (t_adm_sat scenario) (t_adm_rate scenario) = Ok adm_data_merged ∧
    rows adm_data_merged = left_join "UNITID" (rows scores) (rows rates) ∧
    merge_all (institutions_of scenario) tuition sfa_data_merged adm_data_merged outcomes
              (pd.rename [("unitid", "UNITID")] missions) = Ok merged_df ∧
    rows merged_df =
      left_join "UNITID"
        (left_join "UNITID"
           (left_join "UNITID"
              (left_join "UNITID"
                 (left_join "UNITID" (rows (institutions_of scenario)) (rows tuition))
                 (rows sfa_data_merged))
              (rows adm_data_merged))
           (rows outcomes))
        (pd.rename_row "unitid" "UNITID" <$> rows missions) ∧
    pd.dropna FINANCIAL merged_df = Ok pool ∧
    rows pool =
      List.filter (λ r, notna (get "TUITION2" r) && notna (get "IGRNT_A" r)
                        && notna (get "NPT442" r))
                  (rows merged_df) ∧
    derive_metrics merged_df = Ok scenario_pool ∧
    get "UNITID" <$> rows scenario_pool = get "UNITID" <$> rows pool.
Proof.
  apply (join_sequence (institutions_of scenario) (t_sfa_p1 scenario) (t_sfa_p2 scenario)
           (t_ic scenario) (t_adm_sat scenario) (t_adm_rate scenario)
           (t_gr scenario) (t_mission scenario) scenario_pool);
    vm_compute; reflexivity.
Defined.

(** An institution missing from financial aid part 2 has no row in the
    inner join, keeps its row in the left joins, and is dropped for want of
    a net price. *)
Example unmatched_aid_row_is_dropped :
  get "UNITID" <$> rows (institutions_of half_aided) = [Num 1; Num 2] ∧
  get "UNITID" <$> rows (frame_or_empty (metrics_of half_aided)) = [Num 2].
Proof. split; vm_compute; reflexivity. Qed.

(** ** The pipeline on an empty report *)

Lemma M_bind_intro {A B} (m : M A) (f : A → M B) out1 a out2 r :
  m = (out1, Ok a) → f a = (out2, r) → m ≫= f = (out1 ++ out2, r).
Proof. intros -> Hf. by rewrite M_bind_pair, Hf. Qed.

Section Pipeline.

Variable argsort_desc : Series → list nat.

(** C2, as the code has it.  When the load and the metric calculator
    succeed with a non-empty table and the insight generator returns a report
    without rows, the pipeline returns normally; it has by then written the
    report, header only, to the output file, and it ends on the message that
    no colleges met the criteria, without drawing a chart. *)
Theorem empty_report_is_written fs t out1 merged_data out2 out3 final_report :
  load_and_clean_data fs IPEDS_BASE_PATH ESSENTIAL_FILES = (out1, Ok (Some t)) →
  calculate_metrics (t_hd t) (t_sfa_p1 t) (t_sfa_p2 t) (t_ic t)
    (t_adm_sat t) (t_adm_rate t) (t_gr t) (t_mission t) = (out2, Ok merged_data) →
  empty merged_data = false →
  generate_insights argsort_desc merged_data = (out3, Ok final_report) →
  empty final_report = true →
  run_phase_3_pipeline argsort_desc fs =
    (Print "--- Starting Phase 3 ETL Pipeline ---" :: out1 ++
     Print "Data loaded successfully from 8 essential files." :: out2 ++
     Print ("Initial Merge Size (after financial data cleanup): " +:+
            pretty (length (rows merged_data))) ::
     Print "Metrics calculated: Merit Generosity Index (MGI) and Affordability Score." ::
     out3 ++
     [ Print ("Final Report generated. Top 20 colleges selected (" +:+
              pretty (length (rows final_report)) +:+ " results).");
       ToCsv (path_join IPEDS_BASE_PATH OUTPUT_FILE) final_report;
       Print ("Final ranked list saved to: " +:+ path_join IPEDS_BASE_PATH OUTPUT_FILE);
       Print (nl +:+ "No colleges met the stringent criteria. Please review filters.") ],
     Ok ()).
Proof.
  intros Hload Hcalc Hne Hgen Hempty.
  unfold run_phase_3_pipeline.
  eapply (M_bind_intro _ _ [_]); [reflexivity|]. cbv beta.
  eapply (M_bind_intro _ _ out1); [exact Hload|]. cbv beta iota.
  eapply (M_bind_intro _ _ [_]); [reflexivity|]. cbv beta.
  eapply (M_bind_intro _ _ out2); [exact Hcalc|]. cbv beta. rewrite Hne.
  eapply (M_bind_intro _ _ [_]); [reflexivity|]. cbv beta.
  eapply (M_bind_intro _ _ [_]); [reflexivity|]. cbv beta.
  eapply (M_bind_intro _ _ out3); [exact Hgen|]. cbv beta.
  eapply (M_bind_intro _ _ [_]); [reflexivity|]. cbv beta.
  eapply (M_bind_intro _ _ [_]); [reflexivity|]. cbv beta.
  eapply (M_bind_intro _ _ [_]); [reflexivity|]. cbv beta.
  rewrite Hempty. reflexivity.
Qed.

End Pipeline.

(** C2, witness: the starved directory. *)
Lemma empty_report_is_written_witness :
  run_phase_3_pipeline stable_argsort_desc (directory_of starved) =
    (Print "--- Starting Phase 3 ETL Pipeline ---" ::
     [Print "Successfully used 'HDEGOFR1' to filter for 4-year degree-granting institutions."] ++
     Print "Data loaded successfully from 8 essential files." :: [] ++
     Print ("Initial Merge Size (after financial data cleanup): " +:+
            pretty (length (rows starved_pool))) ::
     Print "Metrics calculated: Merit Generosity Index (MGI) and Affordability Score." ::
     [starvation_warning 1] ++
     [ Print ("Final Report generated. Top 20 colleges selected (" +:+
              pretty (length (rows starved_report)) +:+ " results).");
       ToCsv (path_join IPEDS_BASE_PATH OUTPUT_FILE) starved_report;
       Print ("Final ranked list saved to: " +:+ path_join IPEDS_BASE_PATH OUTPUT_FILE);
       Print (nl +:+ "No colleges met the stringent criteria. Please review filters.") ],
     Ok ()).
Proof.
  apply (empty_report_is_written stable_argsort_desc (directory_of starved) (loaded starved));
    vm_compute; reflexivity.
Defined.

(** C2, counterexample: no institution of the starved directory passes the
    fallback, the pipeline returns normally, and it has written the output
    file: the thirteen column names and no data row. *)
Lemma empty_report_still_writes_csv :
  length (rows starved_pool) = 2 ∧
  rows (keep (passes_fallback starved_pool) starved_pool) = [] ∧
  (run_phase_3_pipeline stable_argsort_desc (directory_of starved)).2 = Ok () ∧
  csv_written (run_phase_3_pipeline stable_argsort_desc (directory_of starved)).1
    = [(path_join IPEDS_BASE_PATH OUTPUT_FILE, REPORT_COLUMNS, 0)] ∧
  last (run_phase_3_pipeline stable_argsort_desc (directory_of starved)).1
    = Some (Print (nl +:+ "No colleges met the stringent criteria. Please review filters.")).
Proof. repeat split; vm_compute; reflexivity. Qed.

(** ** The store *)

Lemma St_bind_silent {A B} (m : St A) (f : A → St B) σ σ' a :
  m σ = (σ', ([], Ok a)) → (m ≫= f) σ = f a σ'.
Proof.
  intros H. unfold mbind, St_bind. rewrite H. by destruct (f a σ') as [? [? ?]].
Qed.

Lemma St_bind_print {B} (s : string) (f : () → St B) σ :
  (lift_M (print s) ≫= f) σ =
    ((f () σ).1, (Print s :: (f () σ).2.1, (f () σ).2.2)).
Proof. unfold mbind, St_bind, lift_M, print. by destruct (f () σ) as [? [? ?]]. Qed.

Lemma St_bind_intro {A B} (m : St A) (f : A → St B) σ σ1 out1 a σ2 out2 r :
  m σ = (σ1, (out1, Ok a)) → f a σ1 = (σ2, (out2, r)) →
  (m ≫= f) σ = (σ2, (out1 ++ out2, r)).
Proof. intros H1 H2. unfold mbind, St_bind. by rewrite H1, H2. Qed.

Lemma St_bind_raise {A B} (m : St A) (f : A → St B) σ σ' out e :
  m σ = (σ', (out, Raise e)) → (m ≫= f) σ = (σ', (out, Raise e)).
Proof. intros H. unfold mbind, St_bind. by rewrite H. Qed.

Lemma lookup_old (σ ext : store) l d : σ !! l = Some d → (σ ++ ext) !! l = Some d.
Proof. intros H. by apply lookup_app_l_Some. Qed.

Lemma lookup_new (σ ext : store) k d :
  ext !! k = Some d → (σ ++ ext) !! (length σ + k) = Some d.
Proof. intros H. by rewrite lookup_app_r, Nat.add_comm, Nat.add_sub by lia. Qed.

Section StoreRuns.

Context (σ : store) (l : ref) (d : DataFrame) (Hl : σ !! l = Some d).

Lemma run_copy : obj.copy l σ = (σ ++ [d], ([], Ok (length σ))).
Proof using Hl. unfold obj.copy, deref, alloc, mbind, St_bind. by rewrite Hl. Qed.

Lemma run_getitem c : obj.getitem c l σ = (σ, ([], pd.getitem c d)).
Proof using Hl.
  unfold obj.getitem, deref, lift_result, lift, mbind, St_bind. by rewrite Hl.
Qed.

Lemma run_getitem_mask mask :
  obj.getitem_mask mask l σ = (σ ++ [pd.getitem_mask mask d], ([], Ok (length σ))).
Proof using Hl. unfold obj.getitem_mask, deref, alloc, mbind, St_bind. by rewrite Hl. Qed.

Lemma run_len : obj.len l σ = (σ, ([], Ok (length (rows d)))).
Proof using Hl. unfold obj.len, deref, mbind, St_bind. by rewrite Hl. Qed.

Lemma run_setitem c v : obj.setitem c v l σ = (<[l := pd.setitem c v d]> σ, ([], Ok ())).
Proof using Hl. unfold obj.setitem, deref, assign, mbind, St_bind. by rewrite Hl. Qed.

Lemma run_head n : obj.head n l σ = (σ ++ [pd.head n d], ([], Ok (length σ))).
Proof using Hl. unfold obj.head, deref, alloc, mbind, St_bind. by rewrite Hl. Qed.

Lemma run_reset_index : obj.reset_index l σ = (σ ++ [pd.reset_index d], ([], Ok (length σ))).
Proof using Hl. unfold obj.reset_index, deref, alloc, mbind, St_bind. by rewrite Hl. Qed.

Lemma run_getitem_cols cs :
  obj.getitem_cols cs l σ =
    match pd.getitem_cols cs d with
    | Ok d' => (σ ++ [d'], ([], Ok (length σ)))
    | Raise e => (σ, ([], Raise e))
    end.
Proof using Hl.
  unfold obj.getitem_cols, deref, alloc, lift_result, lift, mbind, St_bind. rewrite Hl.
  simpl. by destruct (pd.getitem_cols cs d).
Qed.

Lemma run_sort_values argsort c :
  sort_values_obj argsort c l σ =
    match sort_values argsort c d with
    | Ok d' => (σ ++ [d'], ([], Ok (length σ)))
    | Raise e => (σ, ([], Raise e))
    end.
Proof using Hl.
  unfold sort_values_obj, deref, alloc, lift_result, lift, mbind, St_bind. rewrite Hl.
  simpl. by destruct (sort_values argsort c d).
Qed.

End StoreRuns.

Lemma lookup_fresh (σ : store) d : (σ ++ [d]) !! length σ = Some d.
Proof. by apply list_lookup_middle. Qed.

Section Frame.

Variable argsort_desc : Series → list nat.

Ltac silent H := rewrite (St_bind_silent _ _ _ _ _ H); cbv beta.

Lemma tier1_obj_spec σ df d :
  σ !! df = Some d →
  ∃ σ' r,
    tier1_obj df σ = (σ', ([], r)) ∧ σ `prefix_of` σ' ∧
    tier1 d = value_at σ' r ∧ ∀ l, r = Ok l → length σ ≤ l < length σ'.
Proof.
  intros Hd. unfold tier1_obj, tier1, pd.copy.
  silent (run_copy _ _ _ Hd).
  pose proof (lookup_fresh σ d) as H1. set (σ1 := σ ++ [d]) in *.
  assert (σ `prefix_of` σ1) as P1 by by apply prefix_app_r.
  destruct (pd.getitem "Net_Price_MidClass" d) as [net|e] eqn:Hnet.
  2:{ exists σ1, (Raise e). split; [|done].
      apply St_bind_raise. by rewrite (run_getitem _ _ _ H1), Hnet. }
  rewrite (St_bind_silent _ _ σ1 σ1 net) by by rewrite (run_getitem _ _ _ H1), Hnet.
  ok_step.
  silent (run_getitem_mask _ _ _ H1 (pd.le net 25000)).
  set (t1 := pd.getitem_mask (pd.le net 25000) d).
  pose proof (lookup_fresh σ1 t1) as H2. set (σ2 := σ1 ++ [t1]) in *.
  assert (σ `prefix_of` σ2) as P2 by (etrans; [exact P1|by apply prefix_app_r]).
  silent (run_copy _ _ _ H2).
  pose proof (lookup_fresh σ2 t1) as H3. set (σ3 := σ2 ++ [t1]) in *.
  assert (σ `prefix_of` σ3) as P3 by (etrans; [exact P2|by apply prefix_app_r]).
  assert (σ3 !! df = Some d) as Hd3 by (by do 3 apply lookup_old).
  destruct (pd.getitem "MGI" d) as [mgi0|e] eqn:Hmgi.
  2:{ exists σ3, (Raise e). split; [|done].
      apply St_bind_raise. by rewrite (run_getitem _ _ _ Hd3), Hmgi. }
  rewrite (St_bind_silent _ _ σ3 σ3 mgi0) by by rewrite (run_getitem _ _ _ Hd3), Hmgi.
  ok_step.
  destruct (pd.getitem "MGI" t1) as [mgi1|e] eqn:Hmgi1.
  2:{ exists σ3, (Raise e). split; [|done].
      apply St_bind_raise. by rewrite (run_getitem _ _ _ H3), Hmgi1. }
  rewrite (St_bind_silent _ _ σ3 σ3 mgi1) by by rewrite (run_getitem _ _ _ H3), Hmgi1.
  ok_step.
  silent (run_getitem_mask _ _ _ H3 (pd.ge mgi1 (pd.quantile 0.5 mgi0))).
  set (t2 := pd.getitem_mask (pd.ge mgi1 (pd.quantile 0.5 mgi0)) t1).
  pose proof (lookup_fresh σ3 t2) as H4. set (σ4 := σ3 ++ [t2]) in *.
  assert (σ `prefix_of` σ4) as P4 by (etrans; [exact P3|by apply prefix_app_r]).
  rewrite (run_copy _ _ _ H4).
  exists (σ4 ++ [t2]), (Ok (length σ4)).
  split; [done|]. split; [etrans; [exact P4|by apply prefix_app_r]|].
  split.
  - unfold value_at. csimpl. by rewrite lookup_fresh.
  - intros ? [= <-]. apply prefix_length in P4. rewrite length_app. simpl. lia.
Qed.

Lemma fallback_obj_spec σ df d :
  σ !! df = Some d →
  ∃ σ' r,
    fallback_obj df σ = (σ', ([], r)) ∧ σ `prefix_of` σ' ∧
    fallback d = value_at σ' r ∧ ∀ l, r = Ok l → length σ ≤ l < length σ'.
Proof.
  intros Hd. unfold fallback_obj, fallback, pd.copy.
  destruct (pd.getitem "Net_Price_MidClass" d) as [net|e] eqn:Hnet.
  2:{ exists σ, (Raise e). split; [|done].
      apply St_bind_raise. by rewrite (run_getitem _ _ _ Hd), Hnet. }
  do 2 (rewrite (St_bind_silent _ _ σ σ net) by by rewrite (run_getitem _ _ _ Hd), Hnet).
  do 2 ok_step.
  destruct (pd.getitem "MGI" d) as [mgi0|e] eqn:Hmgi.
  2:{ exists σ, (Raise e). split; [|done].
      apply St_bind_raise. by rewrite (run_getitem _ _ _ Hd), Hmgi. }
  do 2 (rewrite (St_bind_silent _ _ σ σ mgi0) by by rewrite (run_getitem _ _ _ Hd), Hmgi).
  do 2 ok_step.
  silent (run_getitem_mask _ _ _ Hd
            (pd.and (pd.le net (pd.quantile 0.3 net)) (pd.ge mgi0 (pd.quantile 0.8 mgi0)))).
  set (t := pd.getitem_mask _ d).
  pose proof (lookup_fresh σ t) as H1.
  rewrite (run_copy _ _ _ H1).
  exists ((σ ++ [t]) ++ [t]), (Ok (length (σ ++ [t]))).
  split; [done|]. split; [etrans; by apply prefix_app_r|]. split.
  - unfold value_at. csimpl. by rewrite lookup_fresh.
  - intros ? [= <-]. rewrite !length_app. simpl. lia.
Qed.

Lemma prefix_insert_fresh (σ0 σ : store) l d :
  σ0 `prefix_of` σ → length σ0 ≤ l → σ0 `prefix_of` <[l := d]> σ.
Proof.
  intros [k ->] Hl. rewrite insert_app_r_alt by done. by apply prefix_app_r.
Qed.

(** The score is written to the frame [l] refers to, so the objects that
    were there before [l] was allocated stay as they were. *)
Lemma rank_obj_spec σ0 σ l d :
  σ0 `prefix_of` σ → length σ0 ≤ l → σ !! l = Some d →
  ∃ σ' r,
    rank_obj argsort_desc l σ = (σ', ([], r)) ∧ σ0 `prefix_of` σ' ∧
    rank argsort_desc d = value_at σ' r.
Proof.
  intros P0 Hfresh Hd. unfold rank_obj, rank, composite_score.
  destruct (pd.getitem "MGI" d) as [mgi0|e] eqn:Hmgi.
  2:{ exists σ, (Raise e). split; [|done].
      apply St_bind_raise. by rewrite (run_getitem _ _ _ Hd), Hmgi. }
  rewrite (St_bind_silent _ _ σ σ mgi0) by by rewrite (run_getitem _ _ _ Hd), Hmgi.
  ok_step.
  destruct (pd.getitem "Graduation_Rate_4yr" d) as [grad|e] eqn:Hgrad.
  2:{ exists σ, (Raise e). split; [|done].
      apply St_bind_raise. by rewrite (run_getitem _ _ _ Hd), Hgrad. }
  rewrite (St_bind_silent _ _ σ σ grad) by by rewrite (run_getitem _ _ _ Hd), Hgrad.
  ok_step.
  destruct (pd.getitem "NET_PRICE_RATIO" d) as [npr|e] eqn:Hnpr.
  2:{ exists σ, (Raise e). split; [|done].
      apply St_bind_raise. by rewrite (run_getitem _ _ _ Hd), Hnpr. }
  rewrite (St_bind_silent _ _ σ σ npr) by by rewrite (run_getitem _ _ _ Hd), Hnpr.
  do 2 ok_step.
  set (score := pd.div (pd.add mgi0 grad) npr).
  silent (run_setitem _ _ _ Hd "Composite_Score" score).
  set (scored := pd.setitem "Composite_Score" score d).
  assert (<[l := scored]> σ !! l = Some scored) as H1.
  { apply list_lookup_insert_eq. by apply lookup_lt_Some in Hd. }
  set (σ1 := <[l := scored]> σ) in *.
  assert (σ0 `prefix_of` σ1) as P1 by by apply prefix_insert_fresh.
  destruct (sort_values argsort_desc "Composite_Score" scored) as [sorted|e] eqn:Hsort.
  2:{ exists σ1, (Raise e). split; [|done].
      apply St_bind_raise. by rewrite (run_sort_values _ _ _ H1), Hsort. }
  rewrite (St_bind_silent _ _ σ1 (σ1 ++ [sorted]) (length σ1))
    by by rewrite (run_sort_values _ _ _ H1), Hsort.
  ok_step.
  pose proof (lookup_fresh σ1 sorted) as H2. set (σ2 := σ1 ++ [sorted]) in *.
  assert (σ0 `prefix_of` σ2) as P2 by (etrans; [exact P1|by apply prefix_app_r]).
  destruct (pd.getitem_cols REPORT_COLUMNS sorted) as [sel|e] eqn:Hsel.
  2:{ exists σ2, (Raise e). split; [|done].
      apply St_bind_raise. by rewrite (run_getitem_cols _ _ _ H2), Hsel. }
  rewrite (St_bind_silent _ _ σ2 (σ2 ++ [sel]) (length σ2))
    by by rewrite (run_getitem_cols _ _ _ H2), Hsel.
  ok_step.
  pose proof (lookup_fresh σ2 sel) as H3. set (σ3 := σ2 ++ [sel]) in *.
  assert (σ0 `prefix_of` σ3) as P3 by (etrans; [exact P2|by apply prefix_app_r]).
  silent (run_head _ _ _ H3 20).
  pose proof (lookup_fresh σ3 (pd.head 20 sel)) as H4.
  rewrite (run_reset_index _ _ _ H4).
  eexists _, (Ok _). split; [done|].
  split; [etrans; [exact P3|]; etrans; by apply prefix_app_r|].
  unfold value_at. csimpl. by rewrite lookup_fresh.
Qed.

(** C10.  The insight generator does not mutate its input: run on a store
    in which [df] refers to the frame [d], it leaves a store that extends the
    old one, so that every frame that existed before the call, [d] under
    [df] among them, has the rows, columns and cells it had; the score
    column is written to a frame the call itself allocated.  What it prints
    and returns is what the value-level [generate_insights] gives for [d]. *)
Theorem generate_insights_leaves_input_untouched σ df d :
  σ !! df = Some d →
  ∃ σ' out r,
    generate_insights_obj argsort_desc df σ = (σ', (out, r)) ∧
    σ `prefix_of` σ' ∧
    σ' !! df = Some d ∧
    generate_insights argsort_desc d = (out, value_at σ' r).
Proof.
  intros Hd. unfold generate_insights_obj, generate_insights.
  destruct (tier1_obj_spec σ df d Hd) as (σ1 & r1 & Hrun1 & P1 & Hv1 & Hf1).
  rewrite Hv1. destruct r1 as [l1|e].
  2:{ exists σ1, [], (Raise e). split; [by apply St_bind_raise|].
      split; [done|]. split; [exact (prefix_lookup_Some _ _ _ _ Hd P1)|done]. }
  silent Hrun1. destruct (Hf1 l1 eq_refl) as [Hge1 Hlt1].
  destruct (lookup_lt_is_Some_2 _ _ Hlt1) as [t Ht].
  unfold value_at. cbn [fmap result_fmap]. rewrite Ht. cbn [default from_option id].
  rewrite M_bind_lift_Ok.
  silent (run_len _ _ _ Ht).
  assert (σ1 !! df = Some d) as Hd1 by exact (prefix_lookup_Some _ _ _ _ Hd P1).
  destruct (length (rows t) <? 10) eqn:Hn.
  - destruct (fallback_obj_spec σ1 df d Hd1) as (σ2 & r2 & Hrun2 & P2 & Hv2 & Hf2).
    rewrite Hv2.
    assert (σ `prefix_of` σ2) as P02 by by etrans.
    destruct r2 as [l2|e].
    2:{ exists σ2, [starvation_warning (length (rows t))], (Raise e).
        split; [|split; [done|split; [exact (prefix_lookup_Some _ _ _ _ Hd P02)|done]]].
        apply St_bind_raise. silent (run_len _ _ _ Ht).
        eapply (St_bind_intro _ _ _ _ [_]); [reflexivity|]. exact Hrun2. }
    destruct (Hf2 l2 eq_refl) as [Hge2 Hlt2].
    destruct (lookup_lt_is_Some_2 _ _ Hlt2) as [t2 Ht2].
    destruct (rank_obj_spec σ σ2 l2 t2 P02) as (σ3 & r3 & Hrun3 & P3 & Hv3);
      [apply prefix_length in P1; lia|done|].
    exists σ3, [starvation_warning (length (rows t))], r3.
    split; [|split; [done|split; [exact (prefix_lookup_Some _ _ _ _ Hd P3)|]]].
    + eapply (St_bind_intro _ _ _ σ2 [_] l2 _ []); [|exact Hrun3].
      silent (run_len _ _ _ Ht).
      eapply (St_bind_intro _ _ _ _ [_] _ _ []); [reflexivity|]. exact Hrun2.
    + change (value_at σ2 (Ok l2)) with (Ok (default empty_frame (σ2 !! l2))).
      rewrite Ht2. cbn [default from_option id].
      fold (value_at σ3 r3). rewrite <- Hv3.
      unfold starvation_warning, print, lift, mbind, M_bind.
      by destruct (rank argsort_desc t2).
  - destruct (rank_obj_spec σ σ1 l1 t P1 Hge1 Ht) as (σ3 & r3 & Hrun3 & P3 & Hv3).
    exists σ3, [], r3.
    split; [|split; [done|split; [exact (prefix_lookup_Some _ _ _ _ Hd P3)|]]].
    + rewrite (St_bind_silent _ _ σ1 σ1 l1) by done. exact Hrun3.
    + fold (value_at σ3 r3). by rewrite M_bind_ret, Hv3.
Qed.

End Frame.

(** C10, witness: a store that holds the pool of the scenario. *)
Lemma generate_insights_leaves_input_untouched_witness :
  ∃ σ' out r,
    generate_insights_obj stable_argsort_desc 0 [scenario_pool] = (σ', (out, r)) ∧
    [scenario_pool] `prefix_of` σ' ∧
    σ' !! 0 = Some scenario_pool ∧
    generate_insights stable_argsort_desc scenario_pool = (out, value_at σ' r).
Proof.
  apply (generate_insights_leaves_input_untouched stable_argsort_desc [scenario_pool] 0).
  reflexivity.
Defined.

(** An item assignment through an alias does reach the caller's frame: the
    copies are what keeps the input as it was. *)
Example setitem_writes_in_place :
  columns <$> (obj.setitem "Composite_Score" [Num 1; Num 5] 0 [scenario_pool]).1 !! 0
  = Some (columns scenario_pool ++ ["Composite_Score"]).
Proof. vm_compute; reflexivity. Qed.

(** ** More on the loader *)

Lemma load_core_tables_missing fs base_path before key filename rest data :
  Forall (λ kf : string * string, is_Some (fs !! path_join base_path kf.2)) before →
  fs !! path_join base_path filename = None →
  load_core_tables fs base_path (before ++ (key, filename) :: rest) data =
    ([file_not_found filename], Ok None).
Proof.
  intros Hb Hf. revert data.
  induction Hb as [|[k f] before [df Hdf] _ IH]; intros data; cbn [app load_core_tables].
  - by rewrite Hf.
  - cbn in Hdf. rewrite Hdf. apply IH.
Qed.

(** X1.  When a file of the map is missing, the loader stops at the first
    one in the order of the map: it prints one line naming that file and
    returns [None]; no table is cleaned or filtered and no later file is
    looked for. *)
Theorem missing_file_stops_the_load fs base_path before key filename rest :
  Forall (λ kf : string * string, is_Some (fs !! path_join base_path kf.2)) before →
  fs !! path_join base_path filename = None →
  load_and_clean_data fs base_path (before ++ (key, filename) :: rest) =
    ([file_not_found filename], Ok None).
Proof.
  intros Hb Hf. unfold load_and_clean_data.
  by rewrite (load_core_tables_missing _ _ _ _ _ _ _ Hb Hf).
Qed.





(** The loader on a directory that holds the eight essential files. *)
Lemma load_complete
    fs hd sfa_p1 sfa_p2 ic adm_sat adm_rate gr mission :
  fs !! essential "HD2022.csv" = Some hd →
  fs !! essential "SFA2122_P1.csv" = Some sfa_p1 →
  fs !! essential "SFA2122_P2.csv" = Some sfa_p2 →
  fs !! essential "IC2022_AY.csv" = Some ic →
  fs !! essential "ADM2022.csv" = Some adm_sat →
  fs !! essential "DRVADM2022.csv" = Some adm_rate →
  fs !! essential "DRVGR2022.csv" = Some gr →
  fs !! essential "IC2022Mission.csv" = Some mission →
  load_and_clean_data fs IPEDS_BASE_PATH ESSENTIAL_FILES =
    match filter_institutions hd with
    | Raise (KeyError _) =>
        ([ Print (nl +:+ "--- CRITICAL FILTER ERROR ---");
           Print ("KeyError: " +:+ filter_error hd +:+
                  " not found in HD2022.csv. Please inspect the HD2022 columns.") ],
         Ok None)
    | Ok hd_filtered =>
        ([ Print "Successfully used 'HDEGOFR1' to filter for 4-year degree-granting institutions." ],
         Ok (Some (mkTables hd_filtered
                     (pd.replace SENTINELS NaN sfa_p1) (pd.replace SENTINELS NaN sfa_p2)
                     (pd.replace SENTINELS NaN ic) (pd.replace SENTINELS NaN adm_sat)
                     (pd.replace SENTINELS NaN adm_rate) (pd.replace SENTINELS NaN gr)
                     mission)))
    end.
Proof.
  unfold essential. intros H1 H2 H3 H4 H5 H6 H7 H8.
  unfold load_and_clean_data, ESSENTIAL_FILES. cbn [load_core_tables].
  rewrite H1, H2, H3, H4, H5, H6, H7, H8. rewrite M_bind_ret. cbv zeta.
  set (data := clean_special_values _).
  assert (dict_get "hd" data = Ok hd) as -> by (vm_compute; reflexivity).
  assert (dict_get "sfa_p1" data = Ok (pd.replace SENTINELS NaN sfa_p1)) as Hsfa1
    by (vm_compute; reflexivity).
  assert (dict_get "sfa_p2" data = Ok (pd.replace SENTINELS NaN sfa_p2)) as Hsfa2
    by (vm_compute; reflexivity).
  assert (dict_get "ic" data = Ok (pd.replace SENTINELS NaN ic)) as Hic
    by (vm_compute; reflexivity).
  assert (dict_get "adm_sat" data = Ok (pd.replace SENTINELS NaN adm_sat)) as Hsat
    by (vm_compute; reflexivity).
  assert (dict_get "adm_rate" data = Ok (pd.replace SENTINELS NaN adm_rate)) as Hrate
    by (vm_compute; reflexivity).
  assert (dict_get "gr" data = Ok (pd.replace SENTINELS NaN gr)) as Hgr
    by (vm_compute; reflexivity).
  assert (dict_get "mission" data = Ok mission) as Hmission by (vm_compute; reflexivity).
  rewrite M_bind_lift_Ok.
  destruct (filter_institutions hd) as [hd_filtered|[k]].
  - rewrite M_bind_print, Hsfa1, Hsfa2, Hic, Hsat, Hrate, Hgr, Hmission.
    by rewrite !M_bind_lift_Ok.
  - by rewrite !M_bind_print.
Qed.

(** Which of the two the directory is: a first essential file is missing,
    or all eight are there. *)
Lemma load_cases fs :
  (∃ filename,
     load_and_clean_data fs IPEDS_BASE_PATH ESSENTIAL_FILES =
       ([file_not_found filename], Ok None)) ∨
  (∃ hd sfa_p1 sfa_p2 ic adm_sat adm_rate gr mission,
     fs !! essential "HD2022.csv" = Some hd ∧
     fs !! essential "SFA2122_P1.csv" = Some sfa_p1 ∧
     fs !! essential "SFA2122_P2.csv" = Some sfa_p2 ∧
     fs !! essential "IC2022_AY.csv" = Some ic ∧
     fs !! essential "ADM2022.csv" = Some adm_sat ∧
     fs !! essential "DRVADM2022.csv" = Some adm_rate ∧
     fs !! essential "DRVGR2022.csv" = Some gr ∧
     fs !! essential "IC2022Mission.csv" = Some mission).
Proof.
  unfold load_and_clean_data, ESSENTIAL_FILES, essential. cbn [load_core_tables].
  destruct (fs !! path_join IPEDS_BASE_PATH "HD2022.csv"); [|left; by eexists].
  destruct (fs !! path_join IPEDS_BASE_PATH "SFA2122_P1.csv"); [|left; by eexists].
  destruct (fs !! path_join IPEDS_BASE_PATH "SFA2122_P2.csv"); [|left; by eexists].
  destruct (fs !! path_join IPEDS_BASE_PATH "IC2022_AY.csv"); [|left; by eexists].
  destruct (fs !! path_join IPEDS_BASE_PATH "ADM2022.csv"); [|left; by eexists].
  destruct (fs !! path_join IPEDS_BASE_PATH "DRVADM2022.csv"); [|left; by eexists].
  destruct (fs !! path_join IPEDS_BASE_PATH "DRVGR2022.csv"); [|left; by eexists].
  destruct (fs !! path_join IPEDS_BASE_PATH "IC2022Mission.csv"); [|left; by eexists].
  right. by eexists _, _, _, _, _, _, _, _.
Qed.

(** X3.  With the eight essential files in place and no text in the
    degree column of the directory table, the loader raises nothing.  It
    returns the institution filter's rows of the directory table, the six
    survey tables with the sentinels -1, -2 and -9 replaced by NaN, and the
    mission table as read; the directory and mission tables are not
    cleaned.  When the filter lacks a column, the loader prints the
    two-line filter error, which shows the KeyError as pandas words it, and
    returns [None] instead. *)
Theorem load_and_clean_data_of_a_complete_directory
    fs hd sfa_p1 sfa_p2 ic adm_sat adm_rate gr mission :
  numeric ["HDEGOFR1"] hd = true →
  fs !! essential "HD2022.csv" = Some hd →
  fs !! essential "SFA2122_P1.csv" = Some sfa_p1 →
  fs !! essential "SFA2122_P2.csv" = Some sfa_p2 →
  fs !! essential "IC2022_AY.csv" = Some ic →
  fs !! essential "ADM2022.csv" = Some adm_sat →
  fs !! essential "DRVADM2022.csv" = Some adm_rate →
  fs !! essential "DRVGR2022.csv" = Some gr →
  fs !! essential "IC2022Mission.csv" = Some mission →
  load_and_clean_data fs IPEDS_BASE_PATH ESSENTIAL_FILES =
    match filter_institutions hd with
    | Raise (KeyError _) =>
        ([ Print (nl +:+ "--- CRITICAL FILTER ERROR ---");
           Print ("KeyError: " +:+ filter_error hd +:+
                  " not found in HD2022.csv. Please inspect the HD2022 columns.") ],
         Ok None)
    | Ok hd_filtered =>
        ([ Print "Successfully used 'HDEGOFR1' to filter for 4-year degree-granting institutions." ],
         Ok (Some (mkTables hd_filtered
                     (pd.replace SENTINELS NaN sfa_p1) (pd.replace SENTINELS NaN sfa_p2)
                     (pd.replace SENTINELS NaN ic) (pd.replace SENTINELS NaN adm_sat)
                     (pd.replace SENTINELS NaN adm_rate) (pd.replace SENTINELS NaN gr)
                     mission)))
    end.
Proof. intros _. apply load_complete. Qed.

(** X1, witness: the scenario directory without the admissions file. *)
Lemma missing_file_stops_the_load_witness :
  load_and_clean_data scenario_without_admissions_file IPEDS_BASE_PATH
    (take 4 ESSENTIAL_FILES ++ ("adm_sat", "ADM2022.csv") :: drop 5 ESSENTIAL_FILES) =
    ([file_not_found "ADM2022.csv"], Ok None).
Proof.
  apply (missing_file_stops_the_load scenario_without_admissions_file IPEDS_BASE_PATH
           (take 4 ESSENTIAL_FILES) "adm_sat" "ADM2022.csv" (drop 5 ESSENTIAL_FILES)).
  - decide_now.
  - vm_compute; reflexivity.
Defined.

(** X3, witness: the directory of the scenario with a sentinel. *)
Lemma load_and_clean_data_of_a_complete_directory_witness :
  load_and_clean_data (directory_of scenario_with_sentinel) IPEDS_BASE_PATH ESSENTIAL_FILES =
    match filter_institutions (t_hd scenario_with_sentinel) with
    | Raise (KeyError _) =>
        ([ Print (nl +:+ "--- CRITICAL FILTER ERROR ---");
           Print ("KeyError: " +:+ filter_error (t_hd scenario_with_sentinel) +:+
                  " not found in HD2022.csv. Please inspect the HD2022 columns.") ],
         Ok None)
    | Ok hd_filtered =>
        ([ Print "Successfully used 'HDEGOFR1' to filter for 4-year degree-granting institutions." ],
         Ok (Some (mkTables hd_filtered
                     (pd.replace SENTINELS NaN (t_sfa_p1 scenario_with_sentinel))
                     (pd.replace SENTINELS NaN (t_sfa_p2 scenario_with_sentinel))
                     (pd.replace SENTINELS NaN (t_ic scenario_with_sentinel))
                     (pd.replace SENTINELS NaN (t_adm_sat scenario_with_sentinel))
                     (pd.replace SENTINELS NaN (t_adm_rate scenario_with_sentinel))
                     (pd.replace SENTINELS NaN (t_gr scenario_with_sentinel))
                     (t_mission scenario_with_sentinel))))
    end.
Proof.
  apply (load_and_clean_data_of_a_complete_directory (directory_of scenario_with_sentinel));
    vm_compute; reflexivity.
Defined.

(** What the filter error shows: the quoted label for a column of the
    mask, the list of the labels not found for the selection. *)
Example filter_error_texts :
  filter_error (frame_of ["UNITID"; "INSTNM"; "CONTROL"; "HDEGOFR1"] []) = "'ICLEVEL'" ∧
  filter_error (frame_of ["UNITID"; "ICLEVEL"; "HDEGOFR1"] []) =
    pd.double_quote +:+ "['INSTNM', 'CONTROL'] not in index" +:+ pd.double_quote.
Proof. split; vm_compute; reflexivity. Qed.

(** ** More on the metric calculator *)

Lemma lookup_fmap_get c (l : list row) i (r : row) :
  l !! i = Some r → (get c <$> l) !! i = Some (get c r).
Proof. intros H. by rewrite list_lookup_fmap, H. Qed.

(** X4.  In every row the metric calculator returns, sticker price,
    average institutional grant and middle-class net price are present, the
    MGI is the grant divided by the sticker price and the net-price ratio is
    the net price divided by the sticker price, both as the row itself
    shows them. *)
Theorem metric_rows_are_complete_and_consistent
    hd sfa_p1 sfa_p2 ic adm_sat adm_rate gr mission out df (r : row) :
  calculate_metrics hd sfa_p1 sfa_p2 ic adm_sat adm_rate gr mission = (out, Ok df) →
  r ∈ rows df →
  notna (get "Sticker_Price" r) = true ∧
  notna (get "Avg_Inst_Grant" r) = true ∧
  notna (get "Net_Price_MidClass" r) = true ∧
  get "MGI" r = Num (num (get "Avg_Inst_Grant" r) / num (get "Sticker_Price" r))%float ∧
  get "NET_PRICE_RATIO" r =
    Num (num (get "Net_Price_MidClass" r) / num (get "Sticker_Price" r))%float.
Proof.
  intros [[_ ->]|[_ Hmain]]%calculate_metrics_inv Hr.
  { by apply elem_of_nil in Hr. }
  destruct Hmain as (? & ? & ? & ? & ? & merged & _ & _ & _ & _ & _ & _ & Hd).
  destruct (derive_metrics_carried _ _ Hd) as (pool' & Hdrop' & Hgrant & _).
  apply derive_metrics_spec in Hd
    as (pool & ? & ? & Hdrop & _ & _ & _ & _ & Hlen & Hsp & Hnp & Hmgi & Hnpr & _).
  assert (pool' = pool) as -> by congruence.
  apply list_elem_of_lookup in Hr as [i Hi].
  destruct (lookup_lt_is_Some_2 (rows pool) i) as [p Hp].
  { rewrite <- Hlen. by eapply lookup_lt_Some. }
  pose proof (lookup_fmap_get "Sticker_Price" _ _ _ Hi) as Es.
  pose proof (lookup_fmap_get "Avg_Inst_Grant" _ _ _ Hi) as Eg.
  pose proof (lookup_fmap_get "Net_Price_MidClass" _ _ _ Hi) as En.
  pose proof (lookup_fmap_get "MGI" _ _ _ Hi) as Em.
  pose proof (lookup_fmap_get "NET_PRICE_RATIO" _ _ _ Hi) as Er.
  rewrite Hsp, (lookup_fmap_get _ _ _ _ Hp) in Es.
  rewrite Hgrant, (lookup_fmap_get _ _ _ _ Hp) in Eg.
  rewrite Hnp, (lookup_fmap_get _ _ _ _ Hp) in En.
  unfold pd.div in Hmgi, Hnpr.
  rewrite Hmgi, lookup_zip_with, !(lookup_fmap_get _ _ _ _ Hp) in Em.
  rewrite Hnpr, lookup_zip_with, !(lookup_fmap_get _ _ _ _ Hp) in Er.
  injection Es as <-. injection Eg as <-. injection En as <-.
  injection Em as <-. injection Er as <-.
  apply dropna_inv in Hdrop as (_ & Hrows & _).
  apply list_elem_of_lookup_2 in Hp.
  rewrite Hrows, list_elem_of_In, filter_In in Hp. destruct Hp as [_ Hc].
  rewrite complete_financial in Hc.
  apply andb_prop in Hc as [[Ht Hg]%andb_prop Hn]. done.
Qed.

(** X4, witness: the rows of the end-to-end scenario. *)
Lemma metric_rows_are_complete_and_consistent_witness :
  Forall (λ r : row,
            notna (get "Sticker_Price" r) = true ∧
            notna (get "Avg_Inst_Grant" r) = true ∧
            notna (get "Net_Price_MidClass" r) = true ∧
            get "MGI" r =
              Num (num (get "Avg_Inst_Grant" r) / num (get "Sticker_Price" r))%float ∧
            get "NET_PRICE_RATIO" r =
              Num (num (get "Net_Price_MidClass" r) / num (get "Sticker_Price" r))%float)
         (rows scenario_pool).
Proof.
  apply Forall_forall. intros r.
  apply (metric_rows_are_complete_and_consistent
           (institutions_of scenario) (t_sfa_p1 scenario) (t_sfa_p2 scenario)
           (t_ic scenario) (t_adm_sat scenario) (t_adm_rate scenario)
           (t_gr scenario) (t_mission scenario) []).
  vm_compute; reflexivity.
Defined.

(** ** The calculator on tables that have the financial columns *)

Lemma derive_metrics_total (merged_rows : list row) :
  columns <$> derive_metrics (mkDF MERGED_COLUMNS merged_rows) = Ok METRIC_COLUMNS.
Proof. vm_compute. reflexivity. Qed.

Lemma getitem_cols_Ok cs df :
  pd.missing cs df = None → pd.getitem_cols cs df = Ok (mkDF cs (pd.restrict cs <$> rows df)).
Proof. intros H. unfold pd.getitem_cols. by rewrite H. Qed.

(** The merges of the selections, with the institution table the filter
    hands on: they succeed, and give the merged columns. *)
Lemma merge_all_total (hd_rows r1 r2 r3 r4 r5 r6 r7 : list row) :
    (sfa ← pd.merge (mkDF ["UNITID"; "IGRNT_A"] r1) (mkDF ["UNITID"; "NPT442"] r2)
                    "UNITID" pd.inner;
     adm ← pd.merge (mkDF ["UNITID"; "SATVR75"; "SATMT75"] r3) (mkDF ["UNITID"; "DVADM01"] r4)
                    "UNITID" pd.left;
     merge_all (mkDF ["UNITID"; "INSTNM"; "CONTROL"] hd_rows)
               (mkDF ["UNITID"; "TUITION2"] r5) sfa adm (mkDF ["UNITID"; "GBA4RTT"] r6)
               (pd.rename [("unitid", "UNITID")] (mkDF ["unitid"; "mission"] r7)))
    = Ok (mkDF MERGED_COLUMNS
            (left_join "UNITID"
               (left_join "UNITID"
                  (left_join "UNITID"
                     (left_join "UNITID" (left_join "UNITID" hd_rows r5)
                                (inner_join "UNITID" r1 r2))
                     (left_join "UNITID" r3 r4))
                  r6)
               (pd.rename_row "unitid" "UNITID" <$> r7))).
Proof.
  do 2 rewrite merge_plain by first [decide_now | vm_compute; reflexivity].
  do 2 ok_step.
  unfold merge_all.
  change (pd.rename [("unitid", "UNITID")] (mkDF ["unitid"; "mission"] r7))
    with (mkDF ["UNITID"; "mission"] (pd.rename_row "unitid" "UNITID" <$> r7)).
  do 4 (rewrite merge_plain by first [decide_now | vm_compute; reflexivity]; ok_step).
  rewrite merge_plain by first [decide_now | vm_compute; reflexivity].
  cbn [rows columns]. by rewrite !join_rows_left, join_rows_inner.
Qed.

(** The metric calculator on tables that have the financial columns. *)
Lemma calculate_metrics_total hd sfa_p1 sfa_p2 ic adm_sat adm_rate gr mission :
  columns hd = ["UNITID"; "INSTNM"; "CONTROL"] →
  pd.missing ["UNITID"; "IGRNT_A"] sfa_p1 = None →
  pd.missing ["UNITID"; "NPT442"] sfa_p2 = None →
  pd.missing ["UNITID"; "TUITION2"] ic = None →
  ∃ out df,
    calculate_metrics hd sfa_p1 sfa_p2 ic adm_sat adm_rate gr mission = (out, Ok df) ∧
    ((length out = 2 ∧ df = empty_frame) ∨
     (out = [] ∧ columns df = METRIC_COLUMNS ∧
      derive_metrics
        (mkDF MERGED_COLUMNS
              (joined_rows (mkDF ["UNITID"; "INSTNM"; "CONTROL"] (rows hd))
                           sfa_p1 sfa_p2 ic adm_sat adm_rate gr mission)) = Ok df)).
Proof.
  intros Hhd H1 H2 H5. destruct hd as [hcols hd_rows]. simpl in Hhd. subst hcols.
  unfold calculate_metrics, merge_sfa, merge_adm.
  rewrite (getitem_cols_Ok _ _ H1), (getitem_cols_Ok _ _ H2), (getitem_cols_Ok _ _ H5).
  ok_step. ok_step.
  destruct (pd.getitem_cols _ adm_sat) as [?|[e]] eqn:H3.
  2:{ rewrite merge_plain by first [decide_now | vm_compute; reflexivity].
      rewrite M_bind_lift_Ok. eexists _, _. split; [reflexivity|]. by left. }
  apply getitem_cols_inv in H3 as ->. ok_step.
  destruct (pd.getitem_cols _ adm_rate) as [?|[e]] eqn:H4.
  2:{ rewrite merge_plain by first [decide_now | vm_compute; reflexivity].
      rewrite M_bind_lift_Ok. eexists _, _. split; [reflexivity|]. by left. }
  apply getitem_cols_inv in H4 as ->. ok_step.
  destruct (pd.getitem_cols _ gr) as [?|[e]] eqn:H6.
  2:{ do 2 rewrite merge_plain by first [decide_now | vm_compute; reflexivity].
      rewrite !M_bind_lift_Ok. eexists _, _. split; [reflexivity|]. by left. }
  apply getitem_cols_inv in H6 as ->.
  destruct (pd.getitem_cols _ mission) as [?|[e]] eqn:H7.
  2:{ do 2 rewrite merge_plain by first [decide_now | vm_compute; reflexivity].
      rewrite !M_bind_lift_Ok. eexists _, _. split; [reflexivity|]. by left. }
  apply getitem_cols_inv in H7 as ->. cbn [fmap result_fmap].
  pose proof (merge_all_total hd_rows
              (pd.restrict ["UNITID"; "IGRNT_A"] <$> rows sfa_p1)
              (pd.restrict ["UNITID"; "NPT442"] <$> rows sfa_p2)
              (pd.restrict ["UNITID"; "SATVR75"; "SATMT75"] <$> rows adm_sat)
              (pd.restrict ["UNITID"; "DVADM01"] <$> rows adm_rate)
              (pd.restrict ["UNITID"; "TUITION2"] <$> rows ic)
              (pd.restrict ["UNITID"; "GBA4RTT"] <$> rows gr)
              (pd.restrict ["unitid"; "mission"] <$> rows mission)) as Hall.
  destruct (pd.merge _ _ "UNITID" pd.inner) as [sfa|]; [|done].
  rewrite result_bind_Ok in Hall. rewrite M_bind_lift_Ok.
  destruct (pd.merge _ _ "UNITID" pd.left) as [adm|]; [|done].
  rewrite result_bind_Ok in Hall. rewrite M_bind_lift_Ok, Hall, M_bind_lift_Ok.
  pose proof (derive_metrics_total
                (joined_rows (mkDF ["UNITID"; "INSTNM"; "CONTROL"] hd_rows)
                             sfa_p1 sfa_p2 ic adm_sat adm_rate gr mission)) as Hd.
  unfold joined_rows in *. cbn [rows] in *.
  destruct (derive_metrics _) as [df|] eqn:Hdf; [|done].
  injection Hd as Hd. eexists _, _. split; [reflexivity|].
  right. split; [reflexivity|]. split; [exact Hd|reflexivity].
Qed.

(** X5.  Given the institution table as the filter hands it on, the
    identifier, grant, net-price and tuition columns in the two
    financial-aid tables and the tuition table, and no text in the
    identifiers and in the figures the calculator divides, the metric
    calculator raises nothing.  Either it prints a two-line report and
    returns the empty table (an admissions, graduation-rate or mission
    column is missing), or it prints nothing and returns a table with
    exactly the thirteen metric columns. *)
Theorem calculate_metrics_raises_nothing_given_the_financial_columns
    hd sfa_p1 sfa_p2 ic adm_sat adm_rate gr mission :
  numeric ["UNITID"] hd = true →
  numeric ["UNITID"; "IGRNT_A"] sfa_p1 = true →
  numeric ["UNITID"; "NPT442"] sfa_p2 = true →
  numeric ["UNITID"; "TUITION2"] ic = true →
  numeric ["UNITID"] adm_sat = true →
  numeric ["UNITID"; "DVADM01"] adm_rate = true →
  numeric ["UNITID"; "GBA4RTT"] gr = true →
  numeric ["unitid"] mission = true →
  columns hd = ["UNITID"; "INSTNM"; "CONTROL"] →
  Forall (λ c, c ∈ columns sfa_p1) ["UNITID"; "IGRNT_A"] →
  Forall (λ c, c ∈ columns sfa_p2) ["UNITID"; "NPT442"] →
  Forall (λ c, c ∈ columns ic) ["UNITID"; "TUITION2"] →
  ∃ out df,
    calculate_metrics hd sfa_p1 sfa_p2 ic adm_sat adm_rate gr mission = (out, Ok df) ∧
    ((length out = 2 ∧ df = empty_frame) ∨ (out = [] ∧ columns df = METRIC_COLUMNS)).
Proof.
  intros _ _ _ _ _ _ _ _ Hhd H1 H2 H3.
  destruct (calculate_metrics_total hd sfa_p1 sfa_p2 ic adm_sat adm_rate gr mission Hhd)
    as (out & df & Hcalc & Hcase); [by apply missing_None, Forall_forall..|].
  exists out, df. split; [done|]. destruct Hcase as [?|(? & ? & _)]; [by left|by right].
Qed.

(** X5, witness: the tables of the end-to-end scenario. *)
Lemma calculate_metrics_raises_nothing_given_the_financial_columns_witness :
  ∃ out df,
    calculate_metrics (institutions_of scenario) (t_sfa_p1 scenario) (t_sfa_p2 scenario)
      (t_ic scenario) (t_adm_sat scenario) (t_adm_rate scenario) (t_gr scenario)
      (t_mission scenario) = (out, Ok df) ∧
    ((length out = 2 ∧ df = empty_frame) ∨ (out = [] ∧ columns df = METRIC_COLUMNS)).
Proof.
  apply (calculate_metrics_raises_nothing_given_the_financial_columns
           (institutions_of scenario) (t_sfa_p1 scenario) (t_sfa_p2 scenario)
           (t_ic scenario) (t_adm_sat scenario) (t_adm_rate scenario) (t_gr scenario)
           (t_mission scenario));
    first [ vm_compute; reflexivity | repeat constructor; decide_now ].
Defined.

(** ** One row per institution *)

Lemma SFeqb_shared s a b :
  SpecFloat.SFeqb s a = true → SpecFloat.SFeqb s b = true → SpecFloat.SFeqb a b = true.
Proof.
  unfold SpecFloat.SFeqb.
  destruct s as [[]|[]| |[] m e], a as [[]|[]| |[] ma ea], b as [[]|[]| |[] mb eb];
    cbn; try done.
  all: change (PosDef.Pos.compare_cont Eq) with Pos.compare.
  all: repeat match goal with
       | |- context [Z.compare ?x ?x] => rewrite Z.compare_refl
       | |- context [Pos.compare ?x ?x] => rewrite Pos.compare_refl
       | |- context [Z.compare ?x ?y] => destruct (Z.compare_spec x y); subst; try done
       | |- context [Pos.compare ?x ?y] => destruct (Pos.compare_spec x y); subst; try done
       end.
Qed.

Lemma eqb_shared (x a b : float) :
  (x =? a)%float = true → (x =? b)%float = true → (a =? b)%float = true.
Proof. rewrite !FloatAxioms.eqb_spec. apply SFeqb_shared. Qed.

Lemma eqb_nan (x a : float) : is_nan x = true → (x =? a)%float = false.
Proof.
  unfold is_nan. rewrite !FloatAxioms.eqb_spec. intros H%negb_true_iff.
  destruct (SFeqb_nan_or_refl (FloatOps.Prim2SF x)) as [->|E]; [done|congruence].
Qed.

(** Two keys that match a third match each other. *)
Lemma key_eq_shared k a b :
  pd.key_eq k a = true → pd.key_eq k b = true → pd.key_eq a b = true.
Proof.
  destruct k as [x|s], a as [y|t], b as [z|u]; cbn; try done.
  - intros [Ha|[Hx Ha]%andb_prop]%orb_prop [Hb|[Hx' Hb]%andb_prop]%orb_prop.
    + by rewrite (eqb_shared _ _ _ Ha Hb).
    + by rewrite (eqb_nan _ _ Hx') in Ha.
    + by rewrite (eqb_nan _ _ Hx) in Hb.
    + by rewrite Ha, Hb, orb_true_r.
  - intros <-%bool_decide_eq_true <-%bool_decide_eq_true. by apply bool_decide_eq_true.
Qed.

Lemma distinct_keys_unique on (rs : list row) :
  distinct_keys (get on <$> rs) = true → unique_key on rs.
Proof.
  intros Hd k. induction rs as [|r rs IH]; [cbn; lia|].
  csimpl in Hd. apply andb_prop in Hd as [Hr Hd]. specialize (IH Hd).
  cbn [List.filter]. destruct (pd.key_eq k (get on r)) eqn:Hk; [|done].
  replace (List.filter _ rs) with (@nil row); [done|].
  symmetry. clear IH Hd. induction rs as [|r' rs IH]; [done|].
  csimpl in Hr. apply andb_prop in Hr as [Hr' Hr]. cbn [List.filter].
  destruct (pd.key_eq k (get on r')) eqn:Hk'; [|by apply IH].
  by rewrite (key_eq_shared _ _ _ Hk Hk') in Hr'.
Qed.

Lemma get_union_delete on (l r : row) : get on (l ∪ delete on r) = get on l.
Proof. unfold get. by rewrite lookup_union_l by apply lookup_delete_eq. Qed.

Lemma filter_length_le_1 {A} (p : A → bool) (l : list A) :
  length (List.filter p l) ≤ 1 →
  List.filter p l = [] ∨ ∃ x, List.filter p l = [x].
Proof. destruct (List.filter p l) as [|x [|y l']]; cbn; intros; [by left|right; by eexists|lia]. Qed.

(** A left join against a table with one row per key keeps the keys of the
    left rows as they are, one row for each. *)
Lemma left_join_keys on (ls rs : list row) :
  unique_key on rs → get on <$> left_join on ls rs = get on <$> ls.
Proof.
  intros Hu. unfold left_join. induction ls as [|l ls IH]; [done|].
  rewrite bind_cons, fmap_app, IH, fmap_cons. change (?x :: ?t) with ([x] ++ t) at 2.
  f_equal. unfold matching.
  destruct (filter_length_le_1 _ _ (Hu (get on l))) as [->|[r ->]]; [done|].
  csimpl. by rewrite get_union_delete.
Qed.

Lemma filter_bind {A B} (p : B → bool) (f : A → list B) (l : list A) :
  List.filter p (l ≫= f) = l ≫= λ x, List.filter p (f x).
Proof.
  induction l as [|x l IH]; [done|]. by rewrite !bind_cons, List.filter_app, IH.
Qed.

Lemma bind_filter_nil {A B} (q : A → bool) (f : A → list B) (l : list A) :
  (∀ x, q x = false → f x = []) → l ≫= f = List.filter q l ≫= f.
Proof.
  intros Hq. induction l as [|x l IH]; [done|]. cbn [List.filter].
  destruct (q x) eqn:Hx; rewrite !bind_cons; [by rewrite IH|by rewrite (Hq _ Hx)].
Qed.

(** Rows that all carry the key of the left row they were joined from. *)
Lemma joined_unique on (f : row → list row) (ls : list row) :
  (∀ l x, x ∈ f l → get on x = get on l) →
  (∀ l, length (f l) ≤ 1) →
  unique_key on ls → unique_key on (ls ≫= f).
Proof.
  intros Hkey Hlen Hu k. rewrite filter_bind.
  rewrite (bind_filter_nil (λ l, pd.key_eq k (get on l))).
  2:{ intros l Hl. induction (f l) as [|x xs IH] eqn:Hf in Hkey |- *; [done|].
      assert (get on x = get on l) as Hx by (apply Hkey; rewrite Hf; left).
      cbn. rewrite Hx, Hl. destruct xs; [done|].
      specialize (Hlen l). rewrite Hf in Hlen. cbn in Hlen. lia. }
  specialize (Hu k).
  destruct (filter_length_le_1 _ _ Hu) as [->|[l ->]]; [cbn; lia|].
  csimpl. rewrite app_nil_r.
  etrans; [apply List.filter_length_le|apply Hlen].
Qed.

Lemma left_join_unique on (ls rs : list row) :
  unique_key on ls → unique_key on rs → unique_key on (left_join on ls rs).
Proof.
  intros Hl Hr. unfold left_join. apply joined_unique; [| |done].
  - intros l x. unfold matching.
    destruct (filter_length_le_1 _ _ (Hr (get on l))) as [->|[r ->]].
    + by intros ->%list_elem_of_singleton.
    + csimpl. intros ->%list_elem_of_singleton. apply get_union_delete.
  - intros l. unfold matching.
    by destruct (filter_length_le_1 _ _ (Hr (get on l))) as [->|[r ->]].
Qed.

Lemma inner_join_unique on (ls rs : list row) :
  unique_key on ls → unique_key on rs → unique_key on (inner_join on ls rs).
Proof.
  intros Hl Hr. unfold inner_join. apply joined_unique; [| |done].
  - intros l x. unfold matching.
    destruct (filter_length_le_1 _ _ (Hr (get on l))) as [->|[r ->]].
    + by intros ?%elem_of_nil.
    + csimpl. intros ->%list_elem_of_singleton. apply get_union_delete.
  - intros l. unfold matching.
    destruct (filter_length_le_1 _ _ (Hr (get on l))) as [->|[r ->]]; cbn; lia.
Qed.

Lemma fmap_unique on on' (f : row → row) (rs : list row) :
  (∀ r, get on' (f r) = get on r) → unique_key on rs → unique_key on' (f <$> rs).
Proof.
  intros Hf Hu k. specialize (Hu k). etrans; [|exact Hu]. apply reflexive_eq.
  clear Hu. induction rs as [|r rs IH]; [done|]. csimpl. rewrite Hf.
  destruct (pd.key_eq k (get on r)); cbn; by rewrite IH.
Qed.

Lemma selected_unique on cs (df : DataFrame) :
  on ∈ cs → unique_key on (rows df) → unique_key on (pd.restrict cs <$> rows df).
Proof. intros Hc. apply fmap_unique. intros r. by apply get_restrict. Qed.

Lemma filter_fmap_sublist {A B} (p : A → bool) (f : A → B) (l : list A) :
  f <$> List.filter p l `sublist_of` f <$> l.
Proof.
  induction l as [|x l IH]; [done|]. cbn [List.filter]. destruct (p x); csimpl.
  - by apply sublist_skip.
  - by apply sublist_cons.
Qed.

Lemma getitem_cols_missing cs df d : pd.getitem_cols cs df = Ok d → pd.missing cs df = None.
Proof. unfold pd.getitem_cols. by destruct (pd.missing cs df). Qed.

(** X6.  When no two rows of a survey table have matching identifiers, in
    each of the seven survey tables, the metric calculator returns at most
    one row for each row of the institution table, in the institution
    table's order: the identifiers of the result are a sublist of the
    identifiers passed in. *)
Theorem one_row_per_institution hd sfa_p1 sfa_p2 ic adm_sat adm_rate gr mission out df :
  columns hd = ["UNITID"; "INSTNM"; "CONTROL"] →
  distinct_keys (get "UNITID" <$> rows sfa_p1) = true →
  distinct_keys (get "UNITID" <$> rows sfa_p2) = true →
  distinct_keys (get "UNITID" <$> rows ic) = true →
  distinct_keys (get "UNITID" <$> rows adm_sat) = true →
  distinct_keys (get "UNITID" <$> rows adm_rate) = true →
  distinct_keys (get "UNITID" <$> rows gr) = true →
  distinct_keys (get "unitid" <$> rows mission) = true →
  calculate_metrics hd sfa_p1 sfa_p2 ic adm_sat adm_rate gr mission = (out, Ok df) →
  get "UNITID" <$> rows df `sublist_of` get "UNITID" <$> rows hd.
Proof.
  intros Hhd U1%distinct_keys_unique U2%distinct_keys_unique U3%distinct_keys_unique
         U4%distinct_keys_unique U5%distinct_keys_unique U6%distinct_keys_unique
         U7%distinct_keys_unique Hcalc.
  destruct (calculate_metrics_inv _ _ _ _ _ _ _ _ _ _ Hcalc) as [[_ ->]|[_ Hmain]].
  { apply sublist_nil_l. }
  destruct Hmain as (? & ? & ? & ? & ? & ? & Hsfa & _ & Hic & _).
  unfold merge_sfa in Hsfa.
  apply result_bind_inv in Hsfa as (? & H1%getitem_cols_missing & Hsfa).
  apply result_bind_inv in Hsfa as (? & H2%getitem_cols_missing & _).
  apply getitem_cols_missing in Hic.
  destruct (calculate_metrics_total _ _ _ _ adm_sat adm_rate gr mission Hhd H1 H2 Hic)
    as (out' & df' & Hcalc' & Hcase).
  rewrite Hcalc in Hcalc'. injection Hcalc' as <- <-.
  destruct Hcase as [[_ ->]|(_ & _ & Hd)]; [apply sublist_nil_l|].
  destruct (derive_metrics_carried _ _ Hd) as (pool & Hdrop & _ & Hk).
  rewrite Hk by decide_now.
  apply dropna_inv in Hdrop as (_ & -> & _). cbn [rows].
  etrans; [apply filter_fmap_sublist|]. apply reflexive_eq.
  unfold joined_rows. cbn [rows].
  rewrite !left_join_keys; [done|..].
  - by apply selected_unique; [decide_now|].
  - apply inner_join_unique; by apply selected_unique; [decide_now|].
  - apply left_join_unique; by apply selected_unique; [decide_now|].
  - by apply selected_unique; [decide_now|].
  - apply (fmap_unique "unitid"); [intros r; apply get_rename_row_new|].
    by apply selected_unique; [decide_now|].
Qed.

(** X6, witness: the tables of the end-to-end scenario. *)
Lemma one_row_per_institution_witness :
  get "UNITID" <$> rows scenario_pool
    `sublist_of` get "UNITID" <$> rows (institutions_of scenario).
Proof.
  apply (one_row_per_institution
           (institutions_of scenario) (t_sfa_p1 scenario) (t_sfa_p2 scenario) (t_ic scenario)
           (t_adm_sat scenario) (t_adm_rate scenario) (t_gr scenario) (t_mission scenario) []);
    vm_compute; reflexivity.
Defined.

(** ** No eligible institution is lost *)

Lemma lookup_restrict_in c cs (r : row) : c ∈ cs → pd.restrict cs r !! c = r !! c.
Proof.
  intros Hc. unfold pd.restrict. destruct (r !! c) as [x|] eqn:Hr.
  - by rewrite (map_lookup_filter_Some_2 _ _ _ _ Hr Hc).
  - rewrite (proj2 (map_lookup_filter_None _ _ _)); [done|]. by left.
Qed.

Lemma lookup_restrict_out c cs (r : row) : c ∉ cs → pd.restrict cs r !! c = None.
Proof.
  intros Hc. unfold pd.restrict. apply map_lookup_filter_None. right. intros x _. exact Hc.
Qed.

Lemma present_cell c (r : row) : notna (get c r) = true → r !! c = Some (get c r).
Proof. unfold get. by destruct (r !! c). Qed.

Lemma get_sub c v (r x : row) : r !! c = Some v → r ⊆ x → get c x = v.
Proof. intros Hr Hs. unfold get. by rewrite (lookup_weaken _ _ _ _ Hr Hs). Qed.

(** A left row and a right row with matching keys are joined. *)
Lemma left_join_match on (ls rs : list row) (l r : row) :
  l ∈ ls → r ∈ rs → pd.key_eq (get on l) (get on r) = true →
  l ∪ delete on r ∈ left_join on ls rs.
Proof.
  intros Hl Hr Hk. unfold left_join. apply list_elem_of_bind. exists l. split; [|done].
  assert (r ∈ matching on l rs) as Hm.
  { unfold matching. by rewrite list_elem_of_In, filter_In, <- list_elem_of_In. }
  destruct (matching on l rs) as [|r' ms]; [by apply elem_of_nil in Hm|].
  apply list_elem_of_bind. exists r. split; [by apply list_elem_of_singleton|done].
Qed.

(** A left join keeps every left row, under its key. *)
Lemma left_join_keeps_key on (ls rs : list row) (l : row) :
  l ∈ ls → ∃ x, x ∈ left_join on ls rs ∧ l ⊆ x ∧ get on x = get on l.
Proof.
  intros Hl. unfold left_join.
  destruct (matching on l rs) as [|r ms] eqn:Hm.
  - exists l. split; [|done]. apply list_elem_of_bind. exists l.
    rewrite Hm. split; [left|done].
  - exists (l ∪ delete on r).
    split; [|split; [apply map_union_subseteq_l|apply get_union_delete]].
    apply list_elem_of_bind. exists l. rewrite Hm. split; [|done]. csimpl. left.
Qed.

Lemma filter_institutions_rows hd hd_filtered (l : row) :
  filter_institutions hd = Ok hd_filtered → l ∈ rows hd_filtered →
  ∃ l0 : row, l = pd.restrict ["UNITID"; "INSTNM"; "CONTROL"] l0.
Proof.
  unfold filter_institutions.
  intros (? & _ & (? & _ & (? & _ & ->%getitem_cols_inv)%result_bind_inv)%result_bind_inv)%result_bind_inv.
  cbn [rows]. intros (l0 & -> & _)%list_elem_of_fmap. by exists l0.
Qed.

(** X7.  No eligible institution is lost.  An institution the filter
    handed on, for which the tuition table has a row with a sticker price,
    financial aid part 1 a row with a grant and part 2 a row with a net
    price, all under its identifier, has a row in the calculator's result,
    whatever the admissions, graduation-rate and mission tables hold for
    it.  The row carries the identifier and those three values. *)
Theorem eligible_institutions_are_kept
    hd0 hd sfa_p1 sfa_p2 ic adm_sat adm_rate gr mission df (l t a1 a2 : row) :
  filter_institutions hd0 = Ok hd →
  calculate_metrics hd sfa_p1 sfa_p2 ic adm_sat adm_rate gr mission = ([], Ok df) →
  l ∈ rows hd →
  t ∈ rows ic → pd.key_eq (get "UNITID" l) (get "UNITID" t) = true →
  notna (get "TUITION2" t) = true →
  a1 ∈ rows sfa_p1 → pd.key_eq (get "UNITID" l) (get "UNITID" a1) = true →
  notna (get "IGRNT_A" a1) = true →
  a2 ∈ rows sfa_p2 → pd.key_eq (get "UNITID" l) (get "UNITID" a2) = true →
  notna (get "NPT442" a2) = true →
  ∃ r : row,
    r ∈ rows df ∧
    get "UNITID" r = get "UNITID" l ∧
    get "Sticker_Price" r = get "TUITION2" t ∧
    get "Avg_Inst_Grant" r = get "IGRNT_A" a1 ∧
    get "Net_Price_MidClass" r = get "NPT442" a2.
Proof.
  intros Hf Hcalc Hl Ht Kt Nt Ha1 Ka1 Na1 Ha2 Ka2 Na2.
  pose proof (filter_institutions_columns _ _ Hf) as Hhd.
  destruct (filter_institutions_rows _ _ _ Hf Hl) as [l0 El].
  destruct (calculate_metrics_inv _ _ _ _ _ _ _ _ _ _ Hcalc) as [[? _]|[_ Hmain]]; [done|].
  destruct Hmain as (? & ? & ? & ? & ? & ? & Hsfa & _ & Hic & _).
  unfold merge_sfa in Hsfa.
  apply result_bind_inv in Hsfa as (? & H1%getitem_cols_missing & Hsfa).
  apply result_bind_inv in Hsfa as (? & H2%getitem_cols_missing & _).
  apply getitem_cols_missing in Hic.
  destruct (calculate_metrics_total _ _ _ _ adm_sat adm_rate gr mission Hhd H1 H2 Hic)
    as (out' & df' & Hcalc' & Hcase).
  rewrite Hcalc in Hcalc'. injection Hcalc' as <- <-.
  destruct Hcase as [[? _]|(_ & _ & Hd)]; [done|].
  unfold joined_rows in Hd. cbn [rows] in Hd.
  set (t' := pd.restrict ["UNITID"; "TUITION2"] t).
  set (a1' := pd.restrict ["UNITID"; "IGRNT_A"] a1).
  set (a2' := pd.restrict ["UNITID"; "NPT442"] a2).
  set (j1 := l ∪ delete "UNITID" t').
  set (aid := a1' ∪ delete "UNITID" a2').
  set (j2 := j1 ∪ delete "UNITID" aid).
  assert (j2 !! "TUITION2" = Some (get "TUITION2" t) ∧
          j2 !! "IGRNT_A" = Some (get "IGRNT_A" a1) ∧
          j2 !! "NPT442" = Some (get "NPT442" a2)) as (Vt & Vg & Vn).
  { subst j2 aid j1 t' a1' a2'. rewrite El.
    repeat first [ rewrite lookup_union
                 | rewrite lookup_delete_ne by done
                 | rewrite lookup_restrict_in by decide_now
                 | rewrite lookup_restrict_out by decide_now ].
    rewrite (present_cell _ _ Nt), (present_cell _ _ Na1), (present_cell _ _ Na2).
    repeat split; reflexivity. }
  assert (j1 ∈ left_join "UNITID" (rows hd)
                 (pd.restrict ["UNITID"; "TUITION2"] <$> rows ic)) as Hj1.
  { apply left_join_match; [done|by apply list_elem_of_fmap_2|].
    subst t'. by rewrite get_restrict by decide_now. }
  assert (aid ∈ inner_join "UNITID"
                  (pd.restrict ["UNITID"; "IGRNT_A"] <$> rows sfa_p1)
                  (pd.restrict ["UNITID"; "NPT442"] <$> rows sfa_p2)) as Haid.
  { apply inner_join_elem. exists a1', a2'.
    split; [by apply list_elem_of_fmap_2|]. split; [by apply list_elem_of_fmap_2|].
    split; [|done]. subst a1' a2'. rewrite !get_restrict by decide_now.
    by apply (key_eq_shared (get "UNITID" l)). }
  pose proof (left_join_match "UNITID" _ _ _ _ Hj1 Haid) as Hj2.
  fold j2 in Hj2. specialize (Hj2 ltac:(
    subst j1 aid a1'; rewrite !get_union_delete; by rewrite get_restrict by decide_now)).
  destruct (left_join_keeps_key "UNITID" _
              (left_join "UNITID"
                 (pd.restrict ["UNITID"; "SATVR75"; "SATMT75"] <$> rows adm_sat)
                 (pd.restrict ["UNITID"; "DVADM01"] <$> rows adm_rate)) _ Hj2)
    as (j3 & Hj3 & S3 & K3).
  destruct (left_join_keeps_key "UNITID" _
              (pd.restrict ["UNITID"; "GBA4RTT"] <$> rows gr) _ Hj3)
    as (j4 & Hj4 & S4 & K4).
  destruct (left_join_keeps_key "UNITID" _
              (pd.rename_row "unitid" "UNITID" <$>
               (pd.restrict ["unitid"; "mission"] <$> rows mission)) _ Hj4)
    as (j5 & Hj5 & S5 & K5).
  assert (j2 ⊆ j5) as S by (etrans; [exact S3|etrans; [exact S4|exact S5]]).
  assert (get "UNITID" j5 = get "UNITID" l) as K.
  { rewrite K5, K4, K3. subst j2 j1. by rewrite !get_union_delete. }
  destruct (derive_metrics_carried _ _ Hd) as (pool & Hdrop & Hgrant & Hk).
  apply derive_metrics_spec in Hd
    as (pool' & ? & ? & Hdrop' & _ & _ & _ & _ & Hlen & Hsp & Hnp & _).
  assert (pool' = pool) as -> by congruence.
  apply dropna_inv in Hdrop as (_ & Hrows & _). cbn [rows] in Hrows.
  assert (j5 ∈ rows pool) as Hp.
  { rewrite Hrows, list_elem_of_In, filter_In, <- list_elem_of_In. split; [done|].
    rewrite complete_financial, (get_sub _ _ _ _ Vt S), (get_sub _ _ _ _ Vg S),
      (get_sub _ _ _ _ Vn S). by rewrite Nt, Na1, Na2. }
  apply list_elem_of_lookup in Hp as [i Hi].
  destruct (lookup_lt_is_Some_2 (rows df) i) as [r Hr].
  { rewrite Hlen. by eapply lookup_lt_Some. }
  exists r. split; [by eapply list_elem_of_lookup_2|].
  pose proof (lookup_fmap_get "UNITID" _ _ _ Hr) as Eu.
  pose proof (lookup_fmap_get "Sticker_Price" _ _ _ Hr) as Es.
  pose proof (lookup_fmap_get "Avg_Inst_Grant" _ _ _ Hr) as Eg.
  pose proof (lookup_fmap_get "Net_Price_MidClass" _ _ _ Hr) as En.
  rewrite (Hk "UNITID"), (lookup_fmap_get _ _ _ _ Hi) in Eu by decide_now.
  rewrite Hsp, (lookup_fmap_get _ _ _ _ Hi) in Es.
  rewrite Hgrant, (lookup_fmap_get _ _ _ _ Hi) in Eg.
  rewrite Hnp, (lookup_fmap_get _ _ _ _ Hi) in En.
  injection Eu as <-. injection Es as <-. injection Eg as <-. injection En as <-.
  by rewrite K, (get_sub _ _ _ _ Vt S), (get_sub _ _ _ _ Vg S), (get_sub _ _ _ _ Vn S).
Qed.

(** X7, witness: institution B of the end-to-end scenario. *)
Lemma eligible_institutions_are_kept_witness :
  ∃ r : row,
    r ∈ rows scenario_pool ∧
    get "UNITID" r = get "UNITID" (row_at 1 (institutions_of scenario)) ∧
    get "Sticker_Price" r = get "TUITION2" (row_at 1 (t_ic scenario)) ∧
    get "Avg_Inst_Grant" r = get "IGRNT_A" (row_at 1 (t_sfa_p1 scenario)) ∧
    get "Net_Price_MidClass" r = get "NPT442" (row_at 1 (t_sfa_p2 scenario)).
Proof.
  apply (eligible_institutions_are_kept
           (t_hd scenario) (institutions_of scenario) (t_sfa_p1 scenario) (t_sfa_p2 scenario)
           (t_ic scenario) (t_adm_sat scenario) (t_adm_rate scenario) (t_gr scenario)
           (t_mission scenario));
    first [ apply (list_elem_of_lookup_2 _ 1); vm_compute; reflexivity
          | vm_compute; reflexivity ].
Defined.

(** ** More on the insight generator *)

Lemma composite_score_Ok final_df :
  "MGI" ∈ columns final_df → "Graduation_Rate_4yr" ∈ columns final_df →
  "NET_PRICE_RATIO" ∈ columns final_df →
  composite_score final_df = Ok (score_of <$> rows final_df).
Proof.
  intros H1 H2 H3. unfold composite_score.
  rewrite (getitem_Ok _ _ H1), (getitem_Ok _ _ H2), (getitem_Ok _ _ H3).
  do 3 ok_step. unfold mret, result_ret. f_equal.
  unfold pd.div, pd.add. induction (rows final_df) as [|r l IH]; [done|].
  csimpl. by rewrite IH.
Qed.

Lemma composite_score_inv final_df score :
  composite_score final_df = Ok score →
  "MGI" ∈ columns final_df ∧ "Graduation_Rate_4yr" ∈ columns final_df ∧
  "NET_PRICE_RATIO" ∈ columns final_df ∧ score = score_of <$> rows final_df.
Proof.
  intros H. pose proof H as H'. unfold composite_score in H.
  apply result_bind_inv in H as (? & [H1 _]%getitem_inv & H).
  apply result_bind_inv in H as (? & [H2 _]%getitem_inv & H).
  apply result_bind_inv in H as (? & [H3 _]%getitem_inv & _).
  rewrite composite_score_Ok in H' by done. by injection H' as <-.
Qed.

Lemma setitem_rows_fmap c (f : row → cell) df :
  rows (pd.setitem c (f <$> rows df) df) = (λ r, <[c := f r]> r) <$> rows df.
Proof.
  unfold pd.setitem. cbn [rows]. induction (rows df) as [|r l IH]; [done|].
  csimpl. by rewrite IH.
Qed.

Section Ranked.

Variable argsort_desc : Series → list nat.

(** The ranking, step by step. *)
Lemma rank_Ok final_df :
  Forall (λ c, c ∈ columns final_df) INSIGHT_COLUMNS →
  rank argsort_desc final_df =
    Ok (mkDF REPORT_COLUMNS
          (take 20 (omap ((report_row <$> rows final_df) !!.)
                         (argsort_desc (score_of <$> rows final_df))))).
Proof.
  intros Hc. rewrite Forall_forall in Hc. unfold rank.
  rewrite composite_score_Ok by (apply Hc; decide_now). ok_step.
  unfold sort_values. rewrite getitem_Ok by apply setitem_columns. do 2 ok_step.
  rewrite getitem_cols_Ok.
  2:{ apply missing_None. intros c Hin. cbn [columns].
      destruct (decide (c = "Composite_Score")) as [->|Hne]; [apply setitem_columns|].
      apply setitem_columns_mono, Hc.
      unfold REPORT_COLUMNS in Hin.
      repeat (apply elem_of_cons in Hin as [->|Hin]; [first [done | decide_now]|]).
      by apply elem_of_nil in Hin. }
  ok_step. unfold mret, result_ret, pd.reset_index, pd.head. cbn [columns rows].
  do 3 f_equal. rewrite setitem_get by (by rewrite length_fmap).
  rewrite setitem_rows_fmap. unfold report_row.
  by rewrite omap_lookup_fmap, <- list_fmap_compose.
Qed.

Lemma rank_needs final_df report :
  rank argsort_desc final_df = Ok report →
  Forall (λ c, c ∈ columns final_df) INSIGHT_COLUMNS.
Proof.
  unfold rank. intros (score & (H1 & H2 & H3 & _)%composite_score_inv & H)%result_bind_inv.
  cbv zeta in H. apply result_bind_inv in H as (sorted & Hs & H).
  apply result_bind_inv in H as (final_report & Hf & _).
  unfold sort_values in Hs. apply result_bind_inv in Hs as (keys & _ & [= <-]).
  unfold pd.getitem_cols in Hf.
  destruct (pd.missing _ _) eqn:Hm; [done|].
  pose proof (proj1 (missing_None _ _) Hm) as Hall. cbn [columns] in Hall.
  assert (∀ c, c ∈ REPORT_COLUMNS → c ≠ "Composite_Score" → c ∈ columns final_df) as Hrc.
  { intros c Hin Hne. specialize (Hall c Hin). case_bool_decide; [done|].
    apply elem_of_app in Hall as [?|?%list_elem_of_singleton]; done. }
  repeat (constructor; [first [done | apply Hrc; [decide_now|done]]|]). constructor.
Qed.

Lemma get_report_row_score (r : row) : get "Composite_Score" (report_row r) = score_of r.
Proof. unfold report_row. rewrite get_restrict by decide_now. apply get_insert. Qed.

Lemma get_report_row c (r : row) :
  c ∈ REPORT_COLUMNS → c ≠ "Composite_Score" → get c (report_row r) = get c r.
Proof. intros Hc Hne. unfold report_row. rewrite get_restrict by done. by apply get_insert_ne. Qed.

(** X8.  Every row of the report is a row of the table passed in that
    passed the filter in force (the first tier when no warning was printed,
    the relaxed one after the warning).  It shows that row's cells under
    the report's columns, and as Composite_Score the row's MGI plus its
    graduation rate, divided by its net-price ratio. *)
Theorem reported_rows_are_selected_rows_with_their_score df out report (r : row) :
  generate_insights argsort_desc df = (out, Ok report) →
  r ∈ rows report →
  ∃ r0 : row,
    r0 ∈ rows df ∧
    (out = [] ∧ passes_tier1 df r0 = true ∨
     (∃ n, n < 10 ∧ out = [starvation_warning n]) ∧ passes_fallback df r0 = true) ∧
    get "Composite_Score" r = score_of r0 ∧
    ∀ c, c ∈ REPORT_COLUMNS → c ≠ "Composite_Score" → get c r = get c r0.
Proof.
  intros Hgen Hr.
  destruct (generate_insights_columns _ _ _ _ Hgen) as [Hnp Hmgi].
  rewrite (generate_insights_selects _ _ Hnp Hmgi) in Hgen.
  assert (∀ p, rank argsort_desc (keep p df) = Ok report →
               ∃ r0 : row, r0 ∈ rows df ∧ p r0 = true ∧ r = report_row r0) as Hsel.
  { intros p Hrank. pose proof (rank_needs _ _ Hrank) as Hcols.
    rewrite (rank_Ok _ Hcols) in Hrank. injection Hrank as <-. cbn [rows] in Hr.
    apply elem_of_take in Hr as (i & Hr & _).
    apply list_elem_of_lookup_2, (proj1 (list_elem_of_omap _ _ _)) in Hr as (j & _ & Hj).
    apply list_lookup_fmap_Some in Hj as (r0 & -> & Hr0).
    apply list_elem_of_lookup_2, keep_rows_elem in Hr0 as [Hr0 Hp].
    by exists r0. }
  destruct (length (rows (keep (passes_tier1 df) df)) <? 10) eqn:Hlen;
    injection Hgen as <- Hrank; destruct (Hsel _ Hrank) as (r0 & Hr0 & Hp & ->);
    exists r0; (split; [done|]); (split; [|split;
      [apply get_report_row_score|intros c; apply get_report_row]]).
  - right. split; [|done]. eexists. split; [|done]. by apply Nat.ltb_lt.
  - by left.
Qed.

Lemma generate_insights_total df :
  Forall (λ c, c ∈ columns df) INSIGHT_COLUMNS →
  ∃ out report, generate_insights argsort_desc df = (out, Ok report)
                ∧ columns report = REPORT_COLUMNS.
Proof.
  intros Hc. pose proof Hc as Hc'. rewrite Forall_forall in Hc'.
  rewrite generate_insights_selects by (apply Hc'; decide_now).
  destruct (_ <? 10); rewrite rank_Ok by done; by eexists _, _.
Qed.

(** X9.  On a table with no text in the four columns it compares and
    computes with, the insight generator raises a KeyError exactly when the
    table lacks one of the thirteen columns it filters by, scores by or
    reports; with all of them it returns a report with the thirteen report
    columns. *)
Theorem generate_insights_raises_exactly_on_a_missing_column df :
  numeric ["Net_Price_MidClass"; "MGI"; "Graduation_Rate_4yr"; "NET_PRICE_RATIO"] df = true →
  (∃ out report, generate_insights argsort_desc df = (out, Ok report)
                 ∧ columns report = REPORT_COLUMNS)
  ↔ Forall (λ c, c ∈ columns df) INSIGHT_COLUMNS.
Proof.
  intros _. split.
  - intros (out & report & Hgen & _).
    destruct (generate_insights_columns _ _ _ _ Hgen) as [Hnp Hmgi].
    rewrite (generate_insights_selects _ _ Hnp Hmgi) in Hgen.
    destruct (_ <? 10); injection Hgen as _ Hrank; apply (rank_needs _ _ Hrank).
  - apply generate_insights_total.
Qed.

End Ranked.

(** X9, witness: the metrics of the end-to-end scenario. *)
Lemma generate_insights_raises_exactly_on_a_missing_column_witness :
  (∃ out report, generate_insights stable_argsort_desc scenario_pool = (out, Ok report)
                 ∧ columns report = REPORT_COLUMNS)
  ↔ Forall (λ c, c ∈ columns scenario_pool) INSIGHT_COLUMNS.
Proof.
  apply (generate_insights_raises_exactly_on_a_missing_column stable_argsort_desc scenario_pool).
  vm_compute; reflexivity.
Defined.

(** X8, witness: the report of the end-to-end scenario, made by the relaxed filter. *)
Lemma reported_rows_are_selected_rows_with_their_score_witness :
  Forall (λ r : row,
            ∃ r0 : row,
              r0 ∈ rows scenario_pool ∧
              ([starvation_warning 1] = [] ∧ passes_tier1 scenario_pool r0 = true ∨
               (∃ n, n < 10 ∧ [starvation_warning 1] = [starvation_warning n]) ∧
               passes_fallback scenario_pool r0 = true) ∧
              get "Composite_Score" r = score_of r0 ∧
              ∀ c, c ∈ REPORT_COLUMNS → c ≠ "Composite_Score" → get c r = get c r0)
         (rows (frame_or_empty (generate_insights stable_argsort_desc scenario_pool))).
Proof.
  apply Forall_forall. intros r.
  apply (reported_rows_are_selected_rows_with_their_score stable_argsort_desc scenario_pool).
  vm_compute; reflexivity.
Defined.

(** ** The report as the top of the selection *)

Lemma omap_lookup_seq {A} (pre l : list A) :
  omap ((pre ++ l) !!.) (seq (length pre) (length l)) = l.
Proof.
  revert pre. induction l as [|x l IH]; intros pre; [done|].
  cbn [length seq omap list_omap].
  rewrite lookup_app_r, Nat.sub_diag by done. cbn [lookup list_lookup].
  f_equal. specialize (IH (pre ++ [x])).
  rewrite <- app_assoc, length_app, Nat.add_1_r in IH. exact IH.
Qed.

Lemma omap_lookup_Permutation {A} (l : list A) (idx : list nat) :
  idx ≡ₚ seq 0 (length l) → omap (l !!.) idx ≡ₚ l.
Proof. intros ->. apply (reflexive_eq _ _ (omap_lookup_seq [] l)). Qed.

Section Top.

Variable argsort_desc : Series → list nat.

(** X10.  Under the ordering contract of the sort, the report is the top
    of the selection: the selected rows, each with its score, are the rows
    of the report together with the rows left out; the report has twenty
    rows, or all of them when fewer were selected; and the score of every
    reported row may stand before the score of every row left out. *)
Theorem report_is_the_top_of_the_selection (final_df report : DataFrame) :
  rank argsort_desc final_df = Ok report →
  sorts_descending (score_of <$> rows final_df)
                   (argsort_desc (score_of <$> rows final_df)) →
  ∃ left_out : list row,
    report_row <$> rows final_df ≡ₚ rows report ++ left_out ∧
    length (rows report) = Nat.min 20 (length (rows final_df)) ∧
    Forall (λ r : row,
              Forall (λ r' : row, may_precede (get "Composite_Score" r)
                                              (get "Composite_Score" r'))
                     left_out)
           (rows report).
Proof.
  intros Hrank [Hperm Hdesc]. pose proof (rank_needs _ _ _ Hrank) as Hcols.
  rewrite (rank_Ok _ _ Hcols) in Hrank. injection Hrank as <-. cbn [rows].
  set (ranked := omap ((report_row <$> rows final_df) !!.) _).
  assert (ranked ≡ₚ report_row <$> rows final_df) as Hranked.
  { apply omap_lookup_Permutation. rewrite length_fmap in Hperm. by rewrite length_fmap. }
  exists (drop 20 ranked). split; [by rewrite take_drop|]. split.
  { by rewrite length_take, (Permutation_length Hranked), length_fmap. }
  assert (StronglySorted may_precede (get "Composite_Score" <$> ranked)) as Hsorted.
  { subst ranked. rewrite omap_lookup_fmap, <- list_fmap_compose.
    erewrite (list_fmap_ext _ score_of); [exact Hdesc|].
    intros i r _. apply get_report_row_score. }
  rewrite <- (take_drop 20 ranked), fmap_app in Hsorted.
  rewrite Forall_forall. intros r Hr. rewrite Forall_forall. intros r' Hr'.
  eapply StronglySorted_app_1_elem_of; [exact Hsorted|..]; by apply list_elem_of_fmap_2.
Qed.

End Top.

(** X10, witness: twenty-two institutions with rising scores, two of which are left out. *)
Lemma report_is_the_top_of_the_selection_witness :
  ∃ left_out : list row,
    report_row <$> rows (graded_pool 22) ≡ₚ
      rows (frame_or_empty (lift (rank stable_argsort_desc (graded_pool 22)))) ++ left_out ∧
    length (rows (frame_or_empty (lift (rank stable_argsort_desc (graded_pool 22))))) =
      Nat.min 20 (length (rows (graded_pool 22))) ∧
    Forall (λ r : row,
              Forall (λ r' : row, may_precede (get "Composite_Score" r)
                                              (get "Composite_Score" r'))
                     left_out)
           (rows (frame_or_empty (lift (rank stable_argsort_desc (graded_pool 22))))).
Proof.
  apply (report_is_the_top_of_the_selection stable_argsort_desc (graded_pool 22)).
  - vm_compute; reflexivity.
  - split; [vm_compute; exact (reverse_Permutation (seq 0 22))|decide_now].
Defined.

(** ** More on the pipeline *)

Section PipelineRuns.

Variable argsort_desc : Series → list nat.

(** X11.  When an essential file is missing, the pipeline prints its
    opening line and the line naming the first missing file, and returns:
    nothing is computed, written or drawn. *)
Theorem missing_file_ends_the_pipeline fs before key filename rest :
  ESSENTIAL_FILES = before ++ (key, filename) :: rest →
  Forall (λ kf : string * string, is_Some (fs !! essential kf.2)) before →
  fs !! essential filename = None →
  run_phase_3_pipeline argsort_desc fs =
    ([Print "--- Starting Phase 3 ETL Pipeline ---"; file_not_found filename], Ok ()).
Proof.
  intros Hfiles Hb Hf. unfold run_phase_3_pipeline.
  eapply (M_bind_intro _ _ [_]); [reflexivity|]. cbv beta.
  eapply (M_bind_intro _ _ [file_not_found filename] None []); [|reflexivity].
  unfold load_and_clean_data.
  by rewrite Hfiles, (load_core_tables_missing _ _ _ _ _ _ _ Hb Hf).
Qed.

(** X12.  When the metric calculator returns an empty table, the pipeline
    returns after it: nothing follows the line on the loaded files but what
    the calculator printed.  No report is generated, no file is written and
    no closing message is printed, also when the table is empty because no
    institution had all of sticker price, grant and net price. *)
Theorem empty_metrics_end_the_pipeline_silently fs t out1 merged_data out2 :
  load_and_clean_data fs IPEDS_BASE_PATH ESSENTIAL_FILES = (out1, Ok (Some t)) →
  calculate_metrics (t_hd t) (t_sfa_p1 t) (t_sfa_p2 t) (t_ic t)
    (t_adm_sat t) (t_adm_rate t) (t_gr t) (t_mission t) = (out2, Ok merged_data) →
  empty merged_data = true →
  run_phase_3_pipeline argsort_desc fs =
    (Print "--- Starting Phase 3 ETL Pipeline ---" :: out1 ++
     Print "Data loaded successfully from 8 essential files." :: out2,
     Ok ()).
Proof.
  intros Hload Hcalc Hempty. unfold run_phase_3_pipeline.
  eapply (M_bind_intro _ _ [_]); [reflexivity|]. cbv beta.
  eapply (M_bind_intro _ _ out1); [exact Hload|]. cbv beta iota.
  eapply (M_bind_intro _ _ [_]); [reflexivity|]. cbv beta.
  rewrite <- (app_nil_r out2).
  eapply (M_bind_intro _ _ out2); [exact Hcalc|]. cbv beta. by rewrite Hempty.
Qed.

Lemma create_visualizations_Ok (report_rows : list row) :
  create_visualizations (mkDF REPORT_COLUMNS report_rows) =
    Ok (Dumbbell (mkDF REPORT_COLUMNS (take 10 report_rows)),
        Parcoords (mkDF REPORT_COLUMNS (take 10 report_rows))).
Proof. reflexivity. Qed.

Lemma summary_table_Ok (report_rows : list row) :
  pd.getitem_cols ["INSTNM"; "Net_Price_MidClass"; "MGI"; "Composite_Score"]
                  (mkDF REPORT_COLUMNS report_rows) =
    Ok (mkDF ["INSTNM"; "Net_Price_MidClass"; "MGI"; "Composite_Score"]
             (pd.restrict ["INSTNM"; "Net_Price_MidClass"; "MGI"; "Composite_Score"]
                <$> report_rows)).
Proof. reflexivity. Qed.

Lemma generate_insights_report_columns df out report :
  generate_insights argsort_desc df = (out, Ok report) → columns report = REPORT_COLUMNS.
Proof.
  intros Hgen. destruct (generate_insights_columns _ _ _ _ Hgen) as [Hnp Hmgi].
  rewrite (generate_insights_selects _ _ Hnp Hmgi) in Hgen.
  destruct (_ <? 10); injection Hgen as _ Hrank;
    by apply rank_inv in Hrank as (? & _ & ? & _).
Qed.

(** X13.  When the report has rows, the pipeline writes it once, whole,
    to the output file, then prints the table of name, net price, MGI and
    score for its first ten rows and shows the two charts, the dumbbell
    chart first, both drawn from the first ten rows of the report. *)
Theorem nonempty_report_is_written_and_shown fs t out1 merged_data out2 out3 final_report :
  load_and_clean_data fs IPEDS_BASE_PATH ESSENTIAL_FILES = (out1, Ok (Some t)) →
  calculate_metrics (t_hd t) (t_sfa_p1 t) (t_sfa_p2 t) (t_ic t)
    (t_adm_sat t) (t_adm_rate t) (t_gr t) (t_mission t) = (out2, Ok merged_data) →
  empty merged_data = false →
  generate_insights argsort_desc merged_data = (out3, Ok final_report) →
  empty final_report = false →
  run_phase_3_pipeline argsort_desc fs =
    (Print "--- Starting Phase 3 ETL Pipeline ---" :: out1 ++
     Print "Data loaded successfully from 8 essential files." :: out2 ++
     Print ("Initial Merge Size (after financial data cleanup): " +:+
            pretty (length (rows merged_data))) ::
     Print "Metrics calculated: Merit Generosity Index (MGI) and Affordability Score." ::
     out3 ++
     [ Print ("Final Report generated. Top 20 colleges selected (" +:+
              pretty (length (rows final_report)) +:+ " results).");
       ToCsv (path_join IPEDS_BASE_PATH OUTPUT_FILE) final_report;
       Print ("Final ranked list saved to: " +:+ path_join IPEDS_BASE_PATH OUTPUT_FILE);
       Print (nl +:+ "--- Final Output ---");
       Print "Top Ranked Colleges for Middle-Class Merit Aid (Full Report Saved to CSV):";
       PrintTable
         (mkDF ["INSTNM"; "Net_Price_MidClass"; "MGI"; "Composite_Score"]
               (take 10 (pd.restrict ["INSTNM"; "Net_Price_MidClass"; "MGI"; "Composite_Score"]
                           <$> rows final_report)));
       Print (nl +:+ "Displaying final visualizations (will open in your browser):");
       Show (Dumbbell (pd.head 10 final_report));
       Show (Parcoords (pd.head 10 final_report)) ],
     Ok ()).
Proof.
  intros Hload Hcalc Hne Hgen Hrows.
  pose proof (generate_insights_report_columns _ _ _ Hgen) as Hcols.
  destruct final_report as [cols report_rows]. cbn [columns] in Hcols. subst cols.
  unfold run_phase_3_pipeline.
  eapply (M_bind_intro _ _ [_]); [reflexivity|]. cbv beta.
  eapply (M_bind_intro _ _ out1); [exact Hload|]. cbv beta iota.
  eapply (M_bind_intro _ _ [_]); [reflexivity|]. cbv beta.
  eapply (M_bind_intro _ _ out2); [exact Hcalc|]. cbv beta. rewrite Hne.
  eapply (M_bind_intro _ _ [_]); [reflexivity|]. cbv beta.
  eapply (M_bind_intro _ _ [_]); [reflexivity|]. cbv beta.
  eapply (M_bind_intro _ _ out3); [exact Hgen|]. cbv beta.
  eapply (M_bind_intro _ _ [_]); [reflexivity|]. cbv beta.
  eapply (M_bind_intro _ _ [_]); [reflexivity|]. cbv beta.
  eapply (M_bind_intro _ _ [_]); [reflexivity|]. cbv beta.
  rewrite Hrows. cbn [negb].
  rewrite create_visualizations_Ok, M_bind_lift_Ok.
  eapply (M_bind_intro _ _ [_]); [reflexivity|]. cbv beta.
  eapply (M_bind_intro _ _ [_]); [reflexivity|]. cbv beta.
  rewrite summary_table_Ok, M_bind_lift_Ok.
  reflexivity.
Qed.

End PipelineRuns.

(** X11, witness: the scenario directory without the admissions file. *)
Lemma missing_file_ends_the_pipeline_witness :
  run_phase_3_pipeline stable_argsort_desc scenario_without_admissions_file =
    ([Print "--- Starting Phase 3 ETL Pipeline ---"; file_not_found "ADM2022.csv"], Ok ()).
Proof.
  apply (missing_file_ends_the_pipeline stable_argsort_desc scenario_without_admissions_file
           (take 4 ESSENTIAL_FILES) "adm_sat" "ADM2022.csv" (drop 5 ESSENTIAL_FILES)).
  - reflexivity.
  - decide_now.
  - vm_compute; reflexivity.
Defined.

(** X12, witness: a directory whose only institution has no grant on record. *)
Lemma empty_metrics_end_the_pipeline_silently_witness :
  run_phase_3_pipeline stable_argsort_desc (directory_of unaided) =
    (Print "--- Starting Phase 3 ETL Pipeline ---" ::
     [Print "Successfully used 'HDEGOFR1' to filter for 4-year degree-granting institutions."] ++
     Print "Data loaded successfully from 8 essential files." :: [],
     Ok ()).
Proof.
  apply (empty_metrics_end_the_pipeline_silently stable_argsort_desc (directory_of unaided)
           (loaded unaided) _ (frame_or_empty (metrics_of unaided)));
    vm_compute; reflexivity.
Defined.

(** X13, witness: the directory of the end-to-end scenario. *)
Lemma nonempty_report_is_written_and_shown_witness :
  run_phase_3_pipeline stable_argsort_desc (directory_of scenario) =
    (Print "--- Starting Phase 3 ETL Pipeline ---" ::
     [Print "Successfully used 'HDEGOFR1' to filter for 4-year degree-granting institutions."] ++
     Print "Data loaded successfully from 8 essential files." :: [] ++
     Print ("Initial Merge Size (after financial data cleanup): " +:+
            pretty (length (rows scenario_pool))) ::
     Print "Metrics calculated: Merit Generosity Index (MGI) and Affordability Score." ::
     [starvation_warning 1] ++
     [ Print ("Final Report generated. Top 20 colleges selected (" +:+
              pretty (length (rows (frame_or_empty
                                      (generate_insights stable_argsort_desc scenario_pool)))) +:+
              " results).");
       ToCsv (path_join IPEDS_BASE_PATH OUTPUT_FILE)
             (frame_or_empty (generate_insights stable_argsort_desc scenario_pool));
       Print ("Final ranked list saved to: " +:+ path_join IPEDS_BASE_PATH OUTPUT_FILE);
       Print (nl +:+ "--- Final Output ---");
       Print "Top Ranked Colleges for Middle-Class Merit Aid (Full Report Saved to CSV):";
       PrintTable
         (mkDF ["INSTNM"; "Net_Price_MidClass"; "MGI"; "Composite_Score"]
               (take 10 (pd.restrict ["INSTNM"; "Net_Price_MidClass"; "MGI"; "Composite_Score"]
                           <$> rows (frame_or_empty
                                       (generate_insights stable_argsort_desc scenario_pool)))));
       Print (nl +:+ "Displaying final visualizations (will open in your browser):");
       Show (Dumbbell (pd.head 10 (frame_or_empty
                                     (generate_insights stable_argsort_desc scenario_pool))));
       Show (Parcoords (pd.head 10 (frame_or_empty
                                      (generate_insights stable_argsort_desc scenario_pool)))) ],
     Ok ()).
Proof.
  apply (nonempty_report_is_written_and_shown stable_argsort_desc (directory_of scenario)
           (loaded scenario));
    vm_compute; reflexivity.
Defined.

(** ** What the pipeline writes, on any directory *)

Lemma M_bind_fst {A B} (m : M A) (f : A → M B) :
  (m ≫= f).1 = m.1 ++ match m.2 with Ok a => (f a).1 | Raise _ => [] end.
Proof.
  destruct m as [out [a|e]]; unfold mbind, M_bind; cbn [fst snd].
  - by destruct (f a).
  - by rewrite app_nil_r.
Qed.

Lemma M_bind_snd {A B} (m : M A) (f : A → M B) :
  (m ≫= f).2 = match m.2 with Ok a => (f a).2 | Raise e => Raise e end.
Proof. destruct m as [out [a|e]]; unfold mbind, M_bind; cbn [snd]; [by destruct (f a)|done]. Qed.

Lemma csv_written_app out1 out2 : csv_written (out1 ++ out2) = csv_written out1 ++ csv_written out2.
Proof. apply omap_app. Qed.

Lemma csv_written_print s out : csv_written (Print s :: out) = csv_written out.
Proof. done. Qed.

(** A computation that writes no file. *)
Lemma writes_nothing_bind {A B} (m : M A) (f : A → M B) :
  csv_written m.1 = [] → (∀ a, csv_written (f a).1 = []) → csv_written (m ≫= f).1 = [].
Proof.
  intros Hm Hf. rewrite M_bind_fst, csv_written_app, Hm.
  destruct m.2; [apply Hf|done].
Qed.

Ltac writes_nothing :=
  repeat first
    [ reflexivity
    | apply writes_nothing_bind; [|intros ?]
    | match goal with
      | |- context [match ?x with _ => _ end] => destruct x
      end ].

Lemma load_core_tables_writes_nothing fs base_path files_map data :
  csv_written (load_core_tables fs base_path files_map data).1 = [].
Proof.
  revert data. induction files_map as [|[key filename] rest IH]; intros data; [done|].
  cbn [load_core_tables]. destruct (fs !! _); [apply IH|done].
Qed.

Lemma load_and_clean_data_writes_nothing fs base_path files_map :
  csv_written (load_and_clean_data fs base_path files_map).1 = [].
Proof.
  unfold load_and_clean_data. apply writes_nothing_bind; [apply load_core_tables_writes_nothing|].
  intros [data|]; writes_nothing.
Qed.

Lemma calculate_metrics_writes_nothing hd sfa_p1 sfa_p2 ic adm_sat adm_rate gr mission :
  csv_written (calculate_metrics hd sfa_p1 sfa_p2 ic adm_sat adm_rate gr mission).1 = [].
Proof. unfold calculate_metrics. writes_nothing. Qed.

Section Written.

Variable argsort_desc : Series → list nat.

Lemma generate_insights_writes_nothing df :
  csv_written (generate_insights argsort_desc df).1 = [].
Proof. unfold generate_insights. writes_nothing. Qed.

Lemma rank_length final_df report :
  rank argsort_desc final_df = Ok report → length (rows report) ≤ 20.
Proof.
  intros (? & _ & _ & ->)%rank_inv. rewrite length_take. lia.
Qed.

Lemma generate_insights_length df out report :
  generate_insights argsort_desc df = (out, Ok report) → length (rows report) ≤ 20.
Proof.
  intros Hgen. destruct (generate_insights_columns _ _ _ _ Hgen) as [Hnp Hmgi].
  rewrite (generate_insights_selects _ _ Hnp Hmgi) in Hgen.
  destruct (_ <? 10); injection Hgen as _ Hrank; by apply rank_length in Hrank.
Qed.

(** X14.  Whatever the directory holds, the pipeline writes at most one
    file.  If it writes one, the file is the configured output file with
    the thirteen report columns as its header and at most twenty rows, and
    the columns and rows are those of a report the insight generator
    returned. *)
Theorem pipeline_writes_at_most_the_report fs :
  csv_written (run_phase_3_pipeline argsort_desc fs).1 = [] ∨
  ∃ n, n ≤ 20 ∧
       csv_written (run_phase_3_pipeline argsort_desc fs).1 =
         [(path_join IPEDS_BASE_PATH OUTPUT_FILE, REPORT_COLUMNS, n)].
Proof.
  unfold run_phase_3_pipeline.
  rewrite M_bind_fst. cbn [print fst snd app]. rewrite csv_written_print.
  rewrite M_bind_fst, csv_written_app, load_and_clean_data_writes_nothing.
  destruct (load_and_clean_data _ _ _) as [out1 [[t|]|e]]; cbn [fst snd app]; [|by left..].
  rewrite M_bind_fst. cbn [print fst snd app]. rewrite csv_written_print.
  rewrite M_bind_fst, csv_written_app, calculate_metrics_writes_nothing.
  destruct (calculate_metrics _ _ _ _ _ _ _ _) as [out2 [merged_data|e]];
    cbn [fst snd app]; [|by left].
  destruct (empty merged_data); [by left|].
  do 2 (rewrite M_bind_fst; cbn [print fst snd app]; rewrite csv_written_print).
  rewrite M_bind_fst, csv_written_app, generate_insights_writes_nothing.
  destruct (generate_insights _ _) as [out3 [final_report|e]] eqn:Hgen;
    cbn [fst snd app]; [|by left].
  right. exists (length (rows final_report)).
  split; [by eapply generate_insights_length|].
  rewrite M_bind_fst; cbn [print fst snd app]; rewrite csv_written_print.
  rewrite M_bind_fst; cbn [emit fst snd app].
  change (csv_written (ToCsv ?p ?d :: ?l)) with ((p, columns d, length (rows d)) :: csv_written l).
  rewrite (generate_insights_report_columns _ _ _ _ Hgen). f_equal.
  rewrite M_bind_fst; cbn [print fst snd app]; rewrite csv_written_print.
  destruct (negb (empty final_report)); writes_nothing.
Qed.

End Written.

Section NoKeyError.

Variable argsort_desc : Series → list nat.

Lemma missing_replace cs olds new df : pd.missing cs (pd.replace olds new df) = pd.missing cs df.
Proof. done. Qed.

(** X15.  The pipeline raises no KeyError on a directory whose two
    financial-aid files and tuition file, where they exist, have the
    columns read from them (the identifier and, in turn, the grant, the net
    price and the tuition).  Every other file or column that is missing is
    reported on the console and ends the run normally. *)
Theorem pipeline_raises_nothing_given_the_financial_columns fs :
  (∀ df, fs !! essential "SFA2122_P1.csv" = Some df →
         Forall (λ c, c ∈ columns df) ["UNITID"; "IGRNT_A"]) →
  (∀ df, fs !! essential "SFA2122_P2.csv" = Some df →
         Forall (λ c, c ∈ columns df) ["UNITID"; "NPT442"]) →
  (∀ df, fs !! essential "IC2022_AY.csv" = Some df →
         Forall (λ c, c ∈ columns df) ["UNITID"; "TUITION2"]) →
  (run_phase_3_pipeline argsort_desc fs).2 = Ok ().
Proof.
  intros Hsfa1 Hsfa2 Hic. unfold run_phase_3_pipeline.
  rewrite M_bind_snd. cbn [print snd]. rewrite M_bind_snd.
  destruct (load_cases fs) as [[filename ->]|Hall]; [done|].
  destruct Hall as (hd & sfa_p1 & sfa_p2 & ic & adm_sat & adm_rate & gr & mission
                    & H1 & H2 & H3 & H4 & H5 & H6 & H7 & H8).
  rewrite (load_complete _ _ _ _ _ _ _ _ _ H1 H2 H3 H4 H5 H6 H7 H8).
  destruct (filter_institutions hd) as [hd_filtered|[k]] eqn:Hf; [|done].
  cbn [snd]. rewrite M_bind_snd. cbn [print snd]. rewrite M_bind_snd.
  cbn [t_hd t_sfa_p1 t_sfa_p2 t_ic t_adm_sat t_adm_rate t_gr t_mission].
  destruct (calculate_metrics_total hd_filtered
              (pd.replace SENTINELS NaN sfa_p1) (pd.replace SENTINELS NaN sfa_p2)
              (pd.replace SENTINELS NaN ic) (pd.replace SENTINELS NaN adm_sat)
              (pd.replace SENTINELS NaN adm_rate) (pd.replace SENTINELS NaN gr) mission)
    as (out & df & -> & Hcase).
  { by eapply filter_institutions_columns. }
  { rewrite missing_replace. apply missing_None, Forall_forall, Hsfa1, H2. }
  { rewrite missing_replace. apply missing_None, Forall_forall, Hsfa2, H3. }
  { rewrite missing_replace. apply missing_None, Forall_forall, Hic, H4. }
  cbn [snd]. destruct Hcase as [[_ ->]|(-> & Hcols & _)]; [done|].
  destruct (empty df); [done|].
  do 2 (rewrite M_bind_snd; cbn [print snd]). rewrite M_bind_snd.
  destruct (generate_insights_total argsort_desc df) as (out3 & [cols report_rows] & -> & Hrc).
  { rewrite Hcols. repeat constructor; decide_now. }
  cbn [columns] in Hrc. subst cols. cbn [snd].
  do 3 (rewrite M_bind_snd; cbn [print emit snd]).
  destruct (negb (empty _)); [|done].
  rewrite create_visualizations_Ok, M_bind_lift_Ok.
  do 2 (rewrite M_bind_snd; cbn [print snd]).
  by rewrite summary_table_Ok, M_bind_lift_Ok.
Qed.

End NoKeyError.

(** X15, witness: the scenario without the admission-rate column. *)
Lemma pipeline_raises_nothing_given_the_financial_columns_witness :
  (run_phase_3_pipeline stable_argsort_desc (directory_of scenario_without_admission_rate)).2
    = Ok ().
Proof.
  apply (pipeline_raises_nothing_given_the_financial_columns stable_argsort_desc
           (directory_of scenario_without_admission_rate));
    intros df Hdf; vm_compute in Hdf; injection Hdf as <-; repeat constructor; decide_now.
Defined.

(** ** The Access exporter *)

Section Exporter.

Import CSV_Conversion.

Variable w : World.

Lemma exported_app (out1 out2 : list CSV_Conversion.event) :
  exported (out1 ++ out2) = exported out1 ++ exported out2.
Proof. apply omap_app. Qed.

Lemma exported_export_table conn output_directory total_tables exported_count table_name :
  exported (export_table w conn output_directory total_tables exported_count table_name) =
  option_list (export_of w conn output_directory table_name).
Proof.
  unfold export_table, export_of.
  destruct (read_sql conn (sql_query table_name)) as [df|]; [|done].
  by destruct (to_csv w (output_csv_path output_directory table_name) df).
Qed.

Lemma exported_export_tables conn output_directory total_tables exported_count tables_to_export :
  exported (export_tables w conn output_directory total_tables exported_count tables_to_export) =
  omap (export_of w conn output_directory) tables_to_export.
Proof.
  revert exported_count.
  induction tables_to_export as [|table_name rest IH]; intros exported_count; [done|].
  cbn [export_tables]. rewrite exported_app, exported_export_table, IH.
  cbn [omap list_omap]. by destruct (export_of w conn output_directory table_name).
Qed.

Lemma exported_handler e : exported (handler e) = [].
Proof. by destruct e. Qed.

Lemma exported_closing conn :
  exported (Close :: match close conn with
                     | Some e => handler e
                     | None => completion_banner
                     end) = [].
Proof. destruct (close conn) as [e|]; [apply exported_handler|done]. Qed.

(** X16.  The files the exporter writes are, in the order of the catalog,
    one [<table>.csv] in the output directory for every table whose name
    neither starts with [MSys] nor is [Temporary] and whose query and write
    both succeed.  A table that fails is skipped and the tables after it
    are still exported; when the database file does not exist, the
    connection fails or the catalog cannot be listed, nothing is written. *)
Theorem exporter_writes_the_user_tables_that_succeed accdb_path output_directory :
  exported (accdb_to_csv_multiple_tables w accdb_path output_directory) =
    if path_exists w accdb_path then
      match connect w (conn_str accdb_path) with
      | Connected conn =>
          omap (export_of w conn output_directory) (List.filter user_table (tables conn))
      | _ => []
      end
    else [].
Proof.
  unfold accdb_to_csv_multiple_tables.
  destruct (path_exists w accdb_path); [|done].
  cbn [negb]. destruct (connect w (conn_str accdb_path)) as [conn|e];
    [|apply exported_handler].
  unfold get_table_names, tables. destruct (catalog conn) as [names|e].
  - change (exported (?a :: ?b :: ?l)) with (exported l).
    change (exported ((?a :: ?b :: []) ++ ?l)) with (exported l).
    rewrite exported_app, exported_export_tables, exported_closing.
    apply app_nil_r.
  - apply exported_handler.
Qed.

Lemma export_tables_closed_form conn output_directory total_tables exported_count tables_to_export :
  export_tables w conn output_directory total_tables exported_count tables_to_export =
  mjoin (imap (λ i table_name,
                 export_table w conn output_directory total_tables (S (exported_count + i))
                              table_name)
              tables_to_export).
Proof.
  revert exported_count.
  induction tables_to_export as [|table_name rest IH]; intros exported_count; [done|].
  cbn [export_tables imap]. rewrite IH, Nat.add_0_r. cbn [mjoin list_join].
  f_equal. f_equal. apply imap_ext. intros i x _. cbn. do 3 f_equal. lia.
Qed.

(** X17.  Every table that is not a system table is attempted, whatever
    happened to the tables before it: the table at position [i] of the user
    tables is announced as number [i + 1] of [n], where [n] counts the user
    tables only, and its query is announced after that. *)
Theorem every_user_table_is_attempted accdb_path output_directory conn i table_name :
  path_exists w accdb_path = true →
  connect w (conn_str accdb_path) = Connected conn →
  List.filter user_table (tables conn) !! i = Some table_name →
  ∃ before after,
    accdb_to_csv_multiple_tables w accdb_path output_directory =
      before ++
      [ progress (S i) (length (List.filter user_table (tables conn))) table_name;
        Print ("   -> Executing SQL: " +:+ sql_query table_name) ] ++
      after.
Proof.
  intros Hp Hc Hi. unfold accdb_to_csv_multiple_tables. rewrite Hp, Hc. cbn [negb].
  unfold get_table_names. unfold tables in *.
  destruct (catalog conn) as [names|e]; [|done].
  rewrite export_tables_closed_form.
  set (user := List.filter user_table names) in *.
  set (blocks := imap _ user).
  assert (Hb : blocks !! i =
               Some (export_table w conn output_directory (length user) (S i) table_name)).
  { subst blocks. by rewrite list_lookup_imap, Hi. }
  apply list_elem_of_split_length in Hb as (l1 & l2 & Hbl & _). rewrite Hbl.
  rewrite join_app. cbn [mjoin list_join].
  set (closing := Close :: _).
  exists ([Makedirs output_directory; Print ("Connecting to the database: " +:+ accdb_path);
           Print "Fetching list of table names...";
           Print ("Found " +:+ pretty (length user) +:+ " tables to export.")]
          ++ mjoin l1 ++ [Print (str_mul "-" 50)]),
         (drop 3 (export_table w conn output_directory (length user) (S i) table_name)
          ++ mjoin l2 ++ closing).
  unfold export_table. cbn [drop app].
  rewrite drop_0. cbn [app]. rewrite <- ?app_assoc. cbn [app]. by rewrite <- ?app_assoc.
Qed.

Lemma not_closed_by_handler e : Close ∉ handler e.
Proof.
  destruct e; cbn [handler]; rewrite !elem_of_cons, elem_of_nil;
    intros H; decompose [or] H; discriminate || done.
Qed.

Lemma not_closed_by_banner : Close ∉ completion_banner.
Proof.
  unfold completion_banner. rewrite !elem_of_cons, elem_of_nil.
  intros H; decompose [or] H; discriminate || done.
Qed.

Lemma not_closed_by_export_tables conn output_directory total_tables exported_count l :
  Close ∉ export_tables w conn output_directory total_tables exported_count l.
Proof.
  revert exported_count. induction l as [|t l IH]; intros n; cbn [export_tables].
  - apply not_elem_of_nil.
  - rewrite elem_of_app. intros [H|H]; [|by eapply IH].
    unfold export_table in H.
    destruct (read_sql conn (sql_query t)) as [df|];
      [destruct (to_csv w (output_csv_path output_directory t) df)|];
      repeat (apply elem_of_cons in H as [H|H]; [discriminate H|]);
      by apply elem_of_nil in H.
Qed.

(** X18.  [conn.close()] is called once, after the last file is written,
    when the catalog of the connection could be listed; the completion
    banner follows unless the call raises.  When listing the catalog
    raises, the handler reports it and the connection that was opened is
    never closed.  Without a connection nothing is closed and nothing is
    written. *)
Theorem connection_is_closed_only_after_a_listing accdb_path output_directory :
  let out := accdb_to_csv_multiple_tables w accdb_path output_directory in
  match path_exists w accdb_path, connect w (conn_str accdb_path) with
  | true, Connected conn =>
      match catalog conn with
      | Returned _ =>
          ∃ before after,
            out = before ++ Close :: after ∧ (Close ∉ before) ∧ (Close ∉ after) ∧
            exported after = [] ∧
            after = match close conn with
                    | Some e => handler e
                    | None => completion_banner
                    end
      | Raised e =>
          (Close ∉ out) ∧ exported out = [] ∧
          out = [ Makedirs output_directory;
                  Print ("Connecting to the database: " +:+ accdb_path);
                  Print "Fetching list of table names..." ] ++ handler e
      end
  | _, _ => (Close ∉ out) ∧ exported out = []
  end.
Proof.
  cbv zeta. unfold accdb_to_csv_multiple_tables.
  destruct (path_exists w accdb_path); cbn [negb].
  2: { destruct (connect w (conn_str accdb_path)); (split; [|done]);
       by intros ?%list_elem_of_singleton. }
  destruct (connect w (conn_str accdb_path)) as [conn|e].
  - unfold get_table_names. destruct (catalog conn) as [names|e].
    + set (user := List.filter user_table names).
      eexists (_ :: _ :: _ :: _ :: _), _. split; [reflexivity|].
      split; [|split; [|split; [|reflexivity]]].
      * rewrite !elem_of_cons.
        intros [?|[?|[?|[?|?]]]]; try discriminate.
        by eapply not_closed_by_export_tables.
      * destruct (close conn); [apply not_closed_by_handler|apply not_closed_by_banner].
      * destruct (close conn); [apply exported_handler|done].
    + split; [|split; [exact (exported_handler e)|reflexivity]].
      cbn [app]. rewrite !elem_of_cons.
      intros [?|[?|[?|?]]]; try discriminate. by eapply not_closed_by_handler.
  - split; [|exact (exported_handler e)].
    rewrite !elem_of_cons.
    intros [?|[?|?]]; try discriminate. by eapply not_closed_by_handler.
Qed.

(** A driver that cannot list the catalog: the connection is left open. *)
Example unlisted_catalog_leaves_the_connection_open :
  accdb_to_csv_multiple_tables unlisted_world ACCD_FILE OUTPUT_DIR =
    [ Makedirs OUTPUT_DIR;
      Print ("Connecting to the database: " +:+ ACCD_FILE);
      Print "Fetching list of table names..." ] ++
    handler (OdbcError "HY000" "catalog not available").
Proof. vm_compute; reflexivity. Qed.

Lemma has_sep_app p q : has_sep (p +:+ q) = has_sep p || has_sep q.
Proof.
  induction p as [|a p IH]; [done|].
  change (String a p +:+ q) with (String a (p +:+ q)).
  cbn [has_sep]. by rewrite IH, orb_assoc.
Qed.

Lemma after_last_sep_plain name : has_sep name = false → after_last_sep name = name.
Proof.
  destruct name as [|a name]; [done|]. cbn [has_sep after_last_sep].
  intros [Ha ->]%orb_false_elim. by rewrite Ha.
Qed.

Lemma ends_with_sep_has_sep p : ends_with_sep p = true → has_sep p = true.
Proof.
  induction p as [|a p IH]; [done|]. cbn [has_sep].
  destruct p as [|b p]; [cbn; by intros ->|].
  intros H. rewrite IH; [apply orb_true_r|done].
Qed.

(** After a directory that is empty or ends with a separator. *)
Lemma after_last_sep_app dir name :
  has_sep name = false → (dir = "" ∨ ends_with_sep dir = true) →
  after_last_sep (dir +:+ name) = name.
Proof.
  intros Hn [->|Hd]; [by apply after_last_sep_plain|].
  induction dir as [|a dir IH]; [done|].
  change (String a dir +:+ name) with (String a (dir +:+ name)).
  cbn [after_last_sep]. rewrite has_sep_app, Hn, orb_false_r.
  destruct dir as [|b dir].
  - cbn in Hd. cbn [has_sep]. by rewrite Hd.
  - rewrite (ends_with_sep_has_sep (String b dir)) by done. by apply IH.
Qed.

Lemma ends_with_sep_app dir : ends_with_sep (dir +:+ "\") = true.
Proof.
  induction dir as [|a dir IH]; [done|].
  change (String a dir +:+ "\") with (String a (dir +:+ "\")).
  cbn [ends_with_sep]. destruct (dir +:+ "\") eqn:E; [|done].
  by destruct dir.
Qed.

Lemma splitdrive_plain name : has_colon name = false → splitdrive name = ("", name).
Proof.
  destruct name as [|a [|b name]]; [done..|]. cbn [has_colon splitdrive].
  intros [_ [-> _]%orb_false_elim]%orb_false_elim. done.
Qed.

Lemma with_sep_ends dir :
  dir ≠ "" →
  let dir' := if negb (bool_decide (dir = "")) && negb (ends_with_sep dir)
              then dir +:+ "\" else dir in
  ends_with_sep dir' = true.
Proof.
  intros Hd. cbv zeta. rewrite bool_decide_eq_false_2 by done. cbn [negb andb].
  destruct (ends_with_sep dir) eqn:E; [done|]. apply ends_with_sep_app.
Qed.

Lemma with_sep_empty_or_ends dir :
  let dir' := if negb (bool_decide (dir = "")) && negb (ends_with_sep dir)
              then dir +:+ "\" else dir in
  dir' = "" ∨ ends_with_sep dir' = true.
Proof.
  destruct (decide (dir = "")) as [->|Hd]; [by left|].
  right. by apply with_sep_ends.
Qed.

(** The base name of a joined path is the name that was joined, when the
    name holds neither a separator nor a colon. *)
Lemma basename_join dir name :
  has_sep name = false → has_colon name = false →
  basename (join dir name) = name.
Proof.
  intros Hs Hc. unfold join. rewrite (splitdrive_plain name Hc).
  assert (starts_with_sep name = false) as ->.
  { destruct name as [|a name]; [done|]. cbn in *. by apply orb_false_elim in Hs as [-> _]. }
  rewrite (bool_decide_eq_true_2 ("" = "")) by done. cbn [negb andb].
  destruct (splitdrive dir) as [result_drive result_path] eqn:Hd.
  pose proof (with_sep_empty_or_ends result_path) as Hp. cbv zeta in Hp.
  cbv zeta.
  set (result_path' := if negb (bool_decide (result_path = "")) && negb (ends_with_sep result_path)
                       then result_path +:+ "\" else result_path) in *.
  unfold basename.
  destruct dir as [|a [|b rest]].
  - injection Hd as <- <-. subst result_path'.
    change (after_last_sep (splitdrive name).2 = name).
    rewrite (splitdrive_plain name Hc). by apply after_last_sep_plain.
  - injection Hd as <- <-.
    change ("" +:+ result_path' +:+ name) with (result_path' +:+ name).
    assert (splitdrive (result_path' +:+ name) = ("", result_path' +:+ name)) as ->.
    { subst result_path'. cbn [bool_decide negb andb]. 
      destruct (negb (bool_decide (String a "" = "")) && negb (ends_with_sep (String a ""))).
      - done.
      - destruct name as [|c name]; [done|]. cbn in Hc.
        apply orb_false_elim in Hc as [Hc _].
        change (String a "" +:+ String c name) with (String a (String c name)).
        cbn [splitdrive]. by rewrite Hc. }
    by apply after_last_sep_app.
  - cbn [splitdrive] in Hd. destruct (is_colon b) eqn:Hb.
    + injection Hd as <- <-.
      change (String a (String b "") +:+ result_path' +:+ name)
        with (String a (String b (result_path' +:+ name))).
      cbn [splitdrive]. rewrite Hb. cbn [snd]. by apply after_last_sep_app.
    + injection Hd as <- <-.
      change ("" +:+ result_path' +:+ name) with (result_path' +:+ name).
      assert (∃ tl, result_path' = String a (String b tl)) as [tl Htl].
      { subst result_path'. destruct (_ && _); by eexists. }
      rewrite Htl in *.
      change (String a (String b tl) +:+ name) with (String a (String b (tl +:+ name))).
      cbn [splitdrive]. rewrite Hb. cbn [snd].
      change (String a (String b (tl +:+ name))) with (String a (String b tl) +:+ name).
      by apply after_last_sep_app.
Qed.

Lemma has_colon_app p q : has_colon (p +:+ q) = has_colon p || has_colon q.
Proof.
  induction p as [|a p IH]; [done|].
  change (String a p +:+ q) with (String a (p +:+ q)).
  cbn [has_colon]. by rewrite IH, orb_assoc.
Qed.

(** X19.  For a table that is exported and whose name holds neither a path
    separator nor a colon, into a directory that is not a UNC path, the
    success line gives the number of rows read and names the file
    [<table>.csv]: the base name of the path written is the file name the
    path was joined from. *)
Theorem success_line_names_the_file conn output_directory total_tables exported_count
    table_name df :
  unc output_directory = false →
  has_sep table_name = false →
  has_colon table_name = false →
  read_sql conn (sql_query table_name) = Returns df →
  to_csv w (output_csv_path output_directory table_name) df = Returns () →
  last (export_table w conn output_directory total_tables exported_count table_name) =
    Some (Print ("   -> Success: Saved " +:+ pretty (length (rows df)) +:+ " rows to " +:+
                 table_name +:+ ".csv")).
Proof.
  intros _ Hs Hc Hr Hw. unfold export_table. rewrite Hr, Hw. cbn [app last].
  unfold output_csv_path. rewrite basename_join; [done| |].
  - rewrite has_sep_app. by rewrite Hs.
  - rewrite has_colon_app. by rewrite Hc.
Qed.

(** A table name with a drive designator: the file lands on that drive,
    relative to its current directory, and the line names what follows the
    colon. *)
Example drive_in_a_table_name :
  output_csv_path OUTPUT_DIR "a:b" = "a:b.csv" ∧
  basename (output_csv_path OUTPUT_DIR "a:b") = "b.csv" ∧
  output_csv_path OUTPUT_DIR "HD2022" = "C:\Users\amatu\Downloads\Phase_3\HD2022.csv".
Proof. repeat split; vm_compute; reflexivity. Qed.

End Exporter.

(** X17, witness: the third user table of the sample database, after the one that cannot be read. *)
Lemma every_user_table_is_attempted_witness :
  ∃ before after,
    CSV_Conversion.accdb_to_csv_multiple_tables CSV_Conversion.sample_world
        CSV_Conversion.ACCD_FILE CSV_Conversion.OUTPUT_DIR =
      before ++
      [ CSV_Conversion.progress 3
          (length (List.filter CSV_Conversion.user_table
                     (CSV_Conversion.tables CSV_Conversion.sample_connection)))
          "IC2022";
        CSV_Conversion.Print
          ("   -> Executing SQL: " +:+ CSV_Conversion.sql_query "IC2022") ] ++
      after.
Proof.
  apply (every_user_table_is_attempted CSV_Conversion.sample_world
           CSV_Conversion.ACCD_FILE CSV_Conversion.OUTPUT_DIR
           CSV_Conversion.sample_connection 2 "IC2022");
    vm_compute; reflexivity.
Defined.

(** X19, witness: the first user table of the sample database. *)
Lemma success_line_names_the_file_witness :
  last (CSV_Conversion.export_table CSV_Conversion.sample_world
          CSV_Conversion.sample_connection CSV_Conversion.OUTPUT_DIR 3 1 "HD2022") =
    Some (CSV_Conversion.Print
            ("   -> Success: Saved " +:+
             pretty (length (rows (mkDF ["UNITID"] [{[ "UNITID" := Num 1 ]}]))) +:+
             " rows to " +:+ "HD2022" +:+ ".csv")).
Proof.
  apply (success_line_names_the_file CSV_Conversion.sample_world
           CSV_Conversion.sample_connection CSV_Conversion.OUTPUT_DIR 3 1 "HD2022"
           (mkDF ["UNITID"] [{[ "UNITID" := Num 1 ]}]));
    vm_compute; reflexivity.
Defined.
